(** * OCTOPUS_AUTOMATION: batch sync pipeline

    A shallow embedding of the parts of the repository that the
    specification talks about:

    - [email_reader_attachment_download.py] (module [EmailReader]): the
      dedup index, the candidate resolver and the per-vehicle syncer;
    - [report_generator.py] and [script4.py] (modules [ReportGenerator],
      [Script4]) over a common model of [ThreadPoolExecutor] (module
      [Pool]): the batch drivers, the single-flight guard and the join
      barrier;
    - [Launcher.py] (modules [Launcher], [LauncherGUI]): the sticker-folder
      rotation and the flows behind the three buttons;
    - [Octopus_login.py] (module [Octopus]): the date picker, the vehicle
      list and the main flow of phase 1;
    - [report_generator.py] (module [VehicleReport]) and [script4.py]
      (module [Upload]): the report of one vehicle, on disk and on the
      Drive.

    Python [str] is embedded as [string]; character classes ([lower],
    [isspace], [\d]) are the ASCII ones, bytes above 127 are left alone. *)

From stdpp Require Import gmap strings list relations sorting.
From Stdlib Require Import ZArith Ascii.

Local Open Scope Z_scope.

(** ** Python strings *)

Module Str.

Definition lower_ascii (c : ascii) : ascii :=
  let n := nat_of_ascii c in
  if (65 <=? n)%nat && (n <=? 90)%nat then ascii_of_nat (n + 32) else c.

Fixpoint lower (s : string) : string :=
  match s with
  | EmptyString => EmptyString
  | String c r => String (lower_ascii c) (lower r)
  end.

(** [s.endswith(suf)] *)
Definition endswith (s suf : string) : bool :=
  (String.length suf <=? String.length s)%nat &&
  String.eqb (String.substring (String.length s - String.length suf)
                               (String.length suf) s) suf.

(** [s.startswith(pre)] *)
Definition startswith (s pre : string) : bool := String.prefix pre s.

(** [s.replace(a, b)] for one-character [a] and [b]. *)
Fixpoint replace (a b : ascii) (s : string) : string :=
  match s with
  | EmptyString => EmptyString
  | String c r => String (if Ascii.eqb c a then b else c) (replace a b r)
  end.

(** [s.split(sep)[0]]: the text before the first [sep]. *)
Fixpoint split_first (sep : ascii) (s : string) : string :=
  match s with
  | EmptyString => EmptyString
  | String c r => if Ascii.eqb c sep then EmptyString
                  else String c (split_first sep r)
  end.

(** [s.split(sep)[-1]]: the text after the last [sep]; [cur] holds, in
    reverse, the characters read since the last separator. *)
Fixpoint split_last_go (sep : ascii) (cur s : string) : string :=
  match s with
  | EmptyString => String.rev cur
  | String c r => if Ascii.eqb c sep then split_last_go sep EmptyString r
                  else split_last_go sep (String c cur) r
  end.
Definition split_last (sep : ascii) (s : string) : string :=
  split_last_go sep EmptyString s.

(** [str.isspace] on one character. *)
Definition isspace (c : ascii) : bool :=
  let n := nat_of_ascii c in
  ((9 <=? n)%nat && (n <=? 13)%nat) ||
  ((28 <=? n)%nat && (n <=? 32)%nat).

Fixpoint lstrip (s : string) : string :=
  match s with
  | EmptyString => EmptyString
  | String c r => if isspace c then lstrip r else s
  end.

(** [s.strip()] *)
Definition strip (s : string) : string :=
  String.rev (lstrip (String.rev (lstrip s))).

Definition is_digit (c : ascii) : bool :=
  let n := nat_of_ascii c in (48 <=? n)%nat && (n <=? 57)%nat.

(** [c in s] for a character [c]. *)
Fixpoint has (c : ascii) (s : string) : bool :=
  match s with
  | EmptyString => false
  | String a r => Ascii.eqb a c || has c r
  end.

(** [s.split(sep, 1)[1]]: the text after the first [sep], when there is
    one. *)
Fixpoint split_after (sep : ascii) (s : string) : option string :=
  match s with
  | EmptyString => None
  | String c r => if Ascii.eqb c sep then Some r else split_after sep r
  end.

(** [s.replace(old, new)] for a non-empty [old]; [skip] counts the characters
    of a match that are still to be passed over. *)
Fixpoint replace_go (old new : string) (skip : nat) (s : string) : string :=
  match s with
  | EmptyString => EmptyString
  | String c r =>
      match skip with
      | S k => replace_go old new k r
      | O => if String.prefix old s
             then new +:+ replace_go old new (String.length old - 1) r
             else String c (replace_go old new 0 r)
      end
  end.
Definition replace_str (old new s : string) : string := replace_go old new 0 s.

End Str.

(** ** Effects: state, exceptions, [try]/[except]/[finally], [for] *)

Module Py.

(** An instance of [Exception], the class every handler of the source
    names. *)
Inductive exn := Exception (what : string).

Inductive result (A : Type) := Ok (a : A) | Raise (e : exn).
Global Arguments Ok {A} a.
Global Arguments Raise {A} e.

(** A computation over a world [S]: effects done before a [raise] stay. *)
Definition M (S A : Type) : Type := S -> result A * S.

Definition ret {S A} (a : A) : M S A := fun w => (Ok a, w).
Definition raise {S A} (e : exn) : M S A := fun w => (Raise e, w).
Definition bind {S A B} (m : M S A) (k : A -> M S B) : M S B :=
  fun w => match m w with
           | (Ok a, w') => k a w'
           | (Raise e, w') => (Raise e, w')
           end.
Definition lift {S A} (r : result A) : M S A := fun w => (r, w).

(** [try: m  except Exception as e: h e] *)
Definition try_except {S A} (m : M S A) (h : exn -> M S A) : M S A :=
  fun w => match m w with
           | (Ok a, w') => (Ok a, w')
           | (Raise e, w') => h e w'
           end.

(** [try: m  finally: f] *)
Definition try_finally {S A B} (m : M S A) (f : M S B) : M S A :=
  fun w => match m w with
           | (r, w') => match f w' with
                        | (Ok _, w'') => (r, w'')
                        | (Raise e, w'') => (Raise e, w'')
                        end
           end.

(** [for x in l: body x] *)
Fixpoint for_each {S A} (l : list A) (body : A -> M S unit) : M S unit :=
  match l with
  | [] => ret tt
  | x :: rest => bind (body x) (fun _ => for_each rest body)
  end.

(** [for x in l: acc = body x acc] *)
Fixpoint for_fold {S A B} (l : list A) (acc : B) (body : A -> B -> M S B)
  : M S B :=
  match l with
  | [] => ret acc
  | x :: rest => bind (body x acc) (fun acc' => for_fold rest acc' body)
  end.

(** What a call evaluates to, as far as the claims look at it: [None], a
    string, or an object with integer attributes. *)
Inductive pyobj :=
| PyNone
| PyStr (s : string)
| PyRecord (fields : list (string * Z)).

Global Instance exn_eq_dec : EqDecision exn.
Proof. solve_decision. Defined.
Global Instance result_eq_dec {A} `{EqDecision A} : EqDecision (result A).
Proof. solve_decision. Defined.
Global Instance pyobj_eq_dec : EqDecision pyobj.
Proof. solve_decision. Defined.

Definition has_int_field (name : string) (v : pyobj) : Prop :=
  match v with
  | PyRecord fields => exists n, (name, n) ∈ fields
  | _ => False
  end.

End Py.

Notation "x <- m ;; k" := (Py.bind m (fun x => k))
  (at level 100, m at next level, right associativity).
Notation "m ;;; k" := (Py.bind m (fun _ => k))
  (at level 100, right associativity).

(** ** email_reader_attachment_download.py *)

Module EmailReader.
Import Py.

(** *** Data *)

(** [datetime.date]: year, month, day. *)
Definition date : Type := Z * Z * Z.

(** [pandas.Timestamp]: a date and the time of day. *)
Definition Timestamp : Type := date * Z.

(** A value of a [DataFrame] column as [pd.read_excel] yields it. *)
Inductive cell :=
| NaN
| Stamp (t : Timestamp)
| Text (s : string)
| Number (z : Z).

Definition notna (c : cell) : bool :=
  match c with NaN => false | _ => true end.

(** [Series.dropna()] *)
Definition dropna (ser : list cell) : list cell := filter (fun c => notna c = true) ser.

(** A file of a vehicle folder, seen through [pd.read_excel]: either the call
    raises, or it yields a frame (column name to column). *)
Inductive file :=
| Unreadable
| Workbook (df : gmap string (list cell)).

(** An [<a>] tag and its [href] attribute, when it has one. *)
Record anchor := { href : option string }.

(** A [<td>] tag, by the two calls the source makes on it:
    [get_text(strip=True)] and [find("a")], the first [<a>] tag below it. *)
Record td := { get_text : string; find_a : option anchor }.

(** A parsed message, reduced to what [extract_all_links] reads of it: for
    each [<tr>] of [soup.find_all("tr")], its [row.find_all("td")]. *)
Definition message : Type := list (list td).

(** [(href, date_range, report_type)] *)
Definition link : Type := string * string * string.

(** What [requests.get] and the streaming of the body come to. *)
Inductive response :=
| Failed (e : exn)                 (* nothing was written *)
| Truncated (f : file) (e : exn)   (* the stream broke; [f] is left on disk *)
| Body (f : file).

(** The collaborators outside of the repository. *)
Record env := {
  (** [pd.to_datetime(v, dayfirst=..., errors="coerce")]; [None] is [NaT]. *)
  pd_to_datetime : bool -> cell -> option Timestamp;
  (** [imaplib.IMAP4_SSL(...)], [login], [select] *)
  imap_login : result unit;
  (** [mail.search] for a vehicle: status is OK, and the ids of [data[0]]. *)
  imap_search : string -> result (bool * list string);
  (** [mail.fetch] of an id: status is OK, and the message. *)
  imap_fetch : string -> result (bool * message);
  requests_get : string -> response;
  (** The lines of [vehicle_list.txt], when the file exists. *)
  vehicle_file : option (list string);
}.

Inductive level := DEBUG | INFO | WARNING | ERROR.

(** The log records of the module, by call site. *)
Inductive msg :=
| FailedToConnect (e : exn)
| NoEmailsFound (vehicle_id : string)
| FoundEmails (n : nat) (vehicle_id : string)
| FirstCreatedAtInvalid (file : string) (first_val : cell)
| CreatedAtNotFound (file : string)
| CouldNotRead (folder file : string) (e : exn)
| Downloading (url : string)
| SavedFile (local_filename : string)
| FailedToDownload (url : string) (e : exn)
| ProcessingVehicle (vehicle_id : string)
| FailedToFetch (vehicle_id : string)
| NoReportLinks (vehicle_id : string)
| InvalidDate (vehicle_id date_range : string)
| Skipping (vehicle_id : string) (link_date : date)
| DownloadingReport (report_type : string) (idx n : nat) (vehicle_id date_range : string)
| StartingPhase2
| VehicleFileNotFound
| VehicleFileEmpty
| ErrorProcessing (vehicle_id : string) (e : exn)
| AllFetched.

Inductive event :=
| Log (lv : level) (m : msg)
| Get (url : string)          (* [requests.get(url, ...)] *)
| Login
| Logout.

(** [disk]: the folders under [ROOT_DOWNLOAD_DIR], by vehicle id, each a map
    from file name to file. [journal]: the effects so far, oldest first. *)
Record world := {
  disk : gmap string (gmap string file);
  journal : list event;
}.

Definition emit (e : event) : M world unit :=
  fun w => (Ok tt, {| disk := disk w; journal := journal w ++ [e] |}).

Definition log (lv : level) (m : msg) : M world unit := emit (Log lv m).

(** [os.makedirs(folder, exist_ok=True)] *)
Definition os_makedirs (folder : string) : M world unit :=
  fun w => match disk w !! folder with
           | Some _ => (Ok tt, w)
           | None => (Ok tt, {| disk := <[folder := ∅]> (disk w); journal := journal w |})
           end.

(** [os.listdir(folder)] *)
Definition os_listdir (folder : string) : M world (list string) :=
  fun w => match disk w !! folder with
           | Some files => (Ok (map_to_list files).*1, w)
           | None => (Raise (Exception "FileNotFoundError"), w)
           end.

(** [pd.read_excel(os.path.join(folder, file), engine="openpyxl")] *)
Definition pd_read_excel (folder file : string) : M world (gmap string (list cell)) :=
  fun w => match disk w !! folder with
           | Some files =>
               match files !! file with
               | Some (Workbook df) => (Ok df, w)
               | Some Unreadable => (Raise (Exception "BadZipFile"), w)
               | None => (Raise (Exception "FileNotFoundError"), w)
               end
           | None => (Raise (Exception "FileNotFoundError"), w)
           end.

(** [open(os.path.join(folder, name), "wb")] and the writes that follow. *)
Definition write_file (folder name : string) (f : file) : M world unit :=
  fun w => match disk w !! folder with
           | Some files =>
               (Ok tt, {| disk := <[folder := <[name := f]> files]> (disk w);
                          journal := journal w |})
           | None => (Raise (Exception "FileNotFoundError"), w)
           end.

Section with_env.
Variable E : env.

(** *** clean_or_create_folder *)

Definition clean_or_create_folder (vehicle_id : string) : M world string :=
  let vehicle_folder := vehicle_id in
  os_makedirs vehicle_folder ;;;
  ret vehicle_folder.

(** *** parse_email_date *)

(** One or two digits at the head of [s], as many as there are. *)
Definition digits12 (s : string) : option (string * string) :=
  match s with
  | String a (String b r) =>
      if Str.is_digit a
      then Some (if Str.is_digit b then (String a (String b ""), r)
                 else (String a "", String b r))
      else None
  | String a "" => if Str.is_digit a then Some (String a "", "") else None
  | "" => None
  end.

(** [\d{1,2}/\d{1,2}/\d{4}] matched at the head of [s]. *)
Definition match_dmy (s : string) : option string :=
  match digits12 s with
  | Some (d, String "/" r1) =>
      match digits12 r1 with
      | Some (m, String "/" (String y1 (String y2 (String y3 (String y4 _))))) =>
          if Str.is_digit y1 && Str.is_digit y2 && Str.is_digit y3 && Str.is_digit y4
          then Some (d +:+ "/" +:+ m +:+ "/" +:+
                     String y1 (String y2 (String y3 (String y4 ""))))
          else None
      | _ => None
      end
  | _ => None
  end.

(** [re.search(r'(\d{1,2}/\d{1,2}/\d{4})', s)]: the leftmost match. *)
Fixpoint re_search_dmy (s : string) : option string :=
  match match_dmy s with
  | Some m => Some m
  | None => match s with
            | "" => None
            | String _ r => re_search_dmy r
            end
  end.

Definition parse_email_date (date_str : string) : option date :=
  match pd_to_datetime E true (Text date_str) with
  | Some dt => Some dt.1
  | None =>
      match re_search_dmy date_str with
      | Some m =>
          match pd_to_datetime E true (Text m) with
          | Some dt => Some dt.1
          | None => None
          end
      | None => None
      end
  end.

(** *** get_existing_first_created_dates *)

(** The body of the [try] for one [.xlsx] file. *)
Definition read_first_created (folder file : string) (existing_dates : gset date)
  : M world (gset date) :=
  df <- pd_read_excel folder file ;;
  match df !! "createdAt" with
  | Some col =>
      match dropna col with
      | first_val :: _ =>
          match pd_to_datetime E false first_val with
          | Some dt => ret ({[ dt.1 ]} ∪ existing_dates)
          | None => log DEBUG (FirstCreatedAtInvalid file first_val) ;;;
                    ret existing_dates
          end
      | [] => ret existing_dates
      end
  | None => log DEBUG (CreatedAtNotFound file) ;;; ret existing_dates
  end.

Definition scan_entry (folder file : string) (existing_dates : gset date)
  : M world (gset date) :=
  if Str.endswith (Str.lower file) ".xlsx"
  then try_except (read_first_created folder file existing_dates)
                  (fun e => log WARNING (CouldNotRead folder file e) ;;;
                            ret existing_dates)
  else ret existing_dates.

Definition get_existing_first_created_dates (folder : string) : M world (gset date) :=
  files <- os_listdir folder ;;
  for_fold files ∅ (scan_entry folder).

(** *** extract_all_links *)

(** [a = cell.find("a")], and [a["href"]] when [a and a.has_attr("href")]. *)
Definition find_href (c : td) : option string :=
  match find_a c with
  | Some a => href a
  | None => None
  end.

(** One turn of the loop over the rows. *)
Definition extract_row (links : list link) (cols : list td) : list link :=
  match cols with
  | c0 :: c1 :: c2 :: _ =>
      let date_range := get_text c0 in
      match find_href c2 with
      | Some h => links ++ [(h, date_range, "can")]
      | None =>
          match find_href c1 with
          | Some h => links ++ [(h, date_range, "csv")]
          | None => links
          end
      end
  | _ => links                         (* [len(cols) < 3] *)
  end.

Definition extract_all_links (msg : message) : list link :=
  foldl extract_row [] msg.

(** *** download_file *)

Definition local_name (url : string) (date_range : option string) : string :=
  let base_name := Str.split_first "?" (Str.split_last "/" url) in
  match date_range with
  | Some (String c r) => Str.replace "/" "-" (String c r) +:+ "_" +:+ base_name
  | _ => base_name
  end.

Definition download_file (url folder : string) (date_range : option string)
  : M world (option string) :=
  let base_name := local_name url date_range in
  let local_filename := folder +:+ "/" +:+ base_name in
  log INFO (Downloading url) ;;;
  try_except
    (emit (Get url) ;;;
     match requests_get E url with
     | Failed e => raise e
     | Truncated f e => write_file folder base_name f ;;; raise e
     | Body f =>
         write_file folder base_name f ;;;
         log INFO (SavedFile local_filename) ;;;
         ret (Some local_filename)
     end)
    (fun e => log ERROR (FailedToDownload url e) ;;; ret None).

(** *** search_latest_vehicle_email *)

Definition search_latest_vehicle_email (vehicle_id : string) : M world (option string) :=
  r <- lift (imap_search E vehicle_id) ;;
  let '(status_ok, email_ids) := r in
  match status_ok, last email_ids with
  | true, Some latest =>
      log INFO (FoundEmails (length email_ids) vehicle_id) ;;;
      ret (Some latest)
  | _, _ => log WARNING (NoEmailsFound vehicle_id) ;;; ret None
  end.

(** *** process_vehicle *)

(** One turn of the loop over the links; [idx] counts from 1. *)
Definition process_link (vehicle_id vehicle_folder : string)
    (existing_first_dates : gset date) (n : nat) (idx : nat) (l : link)
  : M world unit :=
  let '(url, date_range, report_type) := l in
  match parse_email_date date_range with
  | None => log WARNING (InvalidDate vehicle_id date_range)
  | Some link_date =>
      if decide (link_date ∈ existing_first_dates)
      then log INFO (Skipping vehicle_id link_date)
      else
        log INFO (DownloadingReport report_type idx n vehicle_id date_range) ;;;
        download_file url vehicle_folder (Some date_range) ;;;
        ret tt
  end.

(** [for idx, l in enumerate(links, start): ...] *)
Fixpoint for_enumerate {A} (start : nat) (l : list A) (body : nat -> A -> M world unit)
  : M world unit :=
  match l with
  | [] => ret tt
  | x :: rest => body start x ;;; for_enumerate (S start) rest body
  end.

Definition process_vehicle (vehicle_id : string) : M world pyobj :=
  log INFO (ProcessingVehicle vehicle_id) ;;;
  email_id <- search_latest_vehicle_email vehicle_id ;;
  match email_id with
  | None => ret PyNone
  | Some email_id =>
      r <- lift (imap_fetch E email_id) ;;
      let '(status_ok, msg) := r in
      if negb status_ok
      then log ERROR (FailedToFetch vehicle_id) ;;; ret PyNone
      else
        vehicle_folder <- clean_or_create_folder vehicle_id ;;
        existing_first_dates <- get_existing_first_created_dates vehicle_folder ;;
        let links := extract_all_links msg in
        match links with
        | [] => log WARNING (NoReportLinks vehicle_id) ;;; ret PyNone
        | _ =>
            for_enumerate 1 links
              (process_link vehicle_id vehicle_folder existing_first_dates
                            (length links)) ;;;
            ret PyNone
        end
  end.

(** *** fetch_reports_for_all_vehicles *)

(** [[line.split(",")[0].strip() for line in f if line.strip()]] *)
Definition read_vehicle_ids (lines : list string) : list string :=
  (fun line => Str.strip (Str.split_first "," line)) <$>
  filter (fun line => Str.strip line ≠ "") lines.

Definition connect_to_mailbox : M world unit :=
  try_except (emit Login ;;; lift (imap_login E))
             (fun e => log ERROR (FailedToConnect e) ;;; raise e).

(** The body of the loop over the vehicles. *)
Definition guarded_vehicle (vehicle_id : string) : M world unit :=
  try_except (process_vehicle vehicle_id ;;; ret tt)
             (fun e => log ERROR (ErrorProcessing vehicle_id e)).

Definition fetch_reports_for_all_vehicles : M world unit :=
  log INFO StartingPhase2 ;;;
  match vehicle_file E with
  | None => log ERROR VehicleFileNotFound
  | Some lines =>
      match read_vehicle_ids lines with
      | [] => log WARNING VehicleFileEmpty
      | vehicle_ids =>
          connect_to_mailbox ;;;
          try_finally
            (for_each vehicle_ids guarded_vehicle)
            (emit Logout) ;;;
          log INFO AllFetched
      end
  end.

End with_env.

(** *** Reading a journal *)

(** The urls [requests.get] was called with, oldest first. *)
Definition requested (tr : list event) : list string :=
  omap (fun e => match e with Get url => Some url | _ => None end) tr.

(** The vehicles [process_vehicle] was entered for, oldest first. *)
Definition entered (tr : list event) : list string :=
  omap (fun e => match e with
                 | Log INFO (ProcessingVehicle v) => Some v
                 | _ => None
                 end) tr.

End EmailReader.

(** ** concurrent.futures.ThreadPoolExecutor, as [run_executor] uses it

    Both drivers run the same thread body:
<<
    with ThreadPoolExecutor(max_workers=...) as executor:
        futures = ... executor.submit(task, f) for f in vehicle_folders ...
        for fut in as_completed(futures):
            try: fut.result()
            except Exception as e: print(...)
    mark_done(...)
>>
    [report_generator.py] wraps the [with] block in [try]/[except
    Exception]/[finally] and calls [mark_done] in the [finally];
    [script4.py] calls it after the block. The model interleaves the steps
    of that thread with the steps of the workers of the pool. *)

Module Pool.
Import Py.

(** A future, and the task behind it. *)
Inductive status :=
| Queued
| Started
| Finished (r : result pyobj).

Definition is_finished (s : status) : bool :=
  match s with Finished _ => true | _ => false end.

Definition is_started (s : status) : bool :=
  match s with Started => true | _ => false end.

(** Where the thread of [run_executor] is. *)
Inductive control :=
| Entering                         (* before [ThreadPoolExecutor(...)] *)
| Submitting (k : nat)             (* [k] folders submitted so far *)
| Collecting (waiting : list nat)  (* in the loop; futures not yet yielded *)
| Leaving                          (* end of [with]: [shutdown(wait=True)] *)
| Closing                          (* next: the final event *)
| Returned
| Crashed (e : exn).               (* ended by an exception nothing caught *)

Inductive event :=
| Submit (i : nat)
| Start (i : nat)
| End (i : nat) (r : result pyobj)
| TaskError (i : nat) (e : exn)    (* the [print] of the inner handler *)
| ExecutorError (e : exn)          (* the [print] of the outer handler *)
| AllDone.                         (* [mark_done(...)], or its [print] *)

Global Instance event_eq_dec : EqDecision event.
Proof. solve_decision. Defined.

(** [size]: the number of folders, the task of folder [i] is future [i];
    [guarded]: the [with] block stands in [try]/[except]/[finally];
    [run i]: what the task of folder [i] returns or raises. *)
Record program := {
  size : nat;
  max_workers : Z;
  guarded : bool;
  run : nat -> result pyobj;
}.

Record config := {
  tasks : list status;
  ctl : control;
  trace : list event;
}.

Definition init : config := {| tasks := []; ctl := Entering; trace := [] |}.

(** The workers that are running a task. *)
Definition busy (ts : list status) : nat :=
  length (filter (fun s => is_started s = true) ts).

Inductive step (P : program) : config -> config -> Prop :=
(** [ThreadPoolExecutor(max_workers=n)] raises [ValueError] for [n <= 0]. *)
| step_refused c :
    ctl c = Entering -> max_workers P <= 0 ->
    step P c
      (if guarded P
       then {| tasks := tasks c; ctl := Closing;
               trace := trace c ++ [ExecutorError (Exception "ValueError")] |}
       else {| tasks := tasks c; ctl := Crashed (Exception "ValueError");
               trace := trace c |})
| step_entered c :
    ctl c = Entering -> 0 < max_workers P ->
    step P c {| tasks := tasks c; ctl := Submitting 0; trace := trace c |}
(** [executor.submit(task, f)] for the next folder *)
| step_submit c k :
    ctl c = Submitting k -> (k < size P)%nat ->
    step P c {| tasks := tasks c ++ [Queued]; ctl := Submitting (S k);
                trace := trace c ++ [Submit k] |}
| step_submitted c :
    ctl c = Submitting (size P) ->
    step P c {| tasks := tasks c; ctl := Collecting (seq 0 (size P));
                trace := trace c |}
(** [as_completed] yields a finished future; [fut.result()] in the [try] *)
| step_yield c w1 i w2 r :
    ctl c = Collecting (w1 ++ i :: w2) -> tasks c !! i = Some (Finished r) ->
    step P c {| tasks := tasks c; ctl := Collecting (w1 ++ w2);
                trace := trace c ++ match r with
                                    | Raise e => [TaskError i e]
                                    | Ok _ => []
                                    end |}
| step_exhausted c :
    ctl c = Collecting [] ->
    step P c {| tasks := tasks c; ctl := Leaving; trace := trace c |}
(** [__exit__] returns once every submitted task has run *)
| step_leave c :
    ctl c = Leaving -> forallb is_finished (tasks c) = true ->
    step P c {| tasks := tasks c; ctl := Closing; trace := trace c |}
| step_close c :
    ctl c = Closing ->
    step P c {| tasks := tasks c; ctl := Returned; trace := trace c ++ [AllDone] |}
(** a free worker takes a queued task *)
| step_start c i :
    tasks c !! i = Some Queued -> Z.of_nat (busy (tasks c)) < max_workers P ->
    step P c {| tasks := <[i := Started]> (tasks c); ctl := ctl c;
                trace := trace c ++ [Start i] |}
(** a worker comes to the end of its task *)
| step_finish c i :
    tasks c !! i = Some Started ->
    step P c {| tasks := <[i := Finished (run P i)]> (tasks c); ctl := ctl c;
                trace := trace c ++ [End i (run P i)] |}.

(** The thread of [run_executor] has come to its end. *)
Definition ended (c : config) : bool :=
  match ctl c with Returned | Crashed _ => true | _ => false end.

(** How often the final event was emitted. *)
Definition all_done_count (tr : list event) : nat :=
  length (filter (fun e => e = AllDone) tr).

End Pool.

(** ** report_generator.py *)

Module ReportGenerator.
Import Py.

Definition MAX_CONCURRENT_VEHICLES : Z := 5.
Definition DEFAULT_DOWNLOAD_ROOT : string := "download".

Definition os_path_join (a b : string) : string := a +:+ "/" +:+ b.
Definition os_path_basename (p : string) : string := Str.split_last "/" p.

(** The file system and the collaborators of the driver. *)
Record env := {
  os_path_isdir : string -> bool;
  os_listdir : string -> list string;
  (** [ReportProgressGUI(...)] comes up; [tk.Tk()] raises without a display *)
  tk_ok : bool;
  (** [threading.Thread.start] finds a thread to start *)
  thread_ok : bool;
  (** what [generate_report_for_vehicle(folder, ...)] lets escape *)
  generate_report_for_vehicle : string -> result unit;
}.

(** The arguments of [generate_all_reports]. *)
Record args := {
  download_root : option string;
  show_gui : bool;
  max_workers : Z;
}.

Definition default_args : args :=
  {| download_root := None; show_gui := true; max_workers := MAX_CONCURRENT_VEHICLES |}.

(** What an invocation prints or shows, outside of [run_executor]. *)
Inductive output :=
| AlreadyRunning                    (* "generate_all_reports already running" *)
| DownloadFolderNotFound (root : string)
| NoVehicleFolders
| GuiOpened (vehicle_names : list string).

(** [task(folder)] *)
Definition task (E : env) (folder : string) : result pyobj :=
  let name := os_path_basename folder in
  match generate_report_for_vehicle E folder with
  | Ok _ => Ok (PyStr name)
  | Raise e => Raise e
  end.

(** [run_executor], the body of the thread [t]. *)
Definition run_executor (E : env) (vehicle_folders : list string) (max_workers : Z)
  : Pool.program :=
  {| Pool.size := length vehicle_folders;
     Pool.max_workers := max_workers;
     Pool.guarded := true;
     Pool.run i := match vehicle_folders !! i with
                   | Some folder => task E folder
                   | None => Ok PyNone
                   end |}.

(** The body of the outer [try], up to [t.start()]. *)
Inductive prepared :=
| Abort (out : list output)                    (* an early [return] *)
| Crash (e : exn) (out : list output)          (* an exception *)
| Spawn (vehicle_folders : list string) (out : list output).

(** [download_root or DEFAULT_DOWNLOAD_ROOT] *)
Definition root_of (a : args) : string :=
  match download_root a with
  | Some (String c r) => String c r
  | _ => DEFAULT_DOWNLOAD_ROOT
  end.

Definition prepare (E : env) (a : args) : prepared :=
  let root := root_of a in
  if negb (os_path_isdir E root) then Abort [DownloadFolderNotFound root]
  else
    let vehicle_folders :=
      os_path_join root <$>
      filter (fun d => os_path_isdir E (os_path_join root d) = true) (os_listdir E root) in
    match vehicle_folders with
    | [] => Abort [NoVehicleFolders]
    | _ =>
        let vehicle_names := os_path_basename <$> vehicle_folders in
        if show_gui a && negb (tk_ok E) then Crash (Exception "TclError") []
        else
          let out := if show_gui a then [GuiOpened vehicle_names] else [] in
          if thread_ok E then Spawn vehicle_folders out
          else Crash (Exception "RuntimeError") out
    end.

(** Where one invocation of [generate_all_reports] is. *)
Inductive call :=
| Called (a : args)                               (* before [with _running_lock] *)
| Entered (a : args)                              (* flag taken, in the [try] *)
| Working (P : Pool.program) (c : Pool.config)    (* [t] started, not yet joined *)
| Exiting (r : result unit)                       (* at the [finally] *)
| Returned (r : result unit).

Definition active (c : call) : bool :=
  match c with
  | Entered _ | Working _ _ | Exiting _ => true
  | Called _ | Returned _ => false
  end.

(** The module globals and the invocations in flight, each with what it has
    printed so far. *)
Record process := {
  _running : bool;
  calls : list (call * list output);
}.

(** One step of invocation [j]. The two [with _running_lock] blocks are one
    step each; nothing else reads or writes [_running]. *)
Inductive step (E : env) (j : nat) : process -> process -> Prop :=
| step_refuse s a out :
    calls s !! j = Some (Called a, out) -> _running s = true ->
    step E j s {| _running := _running s;
                  calls := <[j := (Returned (Ok tt), out ++ [AlreadyRunning])]> (calls s) |}
| step_acquire s a out :
    calls s !! j = Some (Called a, out) -> _running s = false ->
    step E j s {| _running := true; calls := <[j := (Entered a, out)]> (calls s) |}
| step_prepare s a out :
    calls s !! j = Some (Entered a, out) ->
    step E j s
      {| _running := _running s;
         calls := <[j := match prepare E a with
                         | Abort o => (Exiting (Ok tt), out ++ o)
                         | Crash e o => (Exiting (Raise e), out ++ o)
                         | Spawn vehicle_folders o =>
                             (Working (run_executor E vehicle_folders (max_workers a))
                                      Pool.init, out ++ o)
                         end]> (calls s) |}
| step_work s P c c' out :
    calls s !! j = Some (Working P c, out) -> Pool.step P c c' ->
    step E j s {| _running := _running s;
                  calls := <[j := (Working P c', out)]> (calls s) |}
(** [t.join()] returns *)
| step_join s P c out :
    calls s !! j = Some (Working P c, out) -> Pool.ended c = true ->
    step E j s {| _running := _running s;
                  calls := <[j := (Exiting (Ok tt), out)]> (calls s) |}
(** [finally: with _running_lock: _running = False] *)
| step_release s r out :
    calls s !! j = Some (Exiting r, out) ->
    step E j s {| _running := false; calls := <[j := (Returned r, out)]> (calls s) |}.

Definition steps (E : env) : relation process :=
  rtc (fun s s' => exists j, step E j s s').

(** The process with [_running = False] and the given invocations pending. *)
Definition start (invocations : list args) : process :=
  {| _running := false; calls := (fun a => (Called a, [])) <$> invocations |}.

(** The invocations between taking the flag and giving it back. *)
Definition in_flight (cs : list (call * list output)) : nat :=
  length (filter (fun c => active c.1 = true) cs).

(** A machine without the download folder, and one where it holds the
    folders of two vehicles and a file. *)
Definition E_no_root : env :=
  {| os_path_isdir := fun _ => false; os_listdir := fun _ => [];
     tk_ok := true; thread_ok := true;
     generate_report_for_vehicle := fun _ => Ok tt |}.

Definition E_two : env :=
  {| os_path_isdir := fun p => bool_decide (p ∈ ["download"; "download/V1"; "download/V2"]);
     os_listdir := fun p => if String.eqb p "download" then ["V1"; "notes.txt"; "V2"] else [];
     tk_ok := false; thread_ok := true;
     generate_report_for_vehicle :=
       fun p => if String.eqb p "download/V1" then Raise (Exception "PermissionError")
                else Ok tt |}.

Definition headless : args :=
  {| download_root := None; show_gui := false; max_workers := 1 |}.

End ReportGenerator.

(** ** script4.py *)

Module Script4.
Import Py.

Definition MAX_CONCURRENT_UPLOADS : Z := 2.

(** [task(folder)]: [upload] stands for what [upload_vehicle_report] lets
    escape. *)
Definition task (upload : string -> result unit) (folder : string) : result pyobj :=
  match upload folder with
  | Ok _ => Ok PyNone
  | Raise e => Raise e
  end.

(** [run_executor] of [main]. *)
Definition run_executor (upload : string -> result unit) (vehicle_folders : list string)
  : Pool.program :=
  {| Pool.size := length vehicle_folders;
     Pool.max_workers := MAX_CONCURRENT_UPLOADS;
     Pool.guarded := false;
     Pool.run i := match vehicle_folders !! i with
                   | Some folder => task upload folder
                   | None => Ok PyNone
                   end |}.

End Script4.

(** ** Launcher.py *)

Module Launcher.
Import Py.

Definition STICKERS_DIR : string := "sticker".

Definition os_path_join (a b : string) : string := a +:+ "/" +:+ b.
Definition os_path_basename (p : string) : string := Str.split_last "/" p.

(** What is at the path [STICKERS_DIR]: nothing, something that is no
    directory, or a directory with its entries (name, is a directory). *)
Inductive node :=
| NoEntry
| NotDir
| Dir (entries : list (string * bool)).

(** [STATE_FILE]: absent, there but not readable as UTF-8 text, or text. *)
Inductive state_file :=
| Absent
| Undecodable
| Content (text : string).

Inductive output :=
| StickerDirNotFound
| NoSubfolders
| UsingFolder (chosen_folder : string).

Record world := {
  stickers : node;
  state : state_file;
  state_writable : bool;
  stdout : list output;
}.

Definition print (o : output) : M world unit :=
  fun w => (Ok tt, {| stickers := stickers w; state := state w;
                      state_writable := state_writable w;
                      stdout := stdout w ++ [o] |}).

(** [os.listdir(STICKERS_DIR)], with [os.path.isdir] of each entry. *)
Definition listdir_stickers : M world (list (string * bool)) :=
  fun w => match stickers w with
           | Dir entries => (Ok entries, w)
           | _ => (Raise (Exception "NotADirectoryError"), w)
           end.

(** [open(STATE_FILE, "r", encoding="utf-8")] and [f.read()] *)
Definition read_state : M world string :=
  fun w => match state w with
           | Content text => (Ok text, w)
           | Undecodable => (Raise (Exception "UnicodeDecodeError"), w)
           | Absent => (Raise (Exception "FileNotFoundError"), w)
           end.

(** [open(STATE_FILE, "w", encoding="utf-8")] and [f.write(text)] *)
Definition write_state (text : string) : M world unit :=
  fun w => if state_writable w
           then (Ok tt, {| stickers := stickers w; state := Content text;
                           state_writable := true; stdout := stdout w |})
           else (Raise (Exception "PermissionError"), w).

(** [sorted(paths)] *)
Definition sorted (paths : list string) : list string := merge_sort String.le paths.

(** [basenames.index(x)], for an [x] that is in the list. *)
Fixpoint index (x : string) (l : list string) : nat :=
  match l with
  | [] => 0
  | y :: rest => if String.eqb y x then 0 else S (index x rest)
  end.

(** [os.path.exists(STICKERS_DIR)] and [os.path.exists(STATE_FILE)] *)
Definition stickers_exists : M world bool :=
  fun w => (Ok (match stickers w with NoEntry => false | _ => true end), w).
Definition state_exists : M world bool :=
  fun w => (Ok (match state w with Absent => false | _ => true end), w).

Definition get_sticker_folder : M world (option string) :=
  found <- stickers_exists ;;
  if negb found then print StickerDirNotFound ;;; ret None
  else
    entries <- listdir_stickers ;;
    let all_stickers :=
      sorted (os_path_join STICKERS_DIR <$> (filter (fun e => e.2 = true) entries).*1) in
    match all_stickers with
    | [] => print NoSubfolders ;;; ret None
    | _ =>
        let basenames := os_path_basename <$> all_stickers in
        found <- state_exists ;;
        last_value <-
          (if found
           then try_except (text <- read_state ;; ret (Some (Str.strip text)))
                           (fun _ => ret None)
           else ret None) ;;
        let current_index :=
          match last_value with
          | Some (String c r) =>
              if bool_decide (String c r ∈ basenames)
              then let idx := index (String c r) basenames in
                   ((idx + 1) mod length all_stickers)%nat
              else 0%nat
          | _ => 0%nat
          end in
        match all_stickers !! current_index with
        | Some chosen_folder =>
            write_state (os_path_basename chosen_folder) ;;;
            print (UsingFolder chosen_folder) ;;;
            ret (Some chosen_folder)
        | None => raise (Exception "IndexError")
        end
    end.

(** Two sticker folders, the name of the first with a leading blank, and the
    state file as the function itself writes it after choosing the first. *)
Definition padded (out : list output) : world :=
  {| stickers := Dir [("b", true); (" a", true)];
     state := Content " a";
     state_writable := true;
     stdout := out |}.

End Launcher.

(** ** Octopus_login.py *)

Module Octopus.
Import Py.

(** [datetime.date]: year, month, day. *)
Definition date : Type := Z * Z * Z.

(** [range(a, b)] *)
Definition range (a b : Z) : list Z :=
  (fun k => a + Z.of_nat k) <$> seq 0 (Z.to_nat (b - a)).

(** *** The date picker: _click_date_in_calendar, select_end_date *)

Inductive click :=
| ClickNext
| ClickPrevious
| ClickDay (d : date).

Inductive logrec :=
| AttemptFailed (attempt : Z) (e : exn)   (* the warning of the handler *)
| EndDateSelected.

(** The page, as far as the date picker goes: the year and month that the
    calendar shows, the clicks made on it, and the records logged. *)
Record page := {
  shown : Z * Z;
  clicks : list click;
  log : list logrec;
}.

(** What the two arrows of the calendar do to the month on display. *)
Definition next_month (ym : Z * Z) : Z * Z :=
  if ym.2 =? 12 then (ym.1 + 1, 1) else (ym.1, ym.2 + 1).
Definition previous_month (ym : Z * Z) : Z * Z :=
  if ym.2 =? 1 then (ym.1 - 1, 12) else (ym.1, ym.2 - 1).

(** [page.locator("button.rdp-button_next").first.click()] *)
Definition click_next : M page unit :=
  fun p => (Ok tt, {| shown := next_month (shown p);
                      clicks := clicks p ++ [ClickNext]; log := log p |}).

(** [page.locator("button.rdp-button_previous").first.click()] *)
Definition click_previous : M page unit :=
  fun p => (Ok tt, {| shown := previous_month (shown p);
                      clicks := clicks p ++ [ClickPrevious]; log := log p |}).

(** [page.wait_for_selector(f"td[data-day='{iso_fmt}'] button", timeout=2000)]
    and [btn.click()]: the cell of a day is on the page when the calendar
    shows the month of the day. *)
Definition click_day (d : date) : M page unit :=
  fun p => if decide (shown p = (d.1.1, d.1.2))
           then (Ok tt, {| shown := shown p; clicks := clicks p ++ [ClickDay d];
                           log := log p |})
           else (Raise (Exception "TimeoutError"), p).

Definition write_log (r : logrec) : M page unit :=
  fun p => (Ok tt, {| shown := shown p; clicks := clicks p; log := log p ++ [r] |}).

Section with_page.
(** [datetime.today()] *)
Variable today : date.
(** The first three lines of the [try] of [select_end_date]: the button of
    the end date is waited for and clicked. *)
Variable open_end_date : M page unit.

Definition _click_date_in_calendar (target_date : date) : M page unit :=
  let current_month := today.1.2 in
  let current_year := today.1.1 in
  let target_month := target_date.1.2 in
  let target_year := target_date.1.1 in
  let month_diff := (target_year - current_year) * 12 + (target_month - current_month) in
  (if 0 <? month_diff
   then for_each (range 0 month_diff) (fun _ => click_next)
   else if month_diff <? 0
        then for_each (range 0 (- month_diff)) (fun _ => click_previous)
        else ret tt) ;;;
  click_day target_date.

(** The loop of [select_end_date] over the attempts left; [Some true] is
    [return True], [None] is the end of the loop. *)
Fixpoint select_end_date_loop (end_date : date) (retries : Z) (attempts : list Z)
  : M page (option bool) :=
  match attempts with
  | [] => ret None
  | attempt :: rest =>
      r <- try_except
             (open_end_date ;;;
              _click_date_in_calendar end_date ;;;
              write_log EndDateSelected ;;;
              ret (Some true))
             (fun e =>
                write_log (AttemptFailed attempt e) ;;;
                if attempt =? retries
                then raise (Exception "Could not select End Date")
                else ret None) ;;
      match r with
      | Some b => ret (Some b)
      | None => select_end_date_loop end_date retries rest
      end
  end.

Definition select_end_date (end_date : date) (retries : Z) : M page (option bool) :=
  select_end_date_loop end_date retries (range 1 (retries + 1)).

End with_page.

(** *** read_vehicle_list, run_full_test, main *)

Inductive event :=
| SkippingInvalidLine (line : string) (e : exn)
| Processing (reg_no : string) (start_date end_date : date)
| Launch (reg_no : string)      (* [p.chromium.launch(...)] *)
| Completed (reg_no : string)   (* "Shepherd automation completed successfully" *)
| Close                         (* [browser.close()] *)
| Waiting                       (* "Waiting before starting email fetch..." *)
| CountdownSkipped
| FetchReports                  (* the call into script 2 *)
| FetchDone
| GenerateReports (show_gui : bool)   (* the call into script 3 *)
| GenerateDone.

Global Instance event_eq_dec : EqDecision event.
Proof. solve_decision. Defined.

(** The environment variables, the clock, the file and the collaborators. *)
Record env := {
  OCTO_USER : option string;
  OCTO_PASS : option string;
  (** [datetime.now() - timedelta(days=1)] *)
  yesterday : date;
  (** The lines of [vehicle_list.txt], when the file can be opened. *)
  vehicle_file : option (list string);
  (** [datetime.strptime(s, "%d%b%Y")]; [None] is [ValueError]. *)
  strptime : string -> option date;
  (** [sync_playwright()], [p.chromium.launch], [browser.new_page] *)
  launch : result unit;
  (** The body of the [try] of [run_full_test]: from [login] to
      [submit_report], for one vehicle. *)
  portal : string -> date -> date -> result unit;
  (** [CountdownGUI(...)] and [countdown.start()] *)
  countdown : result bool;
  (** What script 2 and script 3 let escape, by the number of earlier calls. *)
  fetch_reports_for_all_vehicles : nat -> result unit;
  generate_all_reports : nat -> result unit;
}.

Record world := { journal : list event }.

Definition emit (e : event) : M world unit :=
  fun w => (Ok tt, {| journal := journal w ++ [e] |}).

(** How often script 2 and script 3 were called. *)
Definition is_fetch (e : event) : bool :=
  match e with FetchReports => true | _ => false end.
Definition is_generate (e : event) : bool :=
  match e with GenerateReports _ => true | _ => false end.
Definition fetches (tr : list event) : nat :=
  length (filter (fun e => is_fetch e = true) tr).
Definition generations (tr : list event) : nat :=
  length (filter (fun e => is_generate e = true) tr).

(** [not s] for an [os.getenv] value. *)
Definition falsy (s : option string) : bool :=
  match s with
  | Some (String _ _) => false
  | _ => true
  end.

Section with_env.
Variable E : env.

(** [OctopusReportTester()] *)
Definition OctopusReportTester : M world unit :=
  if falsy (OCTO_USER E) || falsy (OCTO_PASS E)
  then raise (Exception "Missing credentials in environment variables")
  else ret tt.

Definition run_full_test (registration_no : string) (start_date end_date : date)
  : M world unit :=
  lift (launch E) ;;;
  emit (Launch registration_no) ;;;
  try_finally
    (lift (portal E registration_no start_date end_date) ;;;
     emit (Completed registration_no))
    (emit Close).

(** The body of the [try] of [read_vehicle_list], for a stripped line. *)
Definition parse_line (line : string) : result (string * date) :=
  match Str.split_after "," line with
  | None => Raise (Exception "not enough values to unpack")
  | Some start_date =>
      let reg_no := Str.strip (Str.split_first "," line) in
      let start_date := Str.strip (Str.replace_str "Start date" "" start_date) in
      match strptime E start_date with
      | Some start_date_obj => Ok (reg_no, start_date_obj)
      | None => Raise (Exception "time data does not match format")
      end
  end.

(** One turn of the loop over the lines of the file. *)
Definition read_vehicle_line (line : string) (vehicles : list (string * date))
  : M world (list (string * date)) :=
  let line := Str.strip line in
  if decide (line = "") then ret vehicles
  else try_except
         (v <- lift (parse_line line) ;; ret (vehicles ++ [v]))
         (fun e => emit (SkippingInvalidLine line e) ;;; ret vehicles).

Definition read_vehicle_list : M world (list (string * date)) :=
  match vehicle_file E with
  | None => raise (Exception "FileNotFoundError")
  | Some lines => for_fold lines [] read_vehicle_line
  end.

(** The calls into the other two scripts. *)
Definition script2_fetch_reports_for_all_vehicles : M world unit :=
  fun w =>
    (emit FetchReports ;;;
     lift (fetch_reports_for_all_vehicles E (fetches (journal w)))) w.

Definition script3_generate_all_reports (show_gui : bool) : M world unit :=
  fun w =>
    (emit (GenerateReports show_gui) ;;;
     lift (generate_all_reports E (generations (journal w)))) w.

Definition main : M world unit :=
  OctopusReportTester ;;;
  let end_date := yesterday E in
  vehicles <- read_vehicle_list ;;
  for_each vehicles
    (fun v => emit (Processing v.1 v.2 end_date) ;;;
              run_full_test v.1 v.2 end_date) ;;;
  emit Waiting ;;;
  skip <- lift (countdown E) ;;
  (if skip : bool then emit CountdownSkipped else ret tt) ;;;
  script2_fetch_reports_for_all_vehicles ;;;
  emit FetchDone ;;;
  script3_generate_all_reports true ;;;
  emit GenerateDone.

End with_env.

(** The vehicles a browser was launched for, oldest first. *)
Definition launched (tr : list event) : list string :=
  omap (fun e => match e with Launch v => Some v | _ => None end) tr.

(** The attempts that the log of a page says failed, oldest first. *)
Definition failed_attempts (l : list logrec) : list Z :=
  omap (fun r => match r with AttemptFailed k _ => Some k | _ => None end) l.

(** What the loop of [main] leaves in the journal for a vehicle whose run
    on the portal comes to its end. *)
Definition portal_events (end_date : date) (v : string * date) : list event :=
  [Processing v.1 v.2 end_date; Launch v.1; Completed v.1; Close].

Definition is_skipping (e : event) : bool :=
  match e with SkippingInvalidLine _ _ => true | _ => false end.

(** No browser is open at the end of [tr]: every [Launch] has its [Close]
    before the next one. *)
Fixpoint browsers_closed (opened : bool) (tr : list event) : bool :=
  match tr with
  | [] => negb opened
  | Launch _ :: rest => negb opened && browsers_closed true rest
  | Close :: rest => opened && browsers_closed false rest
  | _ :: rest => browsers_closed opened rest
  end.

End Octopus.

(** ** Launcher.py: the script runner of LauncherGUI *)

Module LauncherGUI.
Import Py.

Inductive status :=
| Ready
| Running (script_number : nat).

Inductive dialog :=
| ShowInfo (script_number : nat)   (* "Completed", the success text of the flow *)
| ShowError (e : exn).             (* "Error", "An error occurred: ..." *)

(** The three buttons share their state; [pipeline] is the world of the
    scripts. *)
Record gui := {
  pipeline : Octopus.world;
  buttons_enabled : bool;
  status_label : status;
  dialogs : list dialog;
}.

(** A call into a script, from a flow. *)
Definition call {A} (m : M Octopus.world A) : M gui A :=
  fun g => match m (pipeline g) with
           | (r, w) => (r, {| pipeline := w; buttons_enabled := buttons_enabled g;
                              status_label := status_label g; dialogs := dialogs g |})
           end.

Definition disable_buttons : M gui unit :=
  fun g => (Ok tt, {| pipeline := pipeline g; buttons_enabled := false;
                      status_label := status_label g; dialogs := dialogs g |}).

Definition enable_buttons : M gui unit :=
  fun g => (Ok tt, {| pipeline := pipeline g; buttons_enabled := true;
                      status_label := status_label g; dialogs := dialogs g |}).

(** [self.status_label.config(text=...)] *)
Definition status_label_config (s : status) : M gui unit :=
  fun g => (Ok tt, {| pipeline := pipeline g; buttons_enabled := buttons_enabled g;
                      status_label := s; dialogs := dialogs g |}).

Definition messagebox (d : dialog) : M gui unit :=
  fun g => (Ok tt, {| pipeline := pipeline g; buttons_enabled := buttons_enabled g;
                      status_label := status_label g; dialogs := dialogs g ++ [d] |}).

Section with_env.
Variable E : Octopus.env.

Definition run_script1_flow : M gui unit :=
  try_finally
    (try_except
       (call (Octopus.main E) ;;;
        call (Octopus.script2_fetch_reports_for_all_vehicles E) ;;;
        call (Octopus.script3_generate_all_reports E true) ;;;
        messagebox (ShowInfo 1))
       (fun e => messagebox (ShowError e)))
    (enable_buttons ;;; status_label_config Ready).

Definition run_script2_flow : M gui unit :=
  try_finally
    (try_except
       (call (Octopus.script2_fetch_reports_for_all_vehicles E) ;;;
        call (Octopus.script3_generate_all_reports E true) ;;;
        messagebox (ShowInfo 2))
       (fun e => messagebox (ShowError e)))
    (enable_buttons ;;; status_label_config Ready).

Definition run_script3_only : M gui unit :=
  try_finally
    (try_except
       (call (Octopus.script3_generate_all_reports E true) ;;;
        messagebox (ShowInfo 3))
       (fun e => messagebox (ShowError e)))
    (enable_buttons ;;; status_label_config Ready).

(** [run_script], with the thread it starts run to its end. *)
Definition run_script (script_number : nat) : M gui unit :=
  disable_buttons ;;;
  match script_number with
  | 1%nat => status_label_config (Running 1) ;;; run_script1_flow
  | 2%nat => status_label_config (Running 2) ;;; run_script2_flow
  | 3%nat => status_label_config (Running 3) ;;; run_script3_only
  | _ => ret tt
  end.

End with_env.

End LauncherGUI.

(** ** report_generator.py: the report of one vehicle *)

Module VehicleReport.
Import Py.

Definition os_path_join (a b : string) : string := a +:+ "/" +:+ b.
Definition os_path_basename (p : string) : string := Str.split_last "/" p.

(** A file of a vehicle folder, as [pd.read_excel] and [doc.save] see it: a
    sheet that reads as a frame of so many rows, a file that [pd.read_excel]
    raises on, or a report that [doc.save] wrote. *)
Inductive content :=
| Frame (rows : nat)
| Unreadable
| Document.

(** The texts of the progress calls. *)
Inductive status :=
| Waiting
| Starting (name : string)
| NoExcelFiles (vehicle_folder : string)
| AllEmpty
| Found (files rows : nat)
| Saved (out_path : string)
| Error (e : exn)
| Done.

Record env := {
  (** [os.remove(path)] goes through *)
  os_remove_ok : string -> bool;
  (** The [try] from [Document()] to [doc.save(out_path)], given the frames
      that are not empty: it comes to the end of [doc.save], or raises. *)
  build_and_save : list (string * nat) -> result unit;
}.

(** [disk]: the folders, by path, each a map from file name to file;
    [vehicle_widgets]: the value of the progress bar and the status of each
    row of the window; [printed]: what [progress_wrapper] prints without a
    window. *)
Record world := {
  disk : gmap string (gmap string content);
  vehicle_widgets : gmap string (Z * status);
  printed : list (string * Z * status);
}.

(** The test of line 183, and of line 170 of [script4.py]. *)
Definition is_report (f : string) : bool :=
  Str.endswith (Str.lower f) ".docx" && Str.startswith f "temp_report_".

Definition is_xlsx (f : string) : bool := Str.endswith (Str.lower f) ".xlsx".

(** The name [doc.save] is given, in the vehicle folder. *)
Definition report_name (vehicle_folder : string) : string :=
  "temp_report_" +:+ os_path_basename vehicle_folder +:+ ".docx".

Definition os_listdir (folder : string) : M world (list string) :=
  fun w => match disk w !! folder with
           | Some files => (Ok (map_to_list files).*1, w)
           | None => (Raise (Exception "FileNotFoundError"), w)
           end.

Definition set_folder (folder : string) (files : gmap string content) (w : world) : world :=
  {| disk := <[folder := files]> (disk w); vehicle_widgets := vehicle_widgets w;
     printed := printed w |}.

Definition pd_read_excel (folder f : string) : M world nat :=
  fun w => match disk w !! folder with
           | Some files =>
               match files !! f with
               | Some (Frame rows) => (Ok rows, w)
               | Some _ => (Raise (Exception "BadZipFile"), w)
               | None => (Raise (Exception "FileNotFoundError"), w)
               end
           | None => (Raise (Exception "FileNotFoundError"), w)
           end.

(** [doc.save(out_path)], at its end. *)
Definition saved (folder name : string) : M world unit :=
  fun w => match disk w !! folder with
           | Some files => (Ok tt, set_folder folder (<[name := Document]> files) w)
           | None => (Raise (Exception "FileNotFoundError"), w)
           end.

(** [get_closest_column(df_cols, candidates)] *)
Fixpoint get_closest_column (df_cols candidates : list string) : option string :=
  match candidates with
  | [] => None
  | name :: rest =>
      if bool_decide (name ∈ df_cols) then Some name
      else get_closest_column df_cols rest
  end.

(** *** ReportProgressGUI *)

Definition update_progress (vehicle_name : string) (percent : Z) (st : status)
  : M world unit :=
  fun w => match vehicle_widgets w !! vehicle_name with
           | Some _ =>
               (Ok tt, {| disk := disk w;
                          vehicle_widgets :=
                            <[vehicle_name := (Z.max 0 (Z.min 100 percent), st)]>
                              (vehicle_widgets w);
                          printed := printed w |})
           | None => (Ok tt, w)
           end.

Definition mark_vehicle_done (vehicle_name : string) (msg : status) : M world unit :=
  fun w => match vehicle_widgets w !! vehicle_name with
           | Some _ =>
               (Ok tt, {| disk := disk w;
                          vehicle_widgets := <[vehicle_name := (100, msg)]> (vehicle_widgets w);
                          printed := printed w |})
           | None => (Ok tt, w)
           end.

Definition print (v_name : string) (pct : Z) (msg : status) : M world unit :=
  fun w => (Ok tt, {| disk := disk w; vehicle_widgets := vehicle_widgets w;
                      printed := printed w ++ [(v_name, pct, msg)] |}).

(** [progress_wrapper] of [generate_all_reports]; [gui] says whether there
    is a window. *)
Definition progress_wrapper (gui : bool) (v_name : string) (pct : Z) (msg : status)
  : M world unit :=
  if gui then update_progress v_name pct msg else print v_name pct msg.

Section with_env.
Variable E : env.

Definition os_remove (folder f : string) : M world unit :=
  fun w => match disk w !! folder with
           | Some files =>
               if os_remove_ok E f && bool_decide (is_Some (files !! f))
               then (Ok tt, set_folder folder (delete f files) w)
               else (Raise (Exception "OSError"), w)
           | None => (Raise (Exception "FileNotFoundError"), w)
           end.

(** The loop over the Excel files: the frames that are not empty, and the
    count of their rows. *)
Definition read_frames (vehicle_folder : string) (xlsx_files : list string)
  : M world (list (string * nat) * nat) :=
  for_fold xlsx_files ([], 0%nat)
    (fun f acc =>
       rows <- try_except (pd_read_excel vehicle_folder f) (fun _ => ret 0%nat) ;;
       if (rows =? 0)%nat then ret acc
       else ret (acc.1 ++ [(os_path_join vehicle_folder f, rows)], (acc.2 + rows)%nat)).

Definition generate_report_for_vehicle (vehicle_folder : string)
    (progress_cb : string -> Z -> status -> M world unit) : M world unit :=
  let vehicle_name := os_path_basename vehicle_folder in
  names <- os_listdir vehicle_folder ;;
  for_each names
    (fun f => if is_report f
              then try_except (os_remove vehicle_folder f) (fun _ => ret tt)
              else ret tt) ;;;
  names <- os_listdir vehicle_folder ;;
  let xlsx_files := filter (fun f => is_xlsx f = true) names in
  match xlsx_files with
  | [] => progress_cb vehicle_name 0 (NoExcelFiles vehicle_folder)
  | _ =>
      try_except
        (r <- read_frames vehicle_folder xlsx_files ;;
         let '(all_dfs, total_rows) := r in
         if (total_rows =? 0)%nat
         then progress_cb vehicle_name 0 AllEmpty
         else
           progress_cb vehicle_name 1 (Found (length all_dfs) total_rows) ;;;
           lift (build_and_save E all_dfs) ;;;
           let out_path := os_path_join vehicle_folder (report_name vehicle_folder) in
           saved vehicle_folder (report_name vehicle_folder) ;;;
           progress_cb vehicle_name 100 (Saved out_path))
        (fun e => progress_cb vehicle_name 0 (Error e))
  end.

(** [task] of [generate_all_reports] *)
Definition task (gui : bool) (folder : string) : M world pyobj :=
  let name := os_path_basename folder in
  progress_wrapper gui name 0 (Starting name) ;;;
  generate_report_for_vehicle folder (progress_wrapper gui) ;;;
  (if gui then mark_vehicle_done name Done else ret tt) ;;;
  ret (PyStr name).

End with_env.

(** The folder after the loop that deletes the old reports. *)
Definition without_reports (E : env) (files : gmap string content) : gmap string content :=
  filter (fun nf => is_report nf.1 && os_remove_ok E nf.1 = false) files.

End VehicleReport.

(** ** script4.py: the upload of one vehicle *)

Module Upload.
Import Py.

Definition os_path_join (a b : string) : string := a +:+ "/" +:+ b.
Definition os_path_basename (p : string) : string := Str.split_last "/" p.

(** An item of the Drive that is not in the trash: a folder, a file of the
    MIME type of a Word document, or something else; [None] as a parent is
    ["root"]. *)
Inductive kind := Folder | Docx | Other.

Global Instance kind_eq_dec : EqDecision kind.
Proof. solve_decision. Defined.

Record item := {
  item_id : nat;
  item_name : string;
  item_kind : kind;
  item_parent : option nat;
}.

Global Instance item_eq_dec : EqDecision item.
Proof. solve_decision. Defined.

(** The texts of the progress calls. *)
Inductive status :=
| NoReport          (* "Processed, but no report" *)
| Preparing         (* "Preparing upload" *)
| OldFilesDeleted   (* "Old files deleted" *)
| Uploaded (name : string).

(** [items]: the Drive, in the order its listings give; [next_id]: the id
    that the next [create] gives; [progress]: the calls of [progress_cb]. *)
Record world := {
  items : list item;
  next_id : nat;
  progress : list (string * Z * status);
}.

Record env := {
  (** [os.listdir(vehicle_folder)] *)
  os_listdir : string -> result (list string);
}.

(** The queries of [get_or_create_folder] and [delete_existing_docs]. *)
Definition is_folder_named (parent_id : option nat) (folder_name : string) (it : item)
  : bool :=
  bool_decide (item_kind it = Folder) && String.eqb (item_name it) folder_name
  && bool_decide (item_parent it = parent_id).

Definition is_doc_in (folder_id : nat) (it : item) : bool :=
  bool_decide (item_parent it = Some folder_id) && bool_decide (item_kind it = Docx).

(** [service.files().create(...).execute()] *)
Definition create (name : string) (k : kind) (parent : option nat) : M world nat :=
  fun w => (Ok (next_id w),
            {| items := items w ++ [{| item_id := next_id w; item_name := name;
                                       item_kind := k; item_parent := parent |}];
               next_id := S (next_id w); progress := progress w |}).

(** [service.files().delete(fileId=...).execute()] *)
Definition delete (file_id : nat) : M world unit :=
  fun w => if bool_decide (file_id ∈ item_id <$> items w)
           then (Ok tt, {| items := filter (fun it => item_id it <> file_id) (items w);
                           next_id := next_id w; progress := progress w |})
           else (Raise (Exception "HttpError 404"), w).

Definition get_or_create_folder (parent_id : option nat) (folder_name : string)
  : M world nat :=
  fun w => match filter (fun it => is_folder_named parent_id folder_name it = true)
                        (items w) with
           | f :: _ => (Ok (item_id f), w)
           | [] => create folder_name Folder parent_id w
           end.

Definition delete_existing_docs (folder_id : nat) : M world unit :=
  fun w => for_each (filter (fun it => is_doc_in folder_id it = true) (items w))
                    (fun f => delete (item_id f)) w.

Definition upload_docx (folder_id : nat) (local_file_path : string) : M world unit :=
  let fname := os_path_basename local_file_path in
  create fname Docx (Some folder_id) ;;; ret tt.

Definition progress_cb (vname : string) (pct : Z) (st : status) : M world unit :=
  fun w => (Ok tt, {| items := items w; next_id := next_id w;
                      progress := progress w ++ [(vname, pct, st)] |}).

Definition upload_vehicle_report (E : env) (vehicle_folder : string)
    (root_folder_id : nat) : M world unit :=
  let vehicle_name := os_path_basename vehicle_folder in
  names <- lift (os_listdir E vehicle_folder) ;;
  let report_files := filter (fun f => VehicleReport.is_report f = true) names in
  vehicle_folder_id <- get_or_create_folder (Some root_folder_id) vehicle_name ;;
  match report_files with
  | [] => progress_cb vehicle_name 0 NoReport
  | f :: _ =>
      let report_file := os_path_join vehicle_folder f in
      progress_cb vehicle_name 5 Preparing ;;;
      delete_existing_docs vehicle_folder_id ;;;
      progress_cb vehicle_name 50 OldFilesDeleted ;;;
      upload_docx vehicle_folder_id report_file ;;;
      progress_cb vehicle_name 100 (Uploaded (os_path_basename report_file))
  end.

(** The ids of a Drive are distinct and older than the next one. *)
Definition wf (w : world) : Prop :=
  NoDup (item_id <$> items w) /\ forall it, it ∈ items w -> (item_id it < next_id w)%nat.

(** The folder of a vehicle on the Drive, as [get_or_create_folder] finds it. *)
Definition folder_id_of (root_folder_id : nat) (vehicle_name : string) (l : list item)
  : option nat :=
  item_id <$> head (filter (fun it => is_folder_named (Some root_folder_id) vehicle_name it = true) l).

(** The Word documents of a Drive folder. *)
Definition docs_in (folder_id : nat) (l : list item) : list item :=
  filter (fun it => is_doc_in folder_id it = true) l.

End Upload.

(** ** The specification's vocabulary, over the embedding *)

Module EmailSpec.
Import Py EmailReader.

(** DateKeyExtractor: the first valid key of one artifact, which is the first
    non-null value of its [createdAt] column when that value is a datetime. *)
Definition first_created_date (E : env) (f : file) : option date :=
  match f with
  | Unreadable => None
  | Workbook df =>
      col ← df !! "createdAt";
      first_val ← head (dropna col);
      dt ← pd_to_datetime E false first_val;
      Some dt.1
  end.

Definition is_xlsx (name : string) : bool :=
  Str.endswith (Str.lower name) ".xlsx".

(** The key one directory entry contributes to the index, if any. *)
Definition entry_date (E : env) (name : string) (f : file) : option date :=
  if is_xlsx name then first_created_date E f else None.

(** DedupIndex: the set of the first keys of the [.xlsx] artifacts. *)
Definition dedup_set (E : env) (files : gmap string file) : gset date :=
  list_to_set (omap (fun nf => entry_date E nf.1 nf.2) (map_to_list files)).

(** A candidate is new when its row has a date that the index lacks. *)
Definition is_new (E : env) (existing : gset date) (l : link) : bool :=
  match parse_email_date E l.1.2 with
  | Some d => bool_decide (d ∉ existing)
  | None => false
  end.

Definition url_of (l : link) : string := l.1.1.

(** What a download leaves on disk. *)
Definition stored (r : response) : option file :=
  match r with
  | Failed _ => None
  | Truncated f _ => Some f
  | Body f => Some f
  end.

(** The file a candidate is saved as. *)
Definition target (l : link) : string := local_name l.1.1 (Some l.1.2).

(** The folder after the download of one candidate. *)
Definition store (E : env) (files : gmap string file) (l : link) : gmap string file :=
  match stored (requests_get E (url_of l)) with
  | Some f => <[target l := f]> files
  | None => files
  end.

(** CandidateResolver, up to the message: what the mailbox gives a run to
    resolve its candidates from; [Ok None] when there is no usable mail. *)
Definition resolve (E : env) (vehicle_id : string) : result (option message) :=
  match imap_search E vehicle_id with
  | Raise e => Raise e
  | Ok (status_ok, email_ids) =>
      match status_ok, last email_ids with
      | true, Some email_id =>
          match imap_fetch E email_id with
          | Raise e => Raise e
          | Ok (fetch_ok, msg) => if fetch_ok then Ok (Some msg) else Ok None
          end
      | _, _ => Ok None
      end
  end.

(** The folder of a vehicle as a run finds it: empty when it had none. *)
Definition folder_of (w : world) (vehicle_id : string) : gmap string file :=
  default ∅ (disk w !! vehicle_id).

(** The candidates a run resolves; none when the mailbox gives no message. *)
Definition candidates (E : env) (vehicle_id : string) : list link :=
  match resolve E vehicle_id with
  | Ok (Some msg) => extract_all_links msg
  | _ => []
  end.

(** The candidates that a run downloads, given the folder it finds. *)
Definition fresh (E : env) (files : gmap string file) (links : list link) : list link :=
  filter (fun l => is_new E (dedup_set E files) l = true) links.

(** The links of one row, on their own. *)
Definition row_links (cols : list td) : list link := extract_row [] cols.

(** SyncResult of the contract of EntitySyncer. *)
Definition is_SyncResult (v : pyobj) : Prop :=
  has_int_field "processed" v /\ has_int_field "skipped" v /\ has_int_field "failed" v.

(** A stretch of journal that only logs, and enters no vehicle. *)
Definition chatter (tr : list event) : Prop :=
  Forall (fun e => match e with
                   | Log _ (ProcessingVehicle _) => False
                   | Log _ _ => True
                   | _ => False
                   end) tr.

(** An event of a vehicle: a log record or a request, nothing about the
    session with the mailbox. *)
Definition plain (e : event) : bool :=
  match e with
  | Log _ _ | Get _ => true
  | Login | Logout => false
  end.

(** A computation that adds only such events to the journal. *)
Definition tame {A} (m : M world A) : Prop :=
  forall w, exists tr, journal (m w).2 = journal w ++ tr /\ forallb plain tr = true.

End EmailSpec.

(** ** What holds of every configuration of [run_executor] *)

Module PoolSpec.
Import Py Pool.
Local Open Scope nat_scope.

(** What is known of the tasks at each point of the thread. *)
Definition ctl_ok (P : program) (c : config) : Prop :=
  match ctl c with
  | Entering => tasks c = [] /\ trace c = []
  | Submitting k => length (tasks c) = k /\ k <= size P /\ (0 < max_workers P)%Z
  | Collecting waiting =>
      length (tasks c) = size P /\ (0 < max_workers P)%Z /\
      (forall i, i ∈ waiting -> i < size P)
  | Leaving => length (tasks c) = size P /\ (0 < max_workers P)%Z
  | Closing | Returned =>
      forallb is_finished (tasks c) = true /\
      ((length (tasks c) = size P /\ (0 < max_workers P)%Z) \/
       (tasks c = [] /\ (max_workers P <= 0)%Z /\ guarded P = true))
  | Crashed _ => tasks c = [] /\ (max_workers P <= 0)%Z /\ guarded P = false
  end.

(** The final event is the last event, and only of a thread that returned. *)
Definition done_ok (c : config) : Prop :=
  match ctl c with
  | Returned => exists tr, trace c = tr ++ [AllDone] /\ AllDone ∉ tr
  | _ => AllDone ∉ trace c
  end.

(** The failures of the futures that the loop has been given are printed. *)
Definition reported_ok (P : program) (c : config) : Prop :=
  forall i e, i < size P -> run P i = Raise e ->
    match ctl c with
    | Collecting waiting => i ∉ waiting -> TaskError i e ∈ trace c
    | Leaving => TaskError i e ∈ trace c
    | Closing | Returned => (0 < max_workers P)%Z -> TaskError i e ∈ trace c
    | _ => True
    end.

Record inv (P : program) (c : config) : Prop := {
  inv_ctl : ctl_ok P c;
  inv_done : done_ok c;
  inv_end : forall i r, tasks c !! i = Some (Finished r) ->
                        r = run P i /\ End i r ∈ trace c;
  inv_submit : forall i, Submit i ∈ trace c -> i < length (tasks c);
  inv_reported : reported_ok P c;
}.

(** A measure that every step lowers. *)
Definition status_weight (s : status) : nat :=
  match s with Queued => 2 | Started => 1 | Finished _ => 0 end.

Definition control_weight (P : program) (k : control) : nat :=
  match k with
  | Entering => 4 * size P + 5
  | Submitting k => 3 * (size P - k) + size P + 4
  | Collecting waiting => length waiting + 3
  | Leaving => 2
  | Closing => 1
  | Returned | Crashed _ => 0
  end.

Definition weight (P : program) (c : config) : nat :=
  control_weight P (ctl c) + sum_list_with status_weight (tasks c).

(** The join barrier at a configuration [c] of the thread: once the thread
    has returned, the final event is the last event of the trace, occurs once,
    and every task submitted has come to its end before it; until then the
    final event has not occurred and some step can be taken; and no run to
    [c] is longer than the bound. *)
Definition joined (P : program) (c : config) : Prop :=
  (ctl c = Returned ->
   exists tr, trace c = tr ++ [AllDone] /\ (AllDone ∉ tr) /\
              forall i, Submit i ∈ tr -> exists r, End i r ∈ tr) /\
  (ctl c <> Returned -> (AllDone ∉ trace c) /\ exists c', step P c c') /\
  (forall n, nsteps (step P) n init c -> n <= 4 * size P + 5).

End PoolSpec.

(** ** A sample mailbox, web server and [pd.to_datetime]

    The instance the examples below are run on. [to_datetime] reads a
    [Timestamp] as itself and a text of the form [a/b/yyyy] as pandas does
    when [a/b] is a date in the order that [dayfirst] asks for; it gives [NaT]
    on everything else. *)

Module EmailDemo.
Import Py EmailReader.

Fixpoint split_on (sep : ascii) (cur s : string) : list string :=
  match s with
  | EmptyString => [String.rev cur]
  | String c r => if Ascii.eqb c sep then String.rev cur :: split_on sep EmptyString r
                  else split_on sep (String c cur) r
  end.

Fixpoint number (acc : Z) (s : string) : option Z :=
  match s with
  | EmptyString => Some acc
  | String c r => if Str.is_digit c
                  then number (10 * acc + (Z.of_nat (nat_of_ascii c) - 48)) r
                  else None
  end.

Definition leap (y : Z) : bool :=
  ((y mod 4 =? 0) && negb (y mod 100 =? 0)) || (y mod 400 =? 0).

Definition days_in_month (y m : Z) : Z :=
  if m =? 2 then (if leap y then 29 else 28)
  else if (m =? 4) || (m =? 6) || (m =? 9) || (m =? 11) then 30 else 31.

Definition valid_date (y m d : Z) : bool :=
  (1 <=? m) && (m <=? 12) && (1 <=? d) && (d <=? days_in_month y m).

Definition to_datetime (dayfirst : bool) (v : cell) : option Timestamp :=
  match v with
  | Stamp t => Some t
  | Text s =>
      match split_on "/" "" s with
      | [a; b; y] =>
          if (0 <? String.length a)%nat && (String.length a <=? 2)%nat &&
             (0 <? String.length b)%nat && (String.length b <=? 2)%nat &&
             (String.length y =? 4)%nat
          then
            match number 0 a, number 0 b, number 0 y with
            | Some a, Some b, Some y =>
                let '(d, m) := if dayfirst then (a, b) else (b, a) in
                if valid_date y m d then Some ((y, m, d), 0) else None
            | _, _, _ => None
            end
          else None
      | _ => None
      end
  | _ => None
  end.

(** A workbook with one [createdAt] column. *)
Definition workbook (createdAt : list cell) : file :=
  Workbook {[ "createdAt" := createdAt ]}.

Definition wb_can : file :=
  workbook [NaN; Stamp ((2025, 9, 1), 36000); Stamp ((2025, 9, 1), 36060)].

Definition can_url : string := "http://reports.example/can/Parsed_17.xlsx?sig=ab".
Definition csv_url : string := "http://reports.example/csv/day2.csv".

Definition cell_of (text : string) (h : option string) : td :=
  {| get_text := text; find_a := Some {| href := h |} |}.
Definition plain (text : string) : td := {| get_text := text; find_a := None |}.

(** A header row without [<td>], a row with both reports, a row with the CSV
    report only. *)
Definition mail_V1 : message :=
  [ [];
    [plain "1/9/2025"; cell_of "CSV" (Some "http://reports.example/csv/day1.csv");
     cell_of "CAN" (Some can_url)];
    [plain "2/9/2025"; cell_of "CSV" (Some csv_url); plain "-"] ].

(** One row, CAN report only. *)
Definition mail_V3 : message :=
  [ [plain "1/9/2025"; plain "-"; cell_of "CAN" (Some can_url)] ].

Definition E : env := {|
  pd_to_datetime := to_datetime;
  imap_login := Ok tt;
  imap_search v :=
    if String.eqb v "V1" then Ok (true, ["4"; "7"])
    else if String.eqb v "V2" then Raise (Exception "IMAP4.abort")
    else if String.eqb v "V3" then Ok (true, ["9"])
    else Ok (true, []);
  imap_fetch i :=
    if String.eqb i "7" then Ok (true, mail_V1)
    else if String.eqb i "9" then Ok (true, mail_V3)
    else Ok (false, []);
  requests_get u :=
    if String.eqb u can_url
    then Body wb_can
    else if String.eqb u csv_url then Body Unreadable
    else Failed (Exception "ConnectionError");
  vehicle_file := Some ["V1,truck"; ""; " V2 "; "V3,van"; "V4"];
|}.

(** No [vehicle_list.txt], and one with blank lines only. *)
Definition E_no_list : env := {|
  pd_to_datetime := to_datetime; imap_login := imap_login E;
  imap_search := imap_search E; imap_fetch := imap_fetch E;
  requests_get := requests_get E; vehicle_file := None;
|}.
Definition E_blank_list : env := {|
  pd_to_datetime := to_datetime; imap_login := imap_login E;
  imap_search := imap_search E; imap_fetch := imap_fetch E;
  requests_get := requests_get E; vehicle_file := Some [""; "  "];
|}.

(** An empty download root and an empty journal. *)
Definition w0 : world := {| disk := ∅; journal := [] |}.

(** A vehicle folder with a workbook, one with an upper-case suffix and a
    text date, a broken file, a workbook without the column, one with null
    values only, one whose first value is no date, and a CSV file. *)
Definition files9 : gmap string file :=
  {[ "1-9-2025_Parsed_17.xlsx" := wb_can;
     "B.XLSX" := workbook [Text "3/9/2025"; Stamp ((2025, 9, 8), 0)];
     "broken.xlsx" := Unreadable;
     "other.xlsx" := Workbook {[ "speed" := [Number 4] ]};
     "nulls.xlsx" := workbook [NaN; NaN];
     "text.xlsx" := workbook [Text "n/a"; Stamp ((2025, 9, 5), 0)];
     "2-9-2025_day2.csv" := wb_can ]}.

Definition w9 : world := {| disk := {[ "V9" := files9 ]}; journal := [] |}.

End EmailDemo.

(** ** Words about strings *)

Module StrSpec.

(** Every character of [s] is white space. *)
Fixpoint allspace (s : string) : bool :=
  match s with
  | EmptyString => true
  | String a r => Str.isspace a && allspace r
  end.

(** [s.rstrip()], the second half of [Str.strip]. *)
Definition rstrip (s : string) : string := String.rev (Str.lstrip (String.rev s)).

End StrSpec.

(** ** Reading the trace of a pool *)

Module PoolTrace.
Import Pool.

(** The futures submitted, the tasks taken by a worker, and the tasks come
    to their end, oldest first. *)
Definition submitted (tr : list event) : list nat :=
  omap (fun e => match e with Submit i => Some i | _ => None end) tr.
Definition started (tr : list event) : list nat :=
  omap (fun e => match e with Start i => Some i | _ => None end) tr.
Definition finished (tr : list event) : list nat :=
  omap (fun e => match e with End i _ => Some i | _ => None end) tr.

(** Every task is submitted in the order of the folders, taken by a worker
    at most once and only when submitted, and ended at most once and only
    when taken. *)
Record once (c : config) : Prop := {
  once_submitted : submitted (trace c) = seq 0 (length (tasks c));
  once_started : NoDup (started (trace c));
  once_finished : NoDup (finished (trace c));
  started_iff : forall i, i ∈ started (trace c) <->
                          tasks c !! i = Some Started \/
                          exists r, tasks c !! i = Some (Finished r);
  finished_iff : forall i, i ∈ finished (trace c) <->
                           exists r, tasks c !! i = Some (Finished r);
}.

End PoolTrace.

(** ** Samples for the other scripts *)

Module MoreDemo.
Import Py.

(** The mailbox of [EmailDemo.E], out of reach. *)
Definition E_offline : EmailReader.env := {|
  EmailReader.pd_to_datetime := EmailDemo.to_datetime;
  EmailReader.imap_login := Raise (Exception "gaierror");
  EmailReader.imap_search := EmailReader.imap_search EmailDemo.E;
  EmailReader.imap_fetch := EmailReader.imap_fetch EmailDemo.E;
  EmailReader.requests_get := EmailReader.requests_get EmailDemo.E;
  EmailReader.vehicle_file := EmailReader.vehicle_file EmailDemo.E;
|}.

(** A vehicle list with a blank line, a line without a comma and a line
    whose date does not parse. *)
Definition vehicle_lines : list string :=
  ["V1, Start date 01Nov2026"; ""; "no comma here"; " V2 ,Start date 15Oct2026 ";
   "V3,yesterday"].

Definition strptime (s : string) : option Octopus.date :=
  if String.eqb s "01Nov2026" then Some (2026, 11, 1)
  else if String.eqb s "15Oct2026" then Some (2026, 10, 15)
  else None.

(** A portal that times out on the second vehicle, and one that does not. *)
Definition O : Octopus.env := {|
  Octopus.OCTO_USER := Some "user";
  Octopus.OCTO_PASS := Some "secret";
  Octopus.yesterday := (2026, 11, 3);
  Octopus.vehicle_file := Some vehicle_lines;
  Octopus.strptime := strptime;
  Octopus.launch := Ok tt;
  Octopus.portal reg _ _ :=
    if String.eqb reg "V2" then Raise (Exception "TimeoutError") else Ok tt;
  Octopus.countdown := Ok true;
  Octopus.fetch_reports_for_all_vehicles _ := Ok tt;
  Octopus.generate_all_reports _ := Ok tt;
|}.

Definition O_smooth : Octopus.env := {|
  Octopus.OCTO_USER := Some "user";
  Octopus.OCTO_PASS := Some "secret";
  Octopus.yesterday := (2026, 11, 3);
  Octopus.vehicle_file := Some vehicle_lines;
  Octopus.strptime := strptime;
  Octopus.launch := Ok tt;
  Octopus.portal _ _ _ := Ok tt;
  Octopus.countdown := Ok true;
  Octopus.fetch_reports_for_all_vehicles _ := Ok tt;
  Octopus.generate_all_reports _ := Ok tt;
|}.

Definition o0 : Octopus.world := {| Octopus.journal := [] |}.

(** A calendar on November 2026. *)
Definition page0 : Octopus.page :=
  {| Octopus.shown := (2026, 11); Octopus.clicks := []; Octopus.log := [] |}.

Definition gui0 : LauncherGUI.gui :=
  {| LauncherGUI.pipeline := o0; LauncherGUI.buttons_enabled := true;
     LauncherGUI.status_label := LauncherGUI.Ready; LauncherGUI.dialogs := [] |}.

(** Three sticker folders and a file; the state file names the first of the
    sorted list, with a blank after it. *)
Definition sticker_entries : list (string * bool) :=
  [("cats", true); ("readme.txt", false); ("birds", true); ("dogs", true)].

Definition stickers3 (text : string) : Launcher.world :=
  {| Launcher.stickers := Launcher.Dir sticker_entries;
     Launcher.state := Launcher.Content text;
     Launcher.state_writable := true; Launcher.stdout := [] |}.

(** A vehicle folder with a sheet, a report of an earlier run and a note. *)
Definition V : VehicleReport.env :=
  {| VehicleReport.os_remove_ok _ := true; VehicleReport.build_and_save _ := Ok tt |}.

Definition files_V1 : gmap string VehicleReport.content :=
  {[ "a.xlsx" := VehicleReport.Frame 3;
     "temp_report_old.docx" := VehicleReport.Document;
     "notes.txt" := VehicleReport.Unreadable ]}.

Definition v0 : VehicleReport.world :=
  {| VehicleReport.disk := {[ "download/V1" := files_V1 ]};
     VehicleReport.vehicle_widgets := {[ "V1" := (0, VehicleReport.Waiting) ]};
     VehicleReport.printed := [] |}.

(** The folder after the run of the generator, and a machine that lists
    it. *)
Definition files_V1' : gmap string VehicleReport.content :=
  {[ "a.xlsx" := VehicleReport.Frame 3;
     "temp_report_V1.docx" := VehicleReport.Document;
     "notes.txt" := VehicleReport.Unreadable ]}.

Definition U : Upload.env :=
  {| Upload.os_listdir p :=
       if String.eqb p "download/V1" then Ok (map_to_list files_V1').*1
       else if String.eqb p "download/V2" then Ok ["b.xlsx"]
       else Raise (Exception "FileNotFoundError") |}.

(** A Drive with the tracker folder, the folder of a vehicle, and in it a
    report of an earlier upload and a picture. *)
Definition d0 : Upload.world :=
  {| Upload.items :=
       [ {| Upload.item_id := 0; Upload.item_name := "NTC TRACKER";
            Upload.item_kind := Upload.Folder; Upload.item_parent := None |};
         {| Upload.item_id := 1; Upload.item_name := "V1";
            Upload.item_kind := Upload.Folder; Upload.item_parent := Some 0%nat |};
         {| Upload.item_id := 2; Upload.item_name := "temp_report_V1.docx";
            Upload.item_kind := Upload.Docx; Upload.item_parent := Some 1%nat |};
         {| Upload.item_id := 3; Upload.item_name := "photo.png";
            Upload.item_kind := Upload.Other; Upload.item_parent := Some 1%nat |} ];
     Upload.next_id := 4;
     Upload.progress := [] |}.

End MoreDemo.

(** * Properties *)

(** ** String helpers on sample inputs *)

Example lower_ex : Str.lower "Rep.XLSX" = "rep.xlsx".
Proof. reflexivity. Qed.
Example endswith_ex : Str.endswith "a.xlsx" ".xlsx" = true /\ Str.endswith "lsx" ".xlsx" = false.
Proof. split; reflexivity. Qed.
Example split_last_ex :
  Str.split_last "/" "http://h/a/b.xlsx?x=1" = "b.xlsx?x=1" /\ Str.split_last "/" "abc" = "abc"
  /\ Str.split_last "/" "abc/" = "".
Proof. repeat split; reflexivity. Qed.
Example strip_ex : Str.strip "  a b
" = "a b".
Proof. reflexivity. Qed.

(** ** email_reader_attachment_download.py *)

Module EmailFacts.
Import Py EmailReader EmailSpec.

Ltac run :=
  unfold bind, ret, raise, lift, try_except, try_finally, log, emit; cbn.

(** *** Journals *)

Lemma requested_app (a b : list event) : requested (a ++ b) = requested a ++ requested b.
Proof. apply omap_app. Qed.

Lemma entered_app (a b : list event) : entered (a ++ b) = entered a ++ entered b.
Proof. apply omap_app. Qed.

Lemma chatter_nil : chatter [].
Proof. constructor. Qed.

Lemma chatter_app (a b : list event) : chatter a -> chatter b -> chatter (a ++ b).
Proof. apply Forall_app_2. Qed.

Lemma chatter_requested (tr : list event) : chatter tr -> requested tr = [].
Proof.
  induction 1 as [|e tr He _ IH]; [done|].
  by destruct e.
Qed.

Lemma chatter_entered (tr : list event) : chatter tr -> entered tr = [].
Proof.
  induction 1 as [|e tr He _ IH]; [done|].
  destruct e as [lv []| | |]; try done; by destruct lv.
Qed.

Lemma chatter_log (lv : level) (m : msg) :
  (forall v, m <> ProcessingVehicle v) -> chatter [Log lv m].
Proof.
  intros Hm. constructor; [|constructor].
  destruct m; try done. by destruct (Hm vehicle_id).
Qed.

(** *** extract_all_links *)

Lemma extract_row_app (links : list link) (cols : list td) :
  extract_row links cols = links ++ row_links cols.
Proof.
  unfold row_links, extract_row.
  destruct cols as [|c0 [|c1 [|c2 rest]]]; rewrite ?app_nil_r; try done.
  destruct (find_href c2); [done|].
  destruct (find_href c1); [done|]. by rewrite app_nil_r.
Qed.

Lemma extract_fold (msg : message) (links : list link) :
  foldl extract_row links msg = links ++ mjoin (row_links <$> msg).
Proof.
  revert links. induction msg as [|cols msg IH]; intros links; cbn.
  - by rewrite app_nil_r.
  - rewrite IH, extract_row_app. by rewrite <- app_assoc.
Qed.

(** C4. The links of a message are those of its rows, one row after the
    other; a row gives at most one link; when the anchor of its third cell
    has an [href], the row gives that link as "can" whatever its second cell
    holds; the "csv" link of the second cell is given only when the third
    cell has no such anchor. *)
Theorem extract_all_links_one_per_row (msg : message) :
  extract_all_links msg = mjoin (row_links <$> msg) /\
  (forall cols, (length (row_links cols) <= 1)%nat) /\
  (forall c0 c1 c2 rest h,
     find_href c2 = Some h ->
     row_links (c0 :: c1 :: c2 :: rest) = [(h, get_text c0, "can")]) /\
  (forall c0 c1 c2 rest l,
     l ∈ row_links (c0 :: c1 :: c2 :: rest) -> l.2 = "csv" ->
     find_href c2 = None /\ find_href c1 = Some l.1.1).
Proof.
  split; [apply (extract_fold msg [])|]. split; [|split].
  - intros cols. unfold row_links, extract_row.
    destruct cols as [|c0 [|c1 [|c2 rest]]]; cbn; try lia.
    destruct (find_href c2); cbn; [lia|].
    destruct (find_href c1); cbn; lia.
  - intros c0 c1 c2 rest h Hcan. unfold row_links, extract_row.
    by rewrite Hcan.
  - intros c0 c1 c2 rest l. unfold row_links, extract_row.
    destruct (find_href c2) as [h|] eqn:Hcan.
    + intros ->%list_elem_of_singleton. done.
    + destruct (find_href c1) as [h|] eqn:Hcsv.
      * intros ->%list_elem_of_singleton. done.
      * by intros ?%elem_of_nil.
Qed.


(** *** get_existing_first_created_dates *)

(** One more key for the index, or none. *)
Definition add_key (o : option date) (acc : gset date) : gset date :=
  match o with Some d => {[ d ]} ∪ acc | None => acc end.

Lemma scan_entry_run (E : env) (folder name : string) (files : gmap string file)
    (f : file) (acc : gset date) (w : world) :
  disk w !! folder = Some files -> files !! name = Some f ->
  exists tr,
    scan_entry E folder name acc w
    = (Ok (add_key (entry_date E name f) acc),
       {| disk := disk w; journal := journal w ++ tr |}) /\ chatter tr.
Proof.
  intros Hfolder Hname. unfold scan_entry, entry_date, is_xlsx.
  destruct (Str.endswith (Str.lower name) ".xlsx").
  2:{ exists []. rewrite app_nil_r. split; [by destruct w|apply chatter_nil]. }
  unfold read_first_created, pd_read_excel. run. rewrite Hfolder, Hname.
  destruct f as [|df]; cbn.
  { eexists [_]. split; [done|]. by apply chatter_log. }
  destruct (df !! "createdAt") as [col|]; cbn.
  2:{ eexists [_]. split; [done|]. by apply chatter_log. }
  destruct (dropna col) as [|first_val ser]; cbn.
  { exists []. rewrite app_nil_r. split; [by destruct w|apply chatter_nil]. }
  destruct (pd_to_datetime E false first_val) as [dt|]; cbn.
  - exists []. rewrite app_nil_r. split; [by destruct w|apply chatter_nil].
  - eexists [_]. split; [done|]. by apply chatter_log.
Qed.

Lemma scan_entries_run (E : env) (folder : string) (files : gmap string file)
    (l : list (string * file)) (acc : gset date) (w : world) :
  disk w !! folder = Some files ->
  (forall n f, (n, f) ∈ l -> files !! n = Some f) ->
  exists tr,
    for_fold l.*1 acc (scan_entry E folder) w
    = (Ok (list_to_set (omap (fun nf => entry_date E nf.1 nf.2) l) ∪ acc),
       {| disk := disk w; journal := journal w ++ tr |}) /\ chatter tr.
Proof.
  revert acc w. induction l as [|[n f] l IH]; intros acc w Hfolder Hl.
  - exists []. cbn. unfold ret. rewrite app_nil_r, (left_id_L ∅ (∪)).
    split; [by destruct w|apply chatter_nil].
  - cbn [fmap list_fmap fst for_fold]. unfold bind at 1.
    destruct (scan_entry_run E folder n files f acc w Hfolder) as (tr1 & -> & Htr1).
    { apply Hl. left. }
    destruct (IH (add_key (entry_date E n f) acc)
                 {| disk := disk w; journal := journal w ++ tr1 |} Hfolder)
      as (tr2 & -> & Htr2).
    { intros n' f' Hin. apply Hl. by right. }
    exists (tr1 ++ tr2). cbn [disk journal]. rewrite <- app_assoc.
    split; [|by apply chatter_app]. do 2 f_equal.
    cbn [omap list_omap fst snd]. unfold add_key.
    destruct (entry_date E n f) as [d|]; cbn; [|done].
    by rewrite (assoc_L (∪)), (comm_L (∪) _ {[d]}).
Qed.

Lemma get_existing_run (E : env) (folder : string) (files : gmap string file) (w : world) :
  disk w !! folder = Some files ->
  exists tr,
    get_existing_first_created_dates E folder w
    = (Ok (dedup_set E files), {| disk := disk w; journal := journal w ++ tr |})
    /\ chatter tr.
Proof.
  intros Hfolder. unfold get_existing_first_created_dates, os_listdir, bind at 1.
  rewrite Hfolder.
  destruct (scan_entries_run E folder files (map_to_list files) ∅ w Hfolder)
    as (tr & Hrun & Htr).
  { intros n f. apply elem_of_map_to_list. }
  exists tr. rewrite Hrun. unfold dedup_set. by rewrite (right_id_L ∅ (∪)).
Qed.

Lemma elem_of_dedup_set (E : env) (files : gmap string file) (d : date) :
  d ∈ dedup_set E files <->
  exists name f, files !! name = Some f /\ is_xlsx name = true /\
                 first_created_date E f = Some d.
Proof.
  unfold dedup_set. rewrite elem_of_list_to_set, list_elem_of_omap. split.
  - intros ([name f] & Hin%elem_of_map_to_list & Hd). cbn in Hd.
    unfold entry_date in Hd. exists name, f.
    destruct (is_xlsx name); [done|discriminate].
  - intros (name & f & Hf & Hx & Hd). exists (name, f).
    split; [by apply elem_of_map_to_list|]. cbn. unfold entry_date. by rewrite Hx.
Qed.

(** C3. On an existing folder the scan returns, without raising and without
    touching the disk, the set of the dates that are the first non-null
    [createdAt] value, read as a datetime, of some [.xlsx] file of the folder;
    a file that cannot be read, has no [createdAt] column, has only null values
    in it, or whose first value is no datetime, gives no date. *)
Theorem get_existing_first_created_dates_spec (E : env) (folder : string)
    (files : gmap string file) (w : world) :
  disk w !! folder = Some files ->
  exists existing w',
    get_existing_first_created_dates E folder w = (Ok existing, w') /\
    disk w' = disk w /\
    (forall d, d ∈ existing <->
       exists name f, files !! name = Some f /\
                      Str.endswith (Str.lower name) ".xlsx" = true /\
                      first_created_date E f = Some d) /\
    first_created_date E Unreadable = None /\
    (forall df, df !! "createdAt" = None -> first_created_date E (Workbook df) = None) /\
    (forall df col, df !! "createdAt" = Some col -> dropna col = [] ->
       first_created_date E (Workbook df) = None) /\
    (forall df col v rest, df !! "createdAt" = Some col -> dropna col = v :: rest ->
       first_created_date E (Workbook df) = fst <$> pd_to_datetime E false v).
Proof.
  intros Hfolder.
  destruct (get_existing_run E folder files w Hfolder) as (tr & Hrun & _).
  eexists _, _. split; [exact Hrun|]. split; [done|].
  split; [apply elem_of_dedup_set|]. split; [done|]. split; [|split].
  - intros df Hcol. cbn. by rewrite Hcol.
  - intros df col Hcol Hna. cbn. by rewrite Hcol; cbn; rewrite Hna.
  - intros df col v rest Hcol Hna. cbn. rewrite Hcol; cbn; rewrite Hna; cbn.
    by destruct (pd_to_datetime E false v).
Qed.


(** *** download_file and the loop of process_vehicle *)

Lemma download_file_run (E : env) (l : link) (folder : string)
    (files : gmap string file) (w : world) :
  disk w !! folder = Some files ->
  exists res tr,
    download_file E (url_of l) folder (Some l.1.2) w
    = (Ok res, {| disk := <[folder := store E files l]> (disk w);
                  journal := journal w ++ tr |})
    /\ requested tr = [url_of l] /\ entered tr = [].
Proof.
  intros Hfolder. unfold download_file, store, target, write_file. run.
  assert (Hid : <[folder := files]> (disk w) = disk w) by by apply insert_id.
  destruct (requests_get E (url_of l)) as [e|f e|f]; cbn; rewrite ?Hfolder; cbn;
    rewrite <- ?app_assoc; cbn; rewrite ?Hid; eexists _, _; (split; [reflexivity|done]).
Qed.

Lemma process_link_run (E : env) (vehicle_id folder : string) (existing : gset date)
    (n idx : nat) (l : link) (files : gmap string file) (w : world) :
  disk w !! folder = Some files ->
  exists tr,
    process_link E vehicle_id folder existing n idx l w
    = (Ok tt, {| disk := <[folder := if is_new E existing l
                                     then store E files l else files]> (disk w);
                 journal := journal w ++ tr |})
    /\ requested tr = (if is_new E existing l then [url_of l] else [])
    /\ entered tr = [].
Proof.
  intros Hfolder. destruct l as [[url date_range] report_type].
  assert (Hid : <[folder := files]> (disk w) = disk w) by by apply insert_id.
  unfold process_link, is_new. cbn [fst snd].
  destruct (parse_email_date E date_range) as [d|]; cbn.
  2:{ run. rewrite Hid. by eexists. }
  destruct (decide (d ∈ existing)) as [Hin|Hnew].
  { rewrite bool_decide_eq_false_2 by by intros []. run. rewrite Hid. by eexists. }
  rewrite bool_decide_eq_true_2 by done.
  unfold bind at 1. unfold log at 1, emit at 1. unfold bind at 1.
  destruct (download_file_run E (url, date_range, report_type) folder files
              {| disk := disk w;
                 journal := journal w ++
                   [Log INFO (DownloadingReport report_type idx n vehicle_id date_range)] |}
              Hfolder) as (res & tr & Hrun & Hreq & Hent).
  cbn [url_of fst snd disk journal] in Hrun. rewrite Hrun. run.
  eexists (_ :: tr). rewrite <- app_assoc. split; [reflexivity|]. split; cbn; done.
Qed.

Lemma process_links_run (E : env) (vehicle_id folder : string) (existing : gset date)
    (n : nat) (links : list link) (idx : nat) (files : gmap string file) (w : world) :
  disk w !! folder = Some files ->
  exists tr,
    for_enumerate idx links (process_link E vehicle_id folder existing n) w
    = (Ok tt, {| disk := <[folder := foldl (store E) files
                                       (filter (fun l => is_new E existing l = true) links)]>
                           (disk w);
                 journal := journal w ++ tr |})
    /\ requested tr = url_of <$> filter (fun l => is_new E existing l = true) links
    /\ entered tr = [].
Proof.
  revert idx files w. induction links as [|l links IH]; intros idx files w Hfolder.
  - exists []. cbn. unfold ret. rewrite app_nil_r, insert_id by done. by destruct w.
  - cbn [for_enumerate]. unfold bind at 1.
    destruct (process_link_run E vehicle_id folder existing n idx l files w Hfolder)
      as (tr1 & -> & Hreq1 & Hent1).
    set (files1 := if is_new E existing l then store E files l else files).
    destruct (IH (S idx) files1
                 {| disk := <[folder := files1]> (disk w); journal := journal w ++ tr1 |})
      as (tr2 & -> & Hreq2 & Hent2).
    { cbn. apply lookup_insert_eq. }
    exists (tr1 ++ tr2). cbn [disk journal].
    rewrite insert_insert_eq, <- app_assoc, requested_app, entered_app, Hreq1, Hreq2, Hent1, Hent2.
    rewrite filter_cons. subst files1.
    destruct (is_new E existing l) eqn:Hnew.
    + rewrite decide_True by done. done.
    + rewrite decide_False by done. done.
Qed.


(** *** process_vehicle *)

Lemma clean_or_create_folder_run (vehicle_id : string) (w : world) :
  clean_or_create_folder vehicle_id w
  = (Ok vehicle_id, {| disk := <[vehicle_id := folder_of w vehicle_id]> (disk w);
                       journal := journal w |}).
Proof.
  unfold clean_or_create_folder, os_makedirs, folder_of. run.
  destruct (disk w !! vehicle_id) as [files|] eqn:Hfiles; cbn; [|done].
  rewrite insert_id by done. by destruct w.
Qed.

(** A run of [process_vehicle], case by case on what the mailbox gives. *)
Lemma process_vehicle_run (E : env) (vehicle_id : string) (w : world) :
  exists tr,
    entered tr = [vehicle_id] /\
    match resolve E vehicle_id with
    | Raise e =>
        process_vehicle E vehicle_id w
        = (Raise e, {| disk := disk w; journal := journal w ++ tr |})
        /\ requested tr = []
    | Ok None =>
        process_vehicle E vehicle_id w
        = (Ok PyNone, {| disk := disk w; journal := journal w ++ tr |})
        /\ requested tr = []
    | Ok (Some msg) =>
        let files := folder_of w vehicle_id in
        process_vehicle E vehicle_id w
        = (Ok PyNone,
           {| disk := <[vehicle_id := foldl (store E) files (fresh E files (extract_all_links msg))]> (disk w);
              journal := journal w ++ tr |})
        /\ requested tr = url_of <$> fresh E files (extract_all_links msg)
    end.
Proof.
  unfold process_vehicle, resolve, search_latest_vehicle_email. run.
  destruct (imap_search E vehicle_id) as [[status_ok email_ids]|e]; cbn.
  2:{ eexists [_]. split; [|split; [reflexivity|]]; done. }
  destruct status_ok, (last email_ids) as [email_id|]; cbn.
  2-4: rewrite <- app_assoc; eexists [_; _]; split; [|split; [reflexivity|]]; done.
  destruct (imap_fetch E email_id) as [[fetch_ok msg]|e]; cbn.
  2:{ rewrite <- app_assoc. eexists [_; _]. split; [|split; [reflexivity|]]; done. }
  destruct fetch_ok; cbn.
  2:{ rewrite <- !app_assoc. eexists [_; _; _]. split; [|split; [reflexivity|]]; done. }
  rewrite clean_or_create_folder_run. cbn [disk journal].
  set (files := folder_of w vehicle_id).
  set (d1 := <[vehicle_id := files]> (disk w)).
  assert (Hd1 : d1 !! vehicle_id = Some files) by apply lookup_insert_eq.
  match goal with |- context [get_existing_first_created_dates E vehicle_id ?w1] =>
    destruct (get_existing_run E vehicle_id files w1 Hd1) as (tr1 & -> & Htr1) end.
  cbn [disk journal]. unfold fresh.
  destruct (extract_all_links msg) as [|l links] eqn:Hlinks.
  { rewrite filter_nil. cbn. rewrite <- !app_assoc. subst d1.
    eexists. split; [|split; [reflexivity|]].
    - rewrite !entered_app, (chatter_entered tr1) by done. done.
    - rewrite !requested_app, (chatter_requested tr1) by done. done. }
  match goal with |- context [for_enumerate 1 ?ls ?body ?w2] =>
    destruct (process_links_run E vehicle_id vehicle_id (dedup_set E files)
                (length ls) ls 1 files w2 Hd1) as (tr2 & -> & Hreq2 & Hent2) end.
  cbn [disk journal]. subst d1. rewrite insert_insert_eq, <- !app_assoc.
  eexists. split; [|split; [reflexivity|]].
  - rewrite !entered_app, (chatter_entered tr1), Hent2 by done. done.
  - rewrite !requested_app, (chatter_requested tr1), Hreq2 by done. done.
Qed.


(** C2. When the mailbox gives a message, the run builds its dedup set by one
    call of [get_existing_first_created_dates] on the vehicle folder, and
    then calls [requests.get], through [download_file], for exactly the links
    of the message whose row has a date outside of that set, in their order:
    a link whose date is in the set is never requested. *)
Theorem process_vehicle_downloads_new_dates_only (E : env) (vehicle_id : string)
    (msg : message) (w : world) :
  resolve E vehicle_id = Ok (Some msg) ->
  exists w_scan existing w_scanned w',
    disk w_scan = <[vehicle_id := folder_of w vehicle_id]> (disk w) /\
    get_existing_first_created_dates E vehicle_id w_scan = (Ok existing, w_scanned) /\
    process_vehicle E vehicle_id w = (Ok PyNone, w') /\
    requested (journal w')
    = requested (journal w)
      ++ (url_of <$> filter (fun l => is_new E existing l = true) (extract_all_links msg)) /\
    (forall l d, parse_email_date E l.1.2 = Some d ->
                 (is_new E existing l = true <-> d ∉ existing)).
Proof.
  intros Hmsg.
  destruct (process_vehicle_run E vehicle_id w) as (tr & _ & Hrun).
  rewrite Hmsg in Hrun. cbv zeta in Hrun. destruct Hrun as [Hrun Hreq].
  set (files := folder_of w vehicle_id) in *.
  set (w_scan := {| disk := <[vehicle_id := files]> (disk w); journal := journal w |}).
  destruct (get_existing_run E vehicle_id files w_scan) as (tr1 & Hscan & _).
  { apply lookup_insert_eq. }
  eexists w_scan, _, _, _. split; [done|]. split; [exact Hscan|].
  split; [exact Hrun|]. split.
  - cbn. by rewrite requested_app, Hreq.
  - intros l d Hd. unfold is_new. rewrite Hd. apply bool_decide_eq_true.
Qed.

(** *** Two runs in a row *)

Lemma foldl_store_other (E : env) (new : list link) (files : gmap string file)
    (n : string) :
  (forall l, l ∈ new -> target l <> n) ->
  foldl (store E) files new !! n = files !! n.
Proof.
  induction new as [|x xs IH] using rev_ind; intros Hn; [done|].
  rewrite foldl_app. cbn. unfold store at 1.
  destruct (stored _).
  - rewrite lookup_insert_ne by (apply Hn, elem_of_app; right; left).
    apply IH. intros l Hl. apply Hn, elem_of_app. by left.
  - apply IH. intros l Hl. apply Hn, elem_of_app. by left.
Qed.

Lemma foldl_store_last (E : env) (new : list link) (files : gmap string file)
    (l : link) :
  l ∈ new ->
  (forall l', l' ∈ new -> is_Some (stored (requests_get E (url_of l')))) ->
  exists l', l' ∈ new /\ target l' = target l /\
             foldl (store E) files new !! target l
             = stored (requests_get E (url_of l')).
Proof.
  induction new as [|x xs IH] using rev_ind; intros Hl Hst.
  { by apply elem_of_nil in Hl. }
  rewrite foldl_app. cbn. unfold store at 1.
  destruct (Hst x) as [f Hf]; [apply elem_of_app; right; left|]. rewrite Hf.
  destruct (decide (target x = target l)) as [Heq|Hne].
  - exists x. split; [apply elem_of_app; right; left|]. split; [done|].
    by rewrite Heq, lookup_insert_eq.
  - rewrite lookup_insert_ne by done.
    destruct IH as (l' & Hl' & Ht & Hlook).
    + apply elem_of_app in Hl as [Hl|Hl%list_elem_of_singleton]; [done|].
      by subst.
    + intros l' Hl'. apply Hst, elem_of_app. by left.
    + exists l'. split; [apply elem_of_app; by left|done].
Qed.


Lemma filter_none {A} (P : A -> Prop) `{forall x, Decision (P x)} (l : list A) :
  (forall x, x ∈ l -> ~ P x) -> filter P l = [].
Proof.
  induction l as [|x l IH]; intros Hl; [done|].
  rewrite filter_cons_False by (apply Hl; left).
  apply IH. intros y Hy. apply Hl. by right.
Qed.

Lemma folder_of_insert (d : gmap string (gmap string file)) (tr : list event)
    (vehicle_id : string) (files : gmap string file) :
  folder_of {| disk := <[vehicle_id := files]> d; journal := tr |} vehicle_id = files.
Proof. unfold folder_of. cbn. by rewrite lookup_insert_eq. Qed.

Lemma nothing_fresh_after (E : env) (files : gmap string file) (links : list link) :
  let new := fresh E files links in
  (forall l, l ∈ new ->
     exists f, stored (requests_get E (url_of l)) = Some f /\
               is_xlsx (target l) = true /\
               first_created_date E f = parse_email_date E l.1.2) ->
  (forall l f0, l ∈ new -> files !! target l = Some f0 ->
                first_created_date E f0 = None) ->
  (forall l l', l ∈ new -> l' ∈ new -> target l = target l' ->
                parse_email_date E l.1.2 = parse_email_date E l'.1.2) ->
  fresh E (foldl (store E) files new) links = [].
Proof.
  intros new Hserved Hkeep Hapart.
  set (files1 := foldl (store E) files new).
  unfold fresh. apply filter_none. intros l Hl Hnew.
  unfold is_new in Hnew.
  destruct (parse_email_date E l.1.2) as [d|] eqn:Hd; [|done].
  apply bool_decide_eq_true in Hnew. apply Hnew, elem_of_dedup_set. clear Hnew.
  destruct (is_new E (dedup_set E files) l) eqn:Hfirst.
  - assert (Hin : l ∈ new) by by apply list_elem_of_filter.
    destruct (foldl_store_last E new files l Hin) as (l' & Hl' & Ht & Hlook).
    { intros l' Hl'. destruct (Hserved l' Hl') as (f & -> & _). by eexists. }
    destruct (Hserved l' Hl') as (f & Hf & Hx & Hdate).
    exists (target l), f. split; [by rewrite <- Hf|]. split; [by rewrite <- Ht|].
    by rewrite Hdate, <- (Hapart l l'), Hd.
  - unfold is_new in Hfirst. rewrite Hd in Hfirst.
    apply bool_decide_eq_false in Hfirst. apply dec_stable in Hfirst.
    apply elem_of_dedup_set in Hfirst as (n0 & f0 & Hf0 & Hx & Hdate).
    exists n0, f0. split; [|done]. subst files1.
    rewrite foldl_store_other; [done|]. intros l' Hl' Ht. subst n0.
    by rewrite (Hkeep l' f0 Hl' Hf0) in Hdate.
Qed.

(** C8, amended. Two runs in a row on one vehicle, with the same mailbox: the
    second run requests nothing, provided that each download of the first
    run left a file with an [.xlsx] name whose first [createdAt] date is the
    date of the row of its link, replaced no file that carried a key, and
    shared its file name only with downloads of the same date. *)
Theorem second_run_downloads_nothing (E : env) (vehicle_id : string) (w0 : world) :
  let files := folder_of w0 vehicle_id in
  let new := fresh E files (candidates E vehicle_id) in
  (forall l, l ∈ new ->
     exists f, stored (requests_get E (url_of l)) = Some f /\
               is_xlsx (target l) = true /\
               first_created_date E f = parse_email_date E l.1.2) ->
  (forall l f0, l ∈ new -> files !! target l = Some f0 ->
                first_created_date E f0 = None) ->
  (forall l l', l ∈ new -> l' ∈ new -> target l = target l' ->
                parse_email_date E l.1.2 = parse_email_date E l'.1.2) ->
  exists r1 w1 r2 w2,
    process_vehicle E vehicle_id w0 = (r1, w1) /\
    process_vehicle E vehicle_id w1 = (r2, w2) /\
    requested (journal w2) = requested (journal w1).
Proof.
  intros files new Hserved Hkeep Hapart. subst new. unfold candidates in *.
  destruct (process_vehicle_run E vehicle_id w0) as (tr1 & _ & Hrun1).
  destruct (resolve E vehicle_id) as [[msg|]|e] eqn:Hres.
  - cbv zeta in Hrun1. destruct Hrun1 as [Hrun1 _]. fold files in Hrun1.
    eexists _, _. 
    match type of Hrun1 with _ = (_, ?w) =>
      destruct (process_vehicle_run E vehicle_id w) as (tr2 & _ & Hrun2) end.
    rewrite Hres in Hrun2. cbv zeta in Hrun2. destruct Hrun2 as [Hrun2 Hreq2].
    rewrite folder_of_insert in Hrun2, Hreq2.
    rewrite (nothing_fresh_after E files (extract_all_links msg)) in Hreq2 by done.
    eexists _, _. split; [exact Hrun1|]. split; [exact Hrun2|].
    cbn [journal]. by rewrite requested_app, Hreq2, app_nil_r.
  - destruct Hrun1 as [Hrun1 _]. eexists _, _.
    match type of Hrun1 with _ = (_, ?w) =>
      destruct (process_vehicle_run E vehicle_id w) as (tr2 & _ & Hrun2) end.
    rewrite Hres in Hrun2. destruct Hrun2 as [Hrun2 Hreq2].
    eexists _, _. split; [exact Hrun1|]. split; [exact Hrun2|].
    cbn [journal]. by rewrite requested_app, Hreq2, app_nil_r.
  - destruct Hrun1 as [Hrun1 _]. eexists _, _.
    match type of Hrun1 with _ = (_, ?w) =>
      destruct (process_vehicle_run E vehicle_id w) as (tr2 & _ & Hrun2) end.
    rewrite Hres in Hrun2. destruct Hrun2 as [Hrun2 Hreq2].
    eexists _, _. split; [exact Hrun1|]. split; [exact Hrun2|].
    cbn [journal]. by rewrite requested_app, Hreq2, app_nil_r.
Qed.

(** C7, amended. [process_vehicle] returns [None] whenever it returns, which
    is no record of counts; it raises only what the mailbox raises; and with
    no candidate, or no candidate of a new date, it returns normally without
    a single request. *)
Theorem process_vehicle_returns_None (E : env) (vehicle_id : string) (w : world) :
  ~ is_SyncResult PyNone /\
  (forall r w', process_vehicle E vehicle_id w = (r, w') ->
     r = Ok PyNone \/ exists e, r = Raise e /\ resolve E vehicle_id = Raise e) /\
  (forall o, resolve E vehicle_id = Ok o ->
     fresh E (folder_of w vehicle_id) (candidates E vehicle_id) = [] ->
     exists w', process_vehicle E vehicle_id w = (Ok PyNone, w') /\
                requested (journal w') = requested (journal w)).
Proof.
  split; [by intros [[] _]|].
  destruct (process_vehicle_run E vehicle_id w) as (tr & _ & Hrun).
  unfold candidates. destruct (resolve E vehicle_id) as [[msg|]|e] eqn:Hres.
  - cbv zeta in Hrun. destruct Hrun as [Hrun Hreq]. split.
    + intros r w'. rewrite Hrun. intros [= <- _]. by left.
    + intros o _ Hfresh. eexists. split; [exact Hrun|].
      cbn [journal]. by rewrite requested_app, Hreq, Hfresh, app_nil_r.
  - destruct Hrun as [Hrun Hreq]. split.
    + intros r w'. rewrite Hrun. intros [= <- _]. by left.
    + intros o _ _. eexists. split; [exact Hrun|].
      cbn [journal]. by rewrite requested_app, Hreq, app_nil_r.
  - destruct Hrun as [Hrun Hreq]. split.
    + intros r w'. rewrite Hrun. intros [= <- _]. right. by exists e.
    + intros o [=].
Qed.


Lemma process_vehicle_raises (E : env) (vehicle_id : string) (w w' : world) (e : exn) :
  process_vehicle E vehicle_id w = (Raise e, w') -> resolve E vehicle_id = Raise e.
Proof.
  destruct (process_vehicle_run E vehicle_id w) as (tr & _ & Hrun).
  destruct (resolve E vehicle_id) as [[msg|]|e0]; cbv zeta in Hrun;
    destruct Hrun as [-> _]; congruence.
Qed.

(** *** fetch_reports_for_all_vehicles *)

Lemma guarded_vehicle_run (E : env) (vehicle_id : string) (w : world) :
  exists w' tr,
    guarded_vehicle E vehicle_id w = (Ok tt, w') /\
    journal w' = journal w ++ tr /\
    entered tr = [vehicle_id] /\
    (forall e, resolve E vehicle_id = Raise e ->
               Log ERROR (ErrorProcessing vehicle_id e) ∈ tr).
Proof.
  destruct (process_vehicle_run E vehicle_id w) as (tr & Hent & Hrun).
  unfold guarded_vehicle, try_except, bind.
  destruct (resolve E vehicle_id) as [[msg|]|e].
  - cbv zeta in Hrun. destruct Hrun as [-> _]. cbn.
    eexists _, tr. split; [reflexivity|]. by repeat split.
  - destruct Hrun as [-> _]. cbn.
    eexists _, tr. split; [reflexivity|]. by repeat split.
  - destruct Hrun as [-> _]. run. rewrite <- app_assoc.
    eexists _, _. split; [reflexivity|]. split; [reflexivity|]. split.
    + by rewrite entered_app, Hent.
    + intros e' [= <-]. apply elem_of_app. right. left.
Qed.

Lemma vehicles_loop_run (E : env) (vehicle_ids : list string) (w : world) :
  exists w' tr,
    for_each vehicle_ids (guarded_vehicle E) w = (Ok tt, w') /\
    journal w' = journal w ++ tr /\
    entered tr = vehicle_ids /\
    (forall v e, v ∈ vehicle_ids -> resolve E v = Raise e ->
                 Log ERROR (ErrorProcessing v e) ∈ tr).
Proof.
  revert w. induction vehicle_ids as [|v vs IH]; intros w.
  - exists w, []. cbn. rewrite app_nil_r. split; [done|]. split; [done|].
    split; [done|]. by intros v e ?%elem_of_nil.
  - cbn [for_each]. unfold bind at 1.
    destruct (guarded_vehicle_run E v w) as (w1 & tr1 & -> & Hj1 & Hent1 & Herr1).
    destruct (IH w1) as (w2 & tr2 & Hrun2 & Hj2 & Hent2 & Herr2).
    exists w2, (tr1 ++ tr2). split; [exact Hrun2|].
    split; [by rewrite Hj2, Hj1, app_assoc|].
    split; [by rewrite entered_app, Hent1, Hent2|].
    intros v' e [->|Hin]%elem_of_cons Hres; apply elem_of_app; eauto.
Qed.

Lemma pass_run (E : env) (vehicle_ids : list string) (w : world) :
  imap_login E = Ok tt ->
  exists w' tr,
    (connect_to_mailbox E ;;;
     try_finally (for_each vehicle_ids (guarded_vehicle E)) (emit Logout) ;;;
     log INFO AllFetched) w = (Ok tt, w') /\
    journal w' = journal w ++ tr /\
    entered tr = vehicle_ids /\
    (forall v e, v ∈ vehicle_ids -> resolve E v = Raise e ->
                 Log ERROR (ErrorProcessing v e) ∈ tr) /\
    last tr = Some (Log INFO AllFetched).
Proof.
  intros Hlogin. unfold connect_to_mailbox. rewrite Hlogin.
  unfold bind, try_except, try_finally, lift, log, emit. cbv beta iota.
  match goal with |- context [for_each vehicle_ids _ ?w1] =>
    destruct (vehicles_loop_run E vehicle_ids w1) as (w2 & tr & -> & Hj & Hent & Herr) end.
  cbn [journal] in *. rewrite Hj.
  eexists _, ([Login] ++ tr ++ [Logout; Log INFO AllFetched]).
  split; [reflexivity|]. split; [|split; [|split]].
  - cbn. by rewrite <- !app_assoc.
  - rewrite !entered_app, Hent. cbn. by rewrite app_nil_r.
  - intros v e Hin Hres. apply elem_of_app. right. apply elem_of_app. left.
    by apply Herr.
  - change [Logout; Log INFO AllFetched] with ([Logout] ++ [Log INFO AllFetched]).
    rewrite !app_assoc. apply last_snoc.
Qed.

(** The whole pass over the list, when there is a list and a mailbox. *)
Lemma fetch_reports_run (E : env) (lines : list string) (w : world) :
  vehicle_file E = Some lines -> read_vehicle_ids lines <> [] ->
  imap_login E = Ok tt ->
  exists w' tr,
    fetch_reports_for_all_vehicles E w = (Ok tt, w') /\
    journal w' = journal w ++ tr /\
    entered tr = read_vehicle_ids lines /\
    (forall v e, v ∈ read_vehicle_ids lines -> resolve E v = Raise e ->
                 Log ERROR (ErrorProcessing v e) ∈ tr) /\
    last tr = Some (Log INFO AllFetched).
Proof.
  intros Hfile Hids Hlogin. unfold fetch_reports_for_all_vehicles. rewrite Hfile.
  destruct (read_vehicle_ids lines) as [|v vs] eqn:Hlist; [done|].
  unfold bind at 1. unfold log at 1, emit at 1. cbv beta iota.
  match goal with |- context [bind _ _ ?w1] =>
    destruct (pass_run E (v :: vs) w1 Hlogin) as (w2 & tr & Hrun & Hj & Hent & Herr & Hlast) end.
  cbn [journal] in Hj. exists w2, (Log INFO StartingPhase2 :: tr).
  split; [exact Hrun|]. split; [by rewrite Hj, <- app_assoc|].
  split; [exact Hent|]. split.
  - intros v' e Hin Hres. right. by apply Herr.
  - destruct tr; [done|exact Hlast].
Qed.

(** Without a list no vehicle is entered and no mailbox is opened; the missing
    list is logged once. *)
Lemma fetch_reports_aborts (E : env) (w : world) :
  match vehicle_file E with
  | None =>
      fetch_reports_for_all_vehicles E w
      = (Ok tt, {| disk := disk w;
                   journal := journal w ++ [Log INFO StartingPhase2;
                                            Log ERROR VehicleFileNotFound] |})
  | Some lines =>
      read_vehicle_ids lines = [] ->
      fetch_reports_for_all_vehicles E w
      = (Ok tt, {| disk := disk w;
                   journal := journal w ++ [Log INFO StartingPhase2;
                                            Log WARNING VehicleFileEmpty] |})
  end.
Proof.
  unfold fetch_reports_for_all_vehicles. destruct (vehicle_file E) as [lines|].
  - intros ->. run. by rewrite <- app_assoc.
  - run. by rewrite <- app_assoc.
Qed.

(** *** On the sample mailbox *)

Lemma extract_all_links_one_per_row_witness :
  find_href (EmailDemo.cell_of "CAN" (Some EmailDemo.can_url)) = Some EmailDemo.can_url /\
  row_links [EmailDemo.plain "1/9/2025";
             EmailDemo.cell_of "CSV" (Some EmailDemo.csv_url);
             EmailDemo.cell_of "CAN" (Some EmailDemo.can_url)]
  = [(EmailDemo.can_url, "1/9/2025", "can")].
Proof.
  split; [reflexivity|].
  apply (proj1 (proj2 (proj2 (extract_all_links_one_per_row [])))).
  reflexivity.
Defined.

Example extract_all_links_sample :
  extract_all_links EmailDemo.mail_V1
  = [(EmailDemo.can_url, "1/9/2025", "can"); (EmailDemo.csv_url, "2/9/2025", "csv")].
Proof. reflexivity. Qed.

Lemma get_existing_first_created_dates_witness :
  disk EmailDemo.w9 !! "V9" = Some EmailDemo.files9 /\
  exists existing w',
    get_existing_first_created_dates EmailDemo.E "V9" EmailDemo.w9 = (Ok existing, w') /\
    disk w' = disk EmailDemo.w9.
Proof.
  assert (H : disk EmailDemo.w9 !! "V9" = Some EmailDemo.files9)
    by apply lookup_singleton_eq.
  split; [exact H|].
  destruct (get_existing_first_created_dates_spec EmailDemo.E "V9" EmailDemo.files9
              EmailDemo.w9 H) as (existing & w' & Hrun & Hdisk & _).
  exists existing, w'. split; assumption.
Defined.

Example get_existing_sample :
  (get_existing_first_created_dates EmailDemo.E "V9" EmailDemo.w9).1
  = Ok ({[ (2025, 9, 1); (2025, 3, 9) ]} : gset date).
Proof. vm_compute. reflexivity. Qed.

Lemma process_vehicle_downloads_new_dates_only_witness :
  resolve EmailDemo.E "V1" = Ok (Some EmailDemo.mail_V1) /\
  exists w', process_vehicle EmailDemo.E "V1" EmailDemo.w0 = (Ok PyNone, w').
Proof.
  assert (H : resolve EmailDemo.E "V1" = Ok (Some EmailDemo.mail_V1))
    by (vm_compute; reflexivity).
  split; [exact H|].
  destruct (process_vehicle_downloads_new_dates_only EmailDemo.E "V1"
              EmailDemo.mail_V1 EmailDemo.w0 H) as (_ & _ & _ & w' & _ & _ & Hrun & _).
  by exists w'.
Defined.

(** The folder of V1 already holds the report of 1/9/2025: only the report of
    2/9/2025 is requested. *)
Example process_vehicle_sample :
  let w := {| disk := {[ "V1" := {[ "old.xlsx" := EmailDemo.wb_can ]} ]}; journal := [] |} in
  requested (journal (process_vehicle EmailDemo.E "V1" w).2) = [EmailDemo.csv_url].
Proof. vm_compute. reflexivity. Qed.

(** C7, as stated, fails: the run of V1 returns, and what it returns is no
    record with the fields [processed], [skipped] and [failed]. *)
Lemma process_vehicle_gives_no_SyncResult :
  (process_vehicle EmailDemo.E "V1" EmailDemo.w0).1 = Ok PyNone /\
  ~ (exists v w', process_vehicle EmailDemo.E "V1" EmailDemo.w0 = (Ok v, w') /\
                  is_SyncResult v).
Proof.
  assert (H : (process_vehicle EmailDemo.E "V1" EmailDemo.w0).1 = Ok PyNone)
    by (vm_compute; reflexivity).
  split; [exact H|]. intros (v & w' & Hrun & Hrec). rewrite Hrun in H.
  injection H as ->. by destruct Hrec as [[] _].
Qed.

Lemma process_vehicle_returns_None_witness :
  resolve EmailDemo.E "V4" = Ok None /\
  exists w', process_vehicle EmailDemo.E "V4" EmailDemo.w0 = (Ok PyNone, w') /\
             requested (journal w') = requested (journal EmailDemo.w0).
Proof.
  assert (H : resolve EmailDemo.E "V4" = Ok None) by (vm_compute; reflexivity).
  split; [exact H|].
  apply (proj2 (proj2 (process_vehicle_returns_None EmailDemo.E "V4" EmailDemo.w0)) None H).
  vm_compute. reflexivity.
Defined.

(** C8, as stated, fails: the CSV report of 2/9/2025 is downloaded by the
    first run, saved as [2-9-2025_day2.csv], which the index does not read,
    and downloaded again by the second run. *)
Lemma second_run_downloads_again :
  let w1 := (process_vehicle EmailDemo.E "V1" EmailDemo.w0).2 in
  let w2 := (process_vehicle EmailDemo.E "V1" w1).2 in
  requested (journal w1) = [EmailDemo.can_url; EmailDemo.csv_url] /\
  requested (journal w2) = requested (journal w1) ++ [EmailDemo.csv_url] /\
  requested (journal w2) <> requested (journal w1).
Proof.
  cbv zeta. split; [vm_compute; reflexivity|].
  split; [vm_compute; reflexivity|]. vm_compute. discriminate.
Qed.

Lemma second_run_downloads_nothing_witness :
  exists r1 w1 r2 w2,
    process_vehicle EmailDemo.E "V3" EmailDemo.w0 = (r1, w1) /\
    process_vehicle EmailDemo.E "V3" w1 = (r2, w2) /\
    requested (journal w2) = requested (journal w1).
Proof.
  assert (Hnew : fresh EmailDemo.E (folder_of EmailDemo.w0 "V3")
                   (candidates EmailDemo.E "V3")
                 = [(EmailDemo.can_url, "1/9/2025", "can")])
    by (vm_compute; reflexivity).
  apply (second_run_downloads_nothing EmailDemo.E "V3" EmailDemo.w0); cbv zeta;
    rewrite Hnew.
  - intros l ->%list_elem_of_singleton. exists EmailDemo.wb_can.
    vm_compute. by repeat split.
  - intros l f0 ->%list_elem_of_singleton. vm_compute. discriminate.
  - intros l l' ->%list_elem_of_singleton ->%list_elem_of_singleton. reflexivity.
Defined.

End EmailFacts.

(** ** The thread of [run_executor] and its pool *)

Module PoolFacts.
Import Py Pool PoolSpec.
Local Open Scope nat_scope.

Lemma forallb_finished_lookup (ts : list status) (i : nat) (s : status) :
  forallb is_finished ts = true -> ts !! i = Some s -> exists r, s = Finished r.
Proof.
  revert i. induction ts as [|t ts IH]; intros i Hall Hi; [done|].
  cbn in Hall. apply andb_prop in Hall as [Ht Hts]. destruct i as [|i]; cbn in Hi.
  - injection Hi as ->. destruct s; try done. by eexists.
  - by apply (IH i).
Qed.

Lemma elem_of_snoc_ne (tr : list event) (e e' : event) :
  e <> e' -> e ∈ tr ++ [e'] -> e ∈ tr.
Proof. intros Hne [Hin|Hin%list_elem_of_singleton]%elem_of_app; done. Qed.

Lemma not_elem_of_snoc (tr : list event) (e e' : event) :
  e <> e' -> e ∉ tr -> e ∉ tr ++ [e'].
Proof. intros Hne Hin Hin'. by apply Hin, (elem_of_snoc_ne tr e e'). Qed.

Lemma elem_of_snoc_l (tr tr' : list event) (e : event) : e ∈ tr -> e ∈ tr ++ tr'.
Proof. intros. apply elem_of_app. by left. Qed.

Ltac older H := eapply elem_of_snoc_ne; [|exact H]; done.

(** *** The invariant *)

Lemma inv_init (P : program) : inv P init.
Proof.
  split; cbn.
  - done.
  - unfold done_ok. cbn. apply not_elem_of_nil.
  - intros i r Hi. by rewrite lookup_nil in Hi.
  - by intros i ?%elem_of_nil.
  - by intros i e _ _.
Qed.

Lemma ctl_ok_step (P : program) (c c' : config) :
  inv P c -> step P c c' -> ctl_ok P c'.
Proof.
  intros [Hctl _ _ _ _] Hstep. unfold ctl_ok in *.
  destruct Hstep as [c Hc Hmw|c Hc Hmw|c k Hc Hk|c Hc|c w1 i w2 r Hc Hi|c Hc
                    |c Hc Hall|c Hc|c i Hi Hfree|c i Hi]; try rewrite Hc in Hctl.
  - destruct Hctl as [Hts _]. destruct (guarded P) eqn:Hg; cbn; rewrite Hts; cbn; auto.
  - destruct Hctl as [-> _]. cbn. split; [done|]. split; [lia|done].
  - destruct Hctl as (Hlen & Hle & Hmw). cbn. rewrite length_app. cbn.
    split; [lia|]. split; [lia|done].
  - destruct Hctl as (Hlen & Hle & Hmw). cbn. split; [done|]. split; [done|].
    intros i Hi%elem_of_seq. lia.
  - destruct Hctl as (Hlen & Hmw & Hw). cbn. split; [done|]. split; [done|].
    intros j Hj. apply Hw.
    apply elem_of_app in Hj as [Hj|Hj]; apply elem_of_app; [by left|right; by right].
  - destruct Hctl as (Hlen & Hmw & Hw). cbn. done.
  - destruct Hctl as (Hlen & Hmw). cbn. split; [done|]. by left.
  - cbn. done.
  - cbn. destruct (ctl c) eqn:Hc.
    + destruct Hctl as [Hts _]. by rewrite Hts in Hi.
    + by rewrite length_insert.
    + by rewrite length_insert.
    + by rewrite length_insert.
    + destruct Hctl as [Hall _].
      by destruct (forallb_finished_lookup _ _ _ Hall Hi).
    + destruct Hctl as [Hall _].
      by destruct (forallb_finished_lookup _ _ _ Hall Hi).
    + destruct Hctl as [Hts _]. by rewrite Hts in Hi.
  - cbn. destruct (ctl c) eqn:Hc.
    + destruct Hctl as [Hts _]. by rewrite Hts in Hi.
    + by rewrite length_insert.
    + by rewrite length_insert.
    + by rewrite length_insert.
    + destruct Hctl as [Hall _].
      by destruct (forallb_finished_lookup _ _ _ Hall Hi).
    + destruct Hctl as [Hall _].
      by destruct (forallb_finished_lookup _ _ _ Hall Hi).
    + destruct Hctl as [Hts _]. by rewrite Hts in Hi.
Qed.


Lemma done_ok_step (P : program) (c c' : config) :
  inv P c -> step P c c' -> done_ok c'.
Proof.
  intros [Hctl Hdone _ _ _] Hstep. unfold done_ok, ctl_ok in *.
  destruct Hstep as [c Hc Hmw|c Hc Hmw|c k Hc Hk|c Hc|c w1 i w2 r Hc Hi|c Hc
                    |c Hc Hall|c Hc|c i Hi Hfree|c i Hi];
    try rewrite Hc in Hdone; try rewrite Hc in Hctl; cbn.
  - destruct (guarded P); cbn; [|done]. by apply not_elem_of_snoc.
  - done.
  - by apply not_elem_of_snoc.
  - done.
  - destruct r; [by rewrite app_nil_r|]. by apply not_elem_of_snoc.
  - done.
  - done.
  - by exists (trace c).
  - destruct (ctl c) eqn:Hc; try by apply not_elem_of_snoc.
    destruct Hctl as [Hall _].
    by destruct (forallb_finished_lookup _ _ _ Hall Hi).
  - destruct (ctl c) eqn:Hc; try by apply not_elem_of_snoc.
    destruct Hctl as [Hall _].
    by destruct (forallb_finished_lookup _ _ _ Hall Hi).
Qed.

Lemma end_step (P : program) (c c' : config) :
  inv P c -> step P c c' ->
  forall i r, tasks c' !! i = Some (Finished r) -> r = run P i /\ End i r ∈ trace c'.
Proof.
  intros [_ _ Hend _ _] Hstep.
  destruct Hstep as [c Hc Hmw|c Hc Hmw|c k Hc Hk|c Hc|c w1 j w2 r' Hc Hj|c Hc
                    |c Hc Hall|c Hc|c j Hj Hfree|c j Hj]; cbn; intros i r Hi;
    try (by apply Hend).
  - destruct (guarded P); cbn in *; destruct (Hend i r Hi); auto using elem_of_snoc_l.
  - apply lookup_snoc_Some in Hi as [[_ Hi]|[_ [=]]].
    destruct (Hend i r Hi); auto using elem_of_snoc_l.
  - destruct (Hend i r Hi); auto using elem_of_snoc_l.
  - destruct (Hend i r Hi); auto using elem_of_snoc_l.
  - apply list_lookup_insert_Some in Hi as [(_ & [=] & _)|[_ Hi]].
    destruct (Hend i r Hi); auto using elem_of_snoc_l.
  - apply list_lookup_insert_Some in Hi as [(<- & [= <-] & _)|[_ Hi]].
    + split; [done|]. apply elem_of_app. right. left.
    + destruct (Hend i r Hi); auto using elem_of_snoc_l.
Qed.

Lemma submit_step (P : program) (c c' : config) :
  inv P c -> step P c c' ->
  forall i, Submit i ∈ trace c' -> i < length (tasks c').
Proof.
  intros [Hctl _ _ Hsub _] Hstep. unfold ctl_ok in Hctl.
  destruct Hstep as [c Hc Hmw|c Hc Hmw|c k Hc Hk|c Hc|c w1 j w2 r' Hc Hj|c Hc
                    |c Hc Hall|c Hc|c j Hj Hfree|c j Hj]; cbn; intros i Hi;
    try (by apply Hsub).
  - destruct (guarded P); cbn in *; [|by apply Hsub].
    apply Hsub; older Hi.
  - rewrite Hc in Hctl. destruct Hctl as (Hlen & _). rewrite length_app. cbn.
    apply elem_of_app in Hi as [Hi|[= ->]%list_elem_of_singleton]; [|lia].
    specialize (Hsub i Hi). lia.
  - apply Hsub. destruct r'; [by rewrite app_nil_r in Hi|].
    older Hi.
  - apply Hsub; older Hi.
  - rewrite length_insert. apply Hsub; older Hi.
  - rewrite length_insert. apply Hsub; older Hi.
Qed.

Lemma reported_step (P : program) (c c' : config) :
  inv P c -> step P c c' -> reported_ok P c'.
Proof.
  intros [Hctl _ Hend _ Hrep] Hstep. unfold reported_ok, ctl_ok in *.
  intros i e Hi He. specialize (Hrep i e Hi He).
  destruct Hstep as [c Hc Hmw|c Hc Hmw|c k Hc Hk|c Hc|c w1 j w2 r' Hc Hj|c Hc
                    |c Hc Hall|c Hc|c j Hj Hfree|c j Hj];
    try rewrite Hc in Hrep; try rewrite Hc in Hctl; cbn.
  - destruct (guarded P); cbn; [|done]. lia.
  - done.
  - done.
  - intros Hout. destruct Hout. apply elem_of_seq. lia.
  - intros Hout. destruct (decide (i = j)) as [->|Hne].
    + destruct (Hend j r' Hj) as [-> _]. rewrite He. apply elem_of_app. right. left.
    + apply elem_of_snoc_l, Hrep. intros Hin. apply Hout.
      apply elem_of_app in Hin as [Hin|[Heq|Hin]%elem_of_cons]; [|done|];
        apply elem_of_app; auto.
  - apply Hrep, not_elem_of_nil.
  - intros _. exact Hrep.
  - intros Hmw. apply elem_of_snoc_l. by apply Hrep.
  - destruct (ctl c); try done; intros; apply elem_of_snoc_l; auto.
  - destruct (ctl c); try done; intros; apply elem_of_snoc_l; auto.
Qed.

Lemma inv_step (P : program) (c c' : config) : inv P c -> step P c c' -> inv P c'.
Proof.
  intros Hinv Hstep. split;
    eauto using ctl_ok_step, done_ok_step, end_step, submit_step, reported_step.
Qed.

Lemma inv_reachable (P : program) (c : config) : rtc (step P) init c -> inv P c.
Proof.
  intros Hrun. apply (rtc_ind_r (R := step P) (inv P) init); [apply inv_init| |exact Hrun].
  intros c1 c2 _ Hstep IH. by apply (inv_step P c1).
Qed.


(** *** No step is missing: a thread that has not ended is not stuck *)

Lemma busy_none (ts : list status) :
  (forall i, ts !! i <> Some Started) -> busy ts = 0.
Proof.
  unfold busy. induction ts as [|t ts IH]; intros Hno; [done|].
  rewrite filter_cons. destruct (decide (is_started t = true)) as [Ht|Ht].
  - destruct t; try done. by destruct (Hno 0).
  - apply IH. intros i. apply (Hno (S i)).
Qed.

Lemma unfinished_lookup (ts : list status) :
  forallb is_finished ts = false ->
  exists i, ts !! i = Some Queued \/ ts !! i = Some Started.
Proof.
  induction ts as [|t ts IH]; [done|]. cbn. intros Hall.
  destruct t; [exists 0; by left|exists 0; by right|].
  destruct (IH Hall) as [i Hi]. by exists (S i).
Qed.

Lemma started_dec (ts : list status) :
  (exists i, ts !! i = Some Started) \/ (forall i, ts !! i <> Some Started).
Proof.
  induction ts as [|t ts [[i Hi]|IH]].
  - right. by intros i.
  - left. by exists (S i).
  - destruct t; [right|left; by exists 0|right]; intros [|i]; try done; apply IH.
Qed.

(** With a worker allowed, a pool with an unfinished task can step. *)
Lemma worker_can_step (P : program) (c : config) :
  (0 < max_workers P)%Z -> forallb is_finished (tasks c) = false ->
  exists c', step P c c'.
Proof.
  intros Hmw Hall. destruct (started_dec (tasks c)) as [[i Hi]|Hnone].
  { eexists. by apply (step_finish P c i). }
  destruct (unfinished_lookup _ Hall) as [i [Hi|Hi]]; [|by destruct (Hnone i)].
  eexists. apply (step_start P c i Hi). rewrite busy_none by done. lia.
Qed.

Lemma progress (P : program) (c : config) :
  inv P c -> ended c = false -> exists c', step P c c'.
Proof.
  intros [Hctl _ _ _ _]. unfold ctl_ok, ended in *.
  destruct (ctl c) as [|k|[|i waiting]| | | |e] eqn:Hc; try done; intros _.
  - destruct (decide (max_workers P <= 0)%Z).
    + eexists. by apply step_refused.
    + eexists. apply step_entered; [done|lia].
  - destruct Hctl as (Hlen & Hle & Hmw). destruct (decide (k = size P)) as [->|Hne].
    + eexists. by apply step_submitted.
    + eexists. apply (step_submit P c k); [done|lia].
  - eexists. by apply step_exhausted.
  - destruct Hctl as (Hlen & Hmw & Hw).
    destruct (forallb is_finished (tasks c)) eqn:Hall; [|by apply worker_can_step].
    destruct (lookup_lt_is_Some_2 (tasks c) i) as [s Hs].
    { rewrite Hlen. apply Hw. left. }
    destruct (forallb_finished_lookup _ _ _ Hall Hs) as [r ->].
    eexists. by apply (step_yield P c [] i waiting r).
  - destruct Hctl as (Hlen & Hmw).
    destruct (forallb is_finished (tasks c)) eqn:Hall; [|by apply worker_can_step].
    eexists. by apply step_leave.
  - eexists. by apply step_close.
Qed.

(** *** Every run is finite *)

Lemma weight_insert (ts : list status) (i : nat) (s s' : status) :
  ts !! i = Some s ->
  sum_list_with status_weight (<[i := s']> ts) + status_weight s
  = sum_list_with status_weight ts + status_weight s'.
Proof.
  revert i. induction ts as [|t ts IH]; intros [|i] Hi; try done.
  - injection Hi as ->. change (<[0:=s']> (s :: ts)) with (s' :: ts).
    cbn [sum_list_with]. lia.
  - change (<[S i:=s']> (t :: ts)) with (t :: <[i:=s']> ts).
    cbn [sum_list_with]. specialize (IH i Hi). lia.
Qed.

Lemma weight_step (P : program) (c c' : config) :
  step P c c' -> weight P c' < weight P c.
Proof.
  unfold weight.
  intros [? Hc _|? Hc _|? k Hc Hk|? Hc|? w1 i w2 r Hc Hi|? Hc
         |? Hc Hall|? Hc|? i Hi _|? i Hi]; try rewrite Hc.
  - destruct (guarded P); cbn [ctl tasks control_weight]; lia.
  - cbn [ctl tasks control_weight]. lia.
  - cbn [ctl tasks control_weight]. rewrite sum_list_with_app.
    cbn [sum_list_with status_weight]. lia.
  - cbn [ctl tasks control_weight]. rewrite length_seq. lia.
  - cbn [ctl tasks control_weight]. rewrite !length_app. cbn [length]. lia.
  - cbn [ctl tasks control_weight length]. lia.
  - cbn [ctl tasks control_weight]. lia.
  - cbn [ctl tasks control_weight]. lia.
  - cbn [ctl tasks]. pose proof (weight_insert _ _ _ Started Hi) as Hw.
    cbn [status_weight] in Hw. lia.
  - cbn [ctl tasks]. pose proof (weight_insert _ _ _ (Finished (run P i)) Hi) as Hw.
    cbn [status_weight] in Hw. lia.
Qed.

Lemma steps_bounded (P : program) (n : nat) (c : config) :
  nsteps (step P) n init c -> n + weight P c <= 4 * size P + 5.
Proof.
  revert c. induction n as [|n IH]; intros c Hrun.
  - inversion Hrun; subst. unfold weight. cbn [init ctl tasks control_weight sum_list_with]. lia.
  - apply nsteps_inv_r in Hrun as (c1 & Hrun & Hstep).
    specialize (IH c1 Hrun). pose proof (weight_step P c1 c Hstep). lia.
Qed.

(** *** What a thread that returned has done *)

Lemma returned_after_all (P : program) (c : config) :
  inv P c -> ctl c = Returned ->
  exists tr, trace c = tr ++ [AllDone] /\ (AllDone ∉ tr) /\
             forall i, Submit i ∈ tr -> exists r, End i r ∈ tr.
Proof.
  intros [Hctl Hdone Hend Hsub _] Hc. unfold ctl_ok, done_ok in *.
  rewrite Hc in Hctl, Hdone. destruct Hdone as (tr & Htr & Hnot).
  destruct Hctl as [Hall _].
  exists tr. split; [done|]. split; [done|]. intros i Hi.
  destruct (lookup_lt_is_Some_2 (tasks c) i) as [s Hs].
  { apply Hsub. rewrite Htr. by apply elem_of_snoc_l. }
  destruct (forallb_finished_lookup _ _ _ Hall Hs) as [r ->].
  exists r. destruct (Hend i r Hs) as [_ Hin]. rewrite Htr in Hin. older Hin.
Qed.

Lemma returned_ran_all (P : program) (c : config) :
  inv P c -> ctl c = Returned -> (0 < max_workers P)%Z ->
  forall i, i < size P ->
    End i (run P i) ∈ trace c /\
    (forall e, run P i = Raise e -> TaskError i e ∈ trace c).
Proof.
  intros [Hctl _ Hend _ Hrep] Hc Hmw i Hi. unfold ctl_ok, reported_ok in *.
  rewrite Hc in Hctl. destruct Hctl as [Hall [[Hlen _]|(_ & ? & _)]]; [|lia].
  split.
  - destruct (lookup_lt_is_Some_2 (tasks c) i) as [s Hs]; [lia|].
    destruct (forallb_finished_lookup _ _ _ Hall Hs) as [r ->].
    by destruct (Hend i r Hs) as [-> ?].
  - intros e He. specialize (Hrep i e Hi He). rewrite Hc in Hrep. by apply Hrep.
Qed.

Lemma not_returned_not_done (P : program) (c : config) :
  inv P c -> ctl c <> Returned -> AllDone ∉ trace c.
Proof.
  intros [_ Hdone _ _ _] Hc. unfold done_ok in Hdone. by destruct (ctl c).
Qed.

Lemma crashed_unguarded (P : program) (c : config) (e : exn) :
  inv P c -> ctl c = Crashed e -> guarded P = false /\ (max_workers P <= 0)%Z.
Proof.
  intros [Hctl _ _ _ _] Hc. unfold ctl_ok in Hctl. rewrite Hc in Hctl. tauto.
Qed.


(** The barrier holds of every program whose thread cannot crash. *)
Lemma join_barrier (P : program) (c : config) :
  guarded P = true \/ (0 < max_workers P)%Z ->
  rtc (step P) init c -> joined P c.
Proof.
  intros Hsafe Hrun. pose proof (inv_reachable P c Hrun) as Hinv.
  split; [|split].
  - by apply (returned_after_all P).
  - intros Hc. split; [by apply (not_returned_not_done P)|].
    apply progress; [done|]. unfold ended.
    destruct (ctl c) as [| | | | | |e] eqn:Hctl; try done.
    destruct (crashed_unguarded P c e Hinv Hctl) as [Hg Hmw].
    destruct Hsafe as [Hsafe|Hsafe]; [congruence|lia].
  - intros n Hn. pose proof (steps_bounded P n c Hn). lia.
Qed.

(** A complete run of a pool of one task and one worker. *)
Lemma one_task_run (P : program) :
  size P = 1 -> max_workers P = 1%Z -> guarded P = true ->
  exists c, rtc (step P) init c /\ ctl c = Returned.
Proof.
  intros Hsize Hmw Hg. eexists. split.
  - eapply rtc_l; [eapply step_entered; [reflexivity|lia]|].
    eapply rtc_l; [eapply (step_submit P _ 0); [reflexivity|rewrite Hsize; apply Nat.lt_0_1]|].
    eapply rtc_l; [eapply step_submitted; by rewrite Hsize|]. rewrite Hsize.
    eapply rtc_l; [eapply (step_start P _ 0); [reflexivity|by rewrite Hmw]|].
    eapply rtc_l; [eapply (step_finish P _ 0); reflexivity|].
    eapply rtc_l; [eapply (step_yield P _ [] 0 []); reflexivity|].
    eapply rtc_l; [eapply step_exhausted; reflexivity|].
    eapply rtc_l; [eapply step_leave; reflexivity|].
    eapply rtc_l; [eapply step_close; reflexivity|].
    apply rtc_refl.
  - reflexivity.
Qed.

End PoolFacts.

(** ** report_generator.py: the single-flight guard *)

Module ReportFacts.
Import Py ReportGenerator.
Local Open Scope nat_scope.

Lemma in_flight_insert (cs : list (call * list output)) (j : nat)
    (x y : call * list output) :
  cs !! j = Some x ->
  in_flight (<[j := y]> cs) + Nat.b2n (active x.1)
  = in_flight cs + Nat.b2n (active y.1).
Proof.
  unfold in_flight. revert j. induction cs as [|c cs IH]; intros [|j] Hj; try done.
  - injection Hj as ->. change (<[0:=y]> (x :: cs)) with (y :: cs).
    rewrite !filter_cons.
    destruct (decide (active y.1 = true)) as [->|Hy%not_true_is_false];
      destruct (decide (active x.1 = true)) as [->|Hx%not_true_is_false];
      rewrite ?Hx, ?Hy; cbn; lia.
  - change (<[S j:=y]> (c :: cs)) with (c :: <[j:=y]> cs).
    rewrite !filter_cons. specialize (IH j Hj).
    destruct (decide (active c.1 = true)); cbn [length]; lia.
Qed.

Lemma in_flight_start (invocations : list args) :
  in_flight (calls (start invocations)) = 0.
Proof.
  unfold in_flight, start. cbn [calls]. induction invocations as [|a l IH]; [done|].
  rewrite fmap_cons, filter_cons_False; [exact IH|]. cbn. discriminate.
Qed.

(** The flag is set exactly while one invocation holds it. *)
Lemma flag_step (E : env) (j : nat) (s s' : process) :
  in_flight (calls s) = Nat.b2n (_running s) -> step E j s s' ->
  in_flight (calls s') = Nat.b2n (_running s').
Proof.
  intros Hinv Hstep.
  destruct Hstep as [s a out Hj Hrun|s a out Hj Hrun|s a out Hj|s P c c' out Hj Hstep
                    |s P c out Hj Hend|s r out Hj]; cbn [_running calls].
  - pose proof (in_flight_insert _ _ _ (Returned (Ok tt), out ++ [AlreadyRunning]) Hj) as H.
    cbn in H. lia.
  - pose proof (in_flight_insert _ _ _ (Entered a, out) Hj) as H.
    rewrite Hrun in Hinv. cbn in *. lia.
  - match goal with |- context [<[j := ?y]> _] =>
      pose proof (in_flight_insert _ _ _ y Hj) as H end.
    destruct (prepare E a); cbn in *; lia.
  - pose proof (in_flight_insert _ _ _ (Working P c', out) Hj) as H. cbn in H. lia.
  - pose proof (in_flight_insert _ _ _ (Exiting (Ok tt), out) Hj) as H. cbn in H. lia.
  - pose proof (in_flight_insert _ _ _ (Returned r, out) Hj) as H. cbn in H.
    destruct (_running s); cbn in *; lia.
Qed.

Lemma flag_reachable (E : env) (invocations : list args) (s : process) :
  steps E (start invocations) s -> in_flight (calls s) = Nat.b2n (_running s).
Proof.
  intros Hrun.
  apply (rtc_ind_r (R := fun s s' => exists j, step E j s s')
           (fun s => in_flight (calls s) = Nat.b2n (_running s)) (start invocations));
    [apply in_flight_start| |exact Hrun].
  intros s1 s2 _ [j Hstep] IH. by apply (flag_step E j s1).
Qed.

(** The pool of an invocation at work is one that [run_executor] can reach. *)
Definition pools_ok (E : env) (s : process) : Prop :=
  forall j P c out, calls s !! j = Some (Working P c, out) ->
    Pool.guarded P = true /\ rtc (Pool.step P) Pool.init c.

Lemma pools_step (E : env) (j : nat) (s s' : process) :
  pools_ok E s -> step E j s s' -> pools_ok E s'.
Proof.
  intros Hinv Hstep i P' c0 out' Hi.
  destruct Hstep as [s a out Hj Hrun|s a out Hj Hrun|s a out Hj|s P c c' out Hj Hstep
                    |s P c out Hj Hend|s r out Hj]; cbn [calls] in Hi;
    apply list_lookup_insert_Some in Hi as [(<- & Heq & _)|[_ Hi]];
    try (by apply (Hinv i P' c0 out')); try done.
  - destruct (prepare E a); try done. injection Heq as <- <- <-. by split.
  - injection Heq as <- <- <-. destruct (Hinv j P c out Hj) as [Hg Hreach].
    split; [done|]. by eapply rtc_r.
Qed.

Lemma pools_reachable (E : env) (invocations : list args) (s : process) :
  steps E (start invocations) s -> pools_ok E s.
Proof.
  intros Hrun.
  apply (rtc_ind_r (R := fun s s' => exists j, step E j s s')
           (pools_ok E) (start invocations)); [| |exact Hrun].
  - intros j P c out Hj. unfold start in Hj. cbn in Hj.
    apply list_lookup_fmap_Some in Hj as (a & ? & ?). simplify_eq.
  - intros s1 s2 _ [j Hstep] IH. by apply (pools_step E j s1).
Qed.


(** An invocation in flight is never stuck. *)
Lemma in_flight_can_step (E : env) (s : process) (j : nat) (c : call)
    (out : list output) :
  pools_ok E s -> calls s !! j = Some (c, out) -> active c = true ->
  exists s', step E j s s'.
Proof.
  intros Hpools Hj Hact. destruct c as [a|a|P c|r|r]; try done.
  - eexists. by eapply step_prepare.
  - destruct (Pool.ended c) eqn:Hend.
    + eexists. by eapply step_join.
    + destruct (Hpools j P c out Hj) as [_ Hreach].
      destruct (PoolFacts.progress P c (PoolFacts.inv_reachable P c Hreach) Hend)
        as [c' Hstep].
      eexists. by eapply step_work.
  - eexists. by eapply step_release.
Qed.

(** C1. Over every interleaving of any number of invocations: the flag is
    set exactly while one invocation is between its guard and its [finally],
    and never two; an invocation that comes to the guard while the flag is
    set returns at once, having printed its notice and nothing else, with
    the flag and the other invocations untouched and no thread started; the
    invocation in flight can always go on, and whichever way it comes to
    return, by an early [return], an exception or the end of its thread, the
    step that does so clears the flag; with the flag clear the next
    invocation takes it. *)
Theorem generate_all_reports_single_flight (E : env) (invocations : list args)
    (s : process) :
  steps E (start invocations) s ->
  in_flight (calls s) = (if _running s then 1 else 0) /\
  (forall j a out s',
     calls s !! j = Some (Called a, out) -> _running s = true -> step E j s s' ->
     s' = {| _running := true;
             calls := <[j := (Returned (Ok tt), out ++ [AlreadyRunning])]> (calls s) |}) /\
  (forall j c out, calls s !! j = Some (c, out) -> active c = true ->
     exists s', step E j s s') /\
  (forall j c out s' r out',
     calls s !! j = Some (c, out) -> active c = true -> step E j s s' ->
     calls s' !! j = Some (Returned r, out') -> _running s' = false) /\
  (forall j a out,
     calls s !! j = Some (Called a, out) -> _running s = false ->
     exists s', step E j s s' /\ _running s' = true /\
                calls s' !! j = Some (Entered a, out)).
Proof.
  intros Hrun. pose proof (flag_reachable E _ _ Hrun) as Hflag.
  pose proof (pools_reachable E _ _ Hrun) as Hpools.
  split; [by destruct (_running s)|]. split; [|split; [|split]].
  - intros j a out s' Hj Hset Hstep.
    destruct Hstep as [s a' out' Hj' Hrun'|s a' out' Hj' Hrun'|s a' out' Hj'
                      |s P c c' out' Hj' Hstep|s P c out' Hj' Hend|s r out' Hj'];
      rewrite Hj in Hj'; simplify_eq; first [by rewrite Hset|congruence].
  - intros j c out. by apply in_flight_can_step.
  - intros j c out s' r out' Hj Hact Hstep Hret.
    destruct Hstep as [s a' out0 Hj' Hrun'|s a' out0 Hj' Hrun'|s a' out0 Hj'
                      |s P c0 c' out0 Hj' Hstep|s P c0 out0 Hj' Hend|s r0 out0 Hj'];
      rewrite Hj in Hj'; simplify_eq; cbn [calls _running] in *;
      try done;
      rewrite list_lookup_insert_eq in Hret by (by eapply lookup_lt_Some);
      try done.
    destruct (prepare E a'); done.
  - intros j a out Hj Hclear. eexists. split; [by eapply step_acquire|].
    cbn. split; [done|]. apply list_lookup_insert_eq. by eapply lookup_lt_Some.
Qed.

(** Two invocations, the download folder missing: the first takes the flag. *)
Lemma generate_all_reports_single_flight_witness :
  let s1 := {| _running := true;
               calls := [(Entered default_args, []); (Called default_args, [])] |} in
  steps E_no_root (start [default_args; default_args]) s1 /\
  in_flight (calls s1) = 1.
Proof.
  cbv zeta.
  assert (Hrun : steps E_no_root (start [default_args; default_args])
                   {| _running := true;
                      calls := [(Entered default_args, []); (Called default_args, [])] |}).
  { eapply rtc_l; [|apply rtc_refl]. exists 0.
    by apply (step_acquire E_no_root 0 (start [default_args; default_args])
                default_args []). }
  split; [exact Hrun|].
  apply (proj1 (generate_all_reports_single_flight E_no_root _ _ Hrun)).
Defined.

(** *** Early returns *)

Lemma prepare_no_root (E : env) (a : args) :
  os_path_isdir E (root_of a) = false ->
  prepare E a = Abort [DownloadFolderNotFound (root_of a)].
Proof. intros H. unfold prepare. by rewrite H. Qed.

Lemma prepare_no_folders (E : env) (a : args) :
  os_path_isdir E (root_of a) = true ->
  (forall d, d ∈ os_listdir E (root_of a) ->
             os_path_isdir E (os_path_join (root_of a) d) = false) ->
  prepare E a = Abort [NoVehicleFolders].
Proof.
  intros Hroot Hnone. unfold prepare. rewrite Hroot. cbn [negb].
  rewrite EmailFacts.filter_none; [done|].
  intros d Hd. rewrite (Hnone d Hd). discriminate.
Qed.

(** An invocation alone, whose preparation ends in an early [return]: these
    are all the states it goes through. No thread is started. *)
Lemma abort_run (E : env) (a : args) (o : list output) (s : process) :
  prepare E a = Abort o -> steps E (start [a]) s ->
  s = start [a] \/
  s = {| _running := true; calls := [(Entered a, [])] |} \/
  s = {| _running := true; calls := [(Exiting (Ok tt), o)] |} \/
  s = {| _running := false; calls := [(Returned (Ok tt), o)] |}.
Proof.
  intros Hprep Hrun.
  apply (rtc_ind_r (R := fun s s' => exists j, step E j s s')
           (fun s => s = start [a] \/
              s = {| _running := true; calls := [(Entered a, [])] |} \/
              s = {| _running := true; calls := [(Exiting (Ok tt), o)] |} \/
              s = {| _running := false; calls := [(Returned (Ok tt), o)] |})
           (start [a])); [by left| |exact Hrun].
  clear s Hrun. intros s s' _ [j Hstep] IH.
  destruct Hstep as [s a' out0 Hj Hrun'|s a' out0 Hj Hrun'|s a' out0 Hj
                    |s P c0 c' out0 Hj Hstep|s P c0 out0 Hj Hend|s r0 out0 Hj];
    destruct IH as [->|[->|[->| ->]]]; cbn in Hj;
    apply list_lookup_singleton_Some in Hj as [-> Heq]; simplify_eq; cbn; auto.
  rewrite Hprep. auto.
Qed.

End ReportFacts.

(** ** The batch drivers *)

Module BatchFacts.
Import Py.
Local Open Scope nat_scope.

(** C5. In [fetch_reports_for_all_vehicles], with a list and a mailbox,
    [process_vehicle] is entered for every vehicle of the list, in order,
    whichever of them raise; what one raises is logged and the pass ends
    normally. In [run_executor] of [generate_all_reports], once the thread has
    returned, the task of every folder has run to its end with its own
    result, and the exception of each task that raised has been printed by the
    handler around [fut.result()]. *)
Theorem one_failure_leaves_the_rest :
  (forall (E : EmailReader.env) (lines : list string) (w : EmailReader.world),
     EmailReader.vehicle_file E = Some lines ->
     EmailReader.read_vehicle_ids lines <> [] ->
     EmailReader.imap_login E = Ok tt ->
     exists w' tr,
       EmailReader.fetch_reports_for_all_vehicles E w = (Ok tt, w') /\
       EmailReader.journal w' = EmailReader.journal w ++ tr /\
       EmailReader.entered tr = EmailReader.read_vehicle_ids lines /\
       forall v e w1 w2,
         v ∈ EmailReader.read_vehicle_ids lines ->
         EmailReader.process_vehicle E v w1 = (Raise e, w2) ->
         EmailReader.Log EmailReader.ERROR (EmailReader.ErrorProcessing v e) ∈ tr) /\
  (forall (R : ReportGenerator.env) (vehicle_folders : list string) (max_workers : Z)
          (c : Pool.config),
     (0 < max_workers)%Z ->
     rtc (Pool.step (ReportGenerator.run_executor R vehicle_folders max_workers))
         Pool.init c ->
     Pool.ctl c = Pool.Returned ->
     forall i folder, vehicle_folders !! i = Some folder ->
       Pool.End i (ReportGenerator.task R folder) ∈ Pool.trace c /\
       forall e, ReportGenerator.task R folder = Raise e ->
                 Pool.TaskError i e ∈ Pool.trace c).
Proof.
  split.
  - intros E lines w Hfile Hids Hlogin.
    destruct (EmailFacts.fetch_reports_run E lines w Hfile Hids Hlogin)
      as (w' & tr & Hrun & Hj & Hent & Herr & _).
    exists w', tr. split; [done|]. split; [done|]. split; [done|].
    intros v e w1 w2 Hv Hraise. apply Herr; [done|].
    by apply (EmailFacts.process_vehicle_raises E v w1 w2).
  - intros R vehicle_folders max_workers c Hmw Hrun Hret i folder Hi.
    set (P := ReportGenerator.run_executor R vehicle_folders max_workers) in *.
    destruct (PoolFacts.returned_ran_all P c (PoolFacts.inv_reachable P c Hrun)
                Hret Hmw i) as [Hend Herr].
    { cbn. by eapply lookup_lt_Some. }
    cbn in Hend, Herr. rewrite Hi in Hend, Herr. by split.
Qed.

(** C6. In both drivers, at every configuration that the thread and its
    workers can reach, the join barrier holds: the final event occurs once,
    as the last event of a thread that has returned and after the end of every
    task submitted; before that it has not occurred and a step can be taken;
    and every run has at most [4 * n + 5] steps for [n] folders. *)
Theorem all_done_once_after_every_task :
  (forall (R : ReportGenerator.env) (vehicle_folders : list string) (max_workers : Z)
          (c : Pool.config),
     rtc (Pool.step (ReportGenerator.run_executor R vehicle_folders max_workers))
         Pool.init c ->
     PoolSpec.joined (ReportGenerator.run_executor R vehicle_folders max_workers) c) /\
  (forall (upload : string -> result unit) (vehicle_folders : list string)
          (c : Pool.config),
     rtc (Pool.step (Script4.run_executor upload vehicle_folders)) Pool.init c ->
     PoolSpec.joined (Script4.run_executor upload vehicle_folders) c).
Proof.
  split.
  - intros R vehicle_folders max_workers c. apply PoolFacts.join_barrier. by left.
  - intros upload vehicle_folders c. apply PoolFacts.join_barrier. by right.
Qed.

(** C9. Without [vehicle_list.txt], or with one that names no vehicle,
    [fetch_reports_for_all_vehicles] returns after one log record about it,
    with the disk as it was: no mailbox is opened and no vehicle entered.
    Without the download folder, or with one that holds no folder,
    [generate_all_reports] prints one message and gives the flag back: the
    invocation never has a thread or a pool. *)
Theorem missing_dependency_aborts_once :
  (forall (E : EmailReader.env) (w : EmailReader.world),
     match EmailReader.vehicle_file E with
     | None =>
         EmailReader.fetch_reports_for_all_vehicles E w
         = (Ok tt, {| EmailReader.disk := EmailReader.disk w;
                      EmailReader.journal :=
                        EmailReader.journal w ++
                        [EmailReader.Log EmailReader.INFO EmailReader.StartingPhase2;
                         EmailReader.Log EmailReader.ERROR EmailReader.VehicleFileNotFound] |})
     | Some lines =>
         EmailReader.read_vehicle_ids lines = [] ->
         EmailReader.fetch_reports_for_all_vehicles E w
         = (Ok tt, {| EmailReader.disk := EmailReader.disk w;
                      EmailReader.journal :=
                        EmailReader.journal w ++
                        [EmailReader.Log EmailReader.INFO EmailReader.StartingPhase2;
                         EmailReader.Log EmailReader.WARNING EmailReader.VehicleFileEmpty] |})
     end) /\
  (forall (R : ReportGenerator.env) (a : ReportGenerator.args) (s : ReportGenerator.process),
     ReportGenerator.os_path_isdir R (ReportGenerator.root_of a) = false \/
     (forall d, d ∈ ReportGenerator.os_listdir R (ReportGenerator.root_of a) ->
        ReportGenerator.os_path_isdir R
          (ReportGenerator.os_path_join (ReportGenerator.root_of a) d) = false) ->
     ReportGenerator.steps R (ReportGenerator.start [a]) s ->
     exists o,
       (o = ReportGenerator.DownloadFolderNotFound (ReportGenerator.root_of a) \/
        o = ReportGenerator.NoVehicleFolders) /\
       (s = ReportGenerator.start [a] \/
        s = {| ReportGenerator._running := true;
               ReportGenerator.calls := [(ReportGenerator.Entered a, [])] |} \/
        s = {| ReportGenerator._running := true;
               ReportGenerator.calls := [(ReportGenerator.Exiting (Ok tt), [o])] |} \/
        s = {| ReportGenerator._running := false;
               ReportGenerator.calls := [(ReportGenerator.Returned (Ok tt), [o])] |})).
Proof.
  split; [apply EmailFacts.fetch_reports_aborts|].
  intros R a s Hmissing Hrun.
  destruct (ReportGenerator.os_path_isdir R (ReportGenerator.root_of a)) eqn:Hroot.
  - destruct Hmissing as [?|Hnone]; [done|].
    exists ReportGenerator.NoVehicleFolders. split; [by right|].
    apply (ReportFacts.abort_run R a); [|done].
    by apply ReportFacts.prepare_no_folders.
  - eexists. split; [by left|].
    apply (ReportFacts.abort_run R a); [|done].
    by apply ReportFacts.prepare_no_root.
Qed.


(** *** On the samples *)

Lemma one_failure_leaves_the_rest_witness :
  (exists w' tr,
     EmailReader.fetch_reports_for_all_vehicles EmailDemo.E EmailDemo.w0 = (Ok tt, w') /\
     EmailReader.journal w' = EmailReader.journal EmailDemo.w0 ++ tr /\
     EmailReader.entered tr = ["V1"; "V2"; "V3"; "V4"]) /\
  (exists c,
     rtc (Pool.step (ReportGenerator.run_executor ReportGenerator.E_two ["download/V1"] 1))
         Pool.init c /\
     Pool.TaskError 0 (Exception "PermissionError") ∈ Pool.trace c).
Proof.
  split.
  - destruct (proj1 one_failure_leaves_the_rest EmailDemo.E
                ["V1,truck"; ""; " V2 "; "V3,van"; "V4"] EmailDemo.w0)
      as (w' & tr & Hrun & Hj & Hent & _).
    + reflexivity.
    + vm_compute. discriminate.
    + reflexivity.
    + exists w', tr. split; [exact Hrun|]. split; [exact Hj|]. exact Hent.
  - destruct (PoolFacts.one_task_run
                (ReportGenerator.run_executor ReportGenerator.E_two ["download/V1"] 1))
      as (c & Hrun & Hret); try reflexivity.
    exists c. split; [exact Hrun|].
    apply (proj2 one_failure_leaves_the_rest ReportGenerator.E_two ["download/V1"] 1%Z c
             eq_refl Hrun Hret 0 "download/V1" eq_refl).
    reflexivity.
Defined.

Lemma all_done_once_after_every_task_witness :
  exists c,
    rtc (Pool.step (ReportGenerator.run_executor ReportGenerator.E_two ["download/V1"] 1))
        Pool.init c /\
    Pool.ctl c = Pool.Returned /\
    PoolSpec.joined (ReportGenerator.run_executor ReportGenerator.E_two ["download/V1"] 1) c.
Proof.
  destruct (PoolFacts.one_task_run
              (ReportGenerator.run_executor ReportGenerator.E_two ["download/V1"] 1))
    as (c & Hrun & Hret); try reflexivity.
  exists c. split; [exact Hrun|]. split; [exact Hret|].
  exact (proj1 all_done_once_after_every_task ReportGenerator.E_two ["download/V1"]
           1%Z c Hrun).
Defined.

Lemma missing_dependency_aborts_once_witness :
  EmailReader.journal
    (EmailReader.fetch_reports_for_all_vehicles EmailDemo.E_blank_list EmailDemo.w0).2
  = [EmailReader.Log EmailReader.INFO EmailReader.StartingPhase2;
     EmailReader.Log EmailReader.WARNING EmailReader.VehicleFileEmpty] /\
  exists o,
    (o = ReportGenerator.DownloadFolderNotFound "download" \/
     o = ReportGenerator.NoVehicleFolders) /\
    ReportGenerator.steps ReportGenerator.E_no_root
      (ReportGenerator.start [ReportGenerator.default_args])
      {| ReportGenerator._running := false;
         ReportGenerator.calls := [(ReportGenerator.Returned (Ok tt), [o])] |}.
Proof.
  split.
  - rewrite (proj1 missing_dependency_aborts_once EmailDemo.E_blank_list EmailDemo.w0);
      reflexivity.
  - exists (ReportGenerator.DownloadFolderNotFound "download"). split; [by left|].
    assert (Hrun : ReportGenerator.steps ReportGenerator.E_no_root
                     (ReportGenerator.start [ReportGenerator.default_args])
                     {| ReportGenerator._running := false;
                        ReportGenerator.calls :=
                          [(ReportGenerator.Returned (Ok tt),
                            [ReportGenerator.DownloadFolderNotFound "download"])] |}).
    { apply (rtc_l _ _ {| ReportGenerator._running := true;
                          ReportGenerator.calls :=
                            [(ReportGenerator.Entered ReportGenerator.default_args, [])] |}).
      { exists 0. exact (ReportGenerator.step_acquire ReportGenerator.E_no_root 0
                           (ReportGenerator.start [ReportGenerator.default_args])
                           ReportGenerator.default_args [] eq_refl eq_refl). }
      apply (rtc_l _ _ {| ReportGenerator._running := true;
                          ReportGenerator.calls :=
                            [(ReportGenerator.Exiting (Ok tt),
                              [ReportGenerator.DownloadFolderNotFound "download"])] |}).
      { exists 0. exact (ReportGenerator.step_prepare ReportGenerator.E_no_root 0
                           {| ReportGenerator._running := true;
                              ReportGenerator.calls :=
                                [(ReportGenerator.Entered ReportGenerator.default_args, [])] |}
                           ReportGenerator.default_args [] eq_refl). }
      apply rtc_once. exists 0.
      exact (ReportGenerator.step_release ReportGenerator.E_no_root 0
               {| ReportGenerator._running := true;
                  ReportGenerator.calls :=
                    [(ReportGenerator.Exiting (Ok tt),
                      [ReportGenerator.DownloadFolderNotFound "download"])] |}
               (Ok tt) [ReportGenerator.DownloadFolderNotFound "download"] eq_refl). }
    destruct (proj2 missing_dependency_aborts_once ReportGenerator.E_no_root
                ReportGenerator.default_args _ (or_introl eq_refl) Hrun) as (o & _ & _).
    exact Hrun.
Defined.

End BatchFacts.

(** ** Launcher.py *)

Module LauncherFacts.
Import Py Launcher.

(** The rotation on three folders and a file, from no state file on. *)
Example rotation_sample :
  let w := {| stickers := Dir [("cats", true); ("readme.txt", false);
                               ("birds", true); ("dogs", true)];
              state := Absent; state_writable := true; stdout := [] |} in
  let next w := (get_sticker_folder w).2 in
  (get_sticker_folder w).1 = Ok (Some "sticker/birds") /\
  (get_sticker_folder (next w)).1 = Ok (Some "sticker/cats") /\
  (get_sticker_folder (next (next w))).1 = Ok (Some "sticker/dogs") /\
  (get_sticker_folder (next (next (next w)))).1 = Ok (Some "sticker/birds") /\
  state (next w) = Content "birds".
Proof. vm_compute. repeat split. Qed.

Lemma padded_run (out : list output) :
  get_sticker_folder (padded out)
  = (Ok (Some "sticker/ a"), padded (out ++ [UsingFolder "sticker/ a"])).
Proof. reflexivity. Qed.

(** C10 fails on the code. The folders are [" a"] and ["b"], in sorted
    order, and the state file holds [" a"], the name of the folder at index
    0, as the function wrote it: the call returns the folder at index 0 again,
    not the one at index 1, and leaves the state file as it was. *)
Theorem get_sticker_folder_stuck_on_padded_name (out : list output) :
  sorted (os_path_join STICKERS_DIR <$> [" a"; "b"]) = ["sticker/ a"; "sticker/b"] /\
  get_sticker_folder (padded out)
  = (Ok (Some "sticker/ a"), padded (out ++ [UsingFolder "sticker/ a"])).
Proof. split; [reflexivity|apply padded_run]. Qed.

(** So the rotation never comes to ["sticker/b"], however often it is run. *)
Lemma get_sticker_folder_never_rotates (n : nat) (out : list output) :
  exists out',
    Nat.iter n (fun w => (get_sticker_folder w).2) (padded out) = padded out'.
Proof.
  induction n as [|n [out' IH]]; [by exists out|].
  rewrite Nat.iter_succ, IH.
  rewrite padded_run. by eexists.
Qed.

End LauncherFacts.

(** ** Python strings: append, reverse, strip, split *)

Module StrFacts.
Import StrSpec.

Lemma app_cons (a : ascii) (s t : string) : String a s +:+ t = String a (s +:+ t).
Proof. reflexivity. Qed.

Lemma app_empty_r (s : string) : s +:+ "" = s.
Proof. induction s as [|a s IH]; [done|]. by rewrite app_cons, IH. Qed.

Lemma app_assoc_s (s t u : string) : (s +:+ t) +:+ u = s +:+ (t +:+ u).
Proof. induction s as [|a s IH]; [done|]. by rewrite !app_cons, IH. Qed.

Lemma rev_app_spec (s t : string) : String.rev_app s t = String.rev s +:+ t.
Proof.
  revert t. induction s as [|a s IH]; intros t; [done|].
  unfold String.rev. cbn [String.rev_app]. rewrite (IH (String a t)), (IH (String a "")).
  by rewrite app_assoc_s.
Qed.

Lemma rev_cons (a : ascii) (s : string) :
  String.rev (String a s) = String.rev s +:+ String a "".
Proof. unfold String.rev at 1. cbn [String.rev_app]. apply rev_app_spec. Qed.

Lemma rev_snoc (a : ascii) (s : string) :
  String.rev (s +:+ String a "") = String a (String.rev s).
Proof.
  induction s as [|b s IH]; [done|].
  by rewrite app_cons, !rev_cons, IH, app_cons.
Qed.

Lemma rev_rev (s : string) : String.rev (String.rev s) = s.
Proof. induction s as [|a s IH]; [done|]. by rewrite rev_cons, rev_snoc, IH. Qed.

Lemma allspace_app (s t : string) : allspace (s +:+ t) = allspace s && allspace t.
Proof.
  induction s as [|a s IH]; [done|]. rewrite app_cons. cbn. by rewrite IH, andb_assoc.
Qed.

Lemma allspace_rev (s : string) : allspace (String.rev s) = allspace s.
Proof.
  induction s as [|a s IH]; [done|]. rewrite rev_cons, allspace_app, IH. cbn.
  by rewrite andb_true_r, andb_comm.
Qed.

Lemma lstrip_allspace (s : string) : allspace s = true -> Str.lstrip s = "".
Proof.
  induction s as [|a s IH]; [done|]. cbn. intros [-> Hs]%andb_true_iff. by apply IH.
Qed.

Lemma lstrip_app (s t : string) :
  Str.lstrip (s +:+ t) = if allspace s then Str.lstrip t else Str.lstrip s +:+ t.
Proof.
  induction s as [|a s IH]; [done|]. rewrite app_cons. cbn.
  destruct (Str.isspace a); [exact IH|done].
Qed.

Lemma lstrip_idem (s : string) : Str.lstrip (Str.lstrip s) = Str.lstrip s.
Proof.
  induction s as [|a s IH]; [done|]. cbn.
  destruct (Str.isspace a) eqn:Ha; [exact IH|]. cbn. by rewrite Ha.
Qed.

Lemma lstrip_length (s : string) :
  (String.length (Str.lstrip s) <= String.length s)%nat.
Proof.
  induction s as [|a s IH]; [done|]. cbn. destruct (Str.isspace a); cbn; lia.
Qed.

Lemma lstrip_head (s : string) :
  Str.lstrip s = s -> s = "" \/ exists a r, s = String a r /\ Str.isspace a = false.
Proof.
  destruct s as [|a r]; [by left|]. intros H. right. exists a, r. split; [done|].
  destruct (Str.isspace a) eqn:Ha; [|done]. cbn in H. rewrite Ha in H.
  pose proof (lstrip_length r) as Hlen. rewrite H in Hlen. cbn in Hlen. lia.
Qed.

Lemma strip_rstrip (s : string) : Str.strip s = rstrip (Str.lstrip s).
Proof. reflexivity. Qed.

(** [rstrip], from the left. *)
Lemma rstrip_cons (a : ascii) (r : string) :
  rstrip (String a r) = if allspace (String a r) then "" else String a (rstrip r).
Proof.
  unfold rstrip. rewrite rev_cons, lstrip_app, allspace_rev. cbn [allspace].
  destruct (allspace r) eqn:Hr.
  - rewrite andb_true_r. cbn. destruct (Str.isspace a); [done|].
    rewrite lstrip_allspace by by rewrite allspace_rev. done.
  - rewrite andb_false_r. by rewrite rev_snoc.
Qed.

Lemma rstrip_idem (s : string) : rstrip (rstrip s) = rstrip s.
Proof. unfold rstrip. by rewrite rev_rev, lstrip_idem. Qed.

Lemma lstrip_rstrip (s : string) :
  Str.lstrip s = s -> Str.lstrip (rstrip s) = rstrip s.
Proof.
  intros [->|(a & r & -> & Ha)]%lstrip_head; [done|].
  rewrite rstrip_cons. cbn [allspace]. rewrite Ha. cbn. by rewrite Ha.
Qed.

(** [strip] leaves nothing for a second [strip]. *)
Lemma strip_idem (s : string) : Str.strip (Str.strip s) = Str.strip s.
Proof.
  rewrite !strip_rstrip, lstrip_rstrip by apply lstrip_idem. apply rstrip_idem.
Qed.

Lemma strip_space_cons (a : ascii) (s : string) :
  Str.isspace a = true -> Str.strip (String a s) = Str.strip s.
Proof. intros Ha. rewrite !strip_rstrip. cbn. by rewrite Ha. Qed.

Lemma has_allspace (c : ascii) (s : string) :
  Str.isspace c = false -> Str.has c s = true -> allspace s = false.
Proof.
  intros Hc. induction s as [|a s IH]; [done|]. cbn.
  destruct (Ascii.eqb_spec a c) as [->|Hne]; cbn.
  - by rewrite Hc.
  - intros Hs. by rewrite (IH Hs), andb_false_r.
Qed.

Lemma split_first_none (c : ascii) (s : string) :
  Str.has c s = false -> Str.split_first c s = s.
Proof.
  induction s as [|a s IH]; [done|]. cbn. intros [-> Hs]%orb_false_elim.
  by rewrite (IH Hs).
Qed.

(** The text before a separator that is no white space is not changed by
    what [rstrip] drops. *)
Lemma split_first_rstrip (c : ascii) (s : string) :
  Str.isspace c = false -> Str.has c s = true ->
  Str.split_first c (rstrip s) = Str.split_first c s.
Proof.
  intros Hc. induction s as [|a s IH]; [done|]. intros Hs.
  rewrite rstrip_cons, (has_allspace c _ Hc Hs). cbn in *.
  destruct (Ascii.eqb a c); [done|]. cbn in Hs. by rewrite (IH Hs).
Qed.

Lemma strip_split_first_lstrip (c : ascii) (s : string) :
  Str.isspace c = false ->
  Str.strip (Str.split_first c (Str.lstrip s)) = Str.strip (Str.split_first c s).
Proof.
  intros Hc. induction s as [|a s IH]; [done|]. cbn [Str.lstrip].
  destruct (Str.isspace a) eqn:Ha; [|done]. cbn [Str.split_first].
  destruct (Ascii.eqb_spec a c) as [->|Hne]; [congruence|].
  by rewrite strip_space_cons.
Qed.

Lemma has_rstrip (c : ascii) (s : string) :
  Str.isspace c = false -> Str.has c (rstrip s) = Str.has c s.
Proof.
  intros Hc. induction s as [|a s IH]; [done|]. rewrite rstrip_cons.
  destruct (allspace (String a s)) eqn:Hall.
  - cbn. destruct (Str.has c (String a s)) eqn:Hs; [|by cbn in Hs].
    by rewrite (has_allspace c _ Hc Hs) in Hall.
  - cbn. by rewrite IH.
Qed.

(** Stripping before or after taking the text in front of the first
    separator makes no difference to the stripped result. *)
Lemma strip_split_first_strip (c : ascii) (s : string) :
  Str.isspace c = false ->
  Str.strip (Str.split_first c (Str.strip s)) = Str.strip (Str.split_first c s).
Proof.
  intros Hc. rewrite <- (strip_split_first_lstrip c s Hc), (strip_rstrip s).
  set (t := Str.lstrip s). assert (Ht : Str.lstrip t = t) by apply lstrip_idem.
  destruct (Str.has c t) eqn:Hhas.
  - by rewrite split_first_rstrip.
  - rewrite !split_first_none by by rewrite ?has_rstrip.
    rewrite strip_rstrip, lstrip_rstrip, rstrip_idem by done.
    by rewrite strip_rstrip, Ht.
Qed.

Lemma length_app_s (s t : string) :
  String.length (s +:+ t) = (String.length s + String.length t)%nat.
Proof. induction s as [|a s IH]; [done|]. rewrite app_cons. cbn. by rewrite IH. Qed.

Lemma lower_app (s t : string) : Str.lower (s +:+ t) = Str.lower s +:+ Str.lower t.
Proof. induction s as [|a s IH]; [done|]. rewrite app_cons. cbn. by rewrite IH. Qed.

Lemma substring_all (s : string) : String.substring 0 (String.length s) s = s.
Proof. induction s as [|a s IH]; [done|]. cbn. by rewrite IH. Qed.

Lemma substring_skip (s t : string) (n : nat) :
  String.substring (String.length s) n (s +:+ t) = String.substring 0 n t.
Proof. induction s as [|a s IH]; [done|]. rewrite app_cons. cbn. exact IH. Qed.

(** [(s + suf).endswith(suf)] *)
Lemma endswith_app (s suf : string) : Str.endswith (s +:+ suf) suf = true.
Proof.
  unfold Str.endswith. rewrite length_app_s.
  replace (String.length s + String.length suf - String.length suf)%nat
    with (String.length s) by lia.
  rewrite substring_skip, substring_all, String.eqb_refl, andb_true_r.
  apply Nat.leb_le. lia.
Qed.

Lemma split_last_go_none (c : ascii) (cur s : string) :
  Str.has c s = false -> Str.split_last_go c cur s = String.rev cur +:+ s.
Proof.
  revert cur. induction s as [|a s IH]; intros cur Hs; cbn.
  - by rewrite app_empty_r.
  - cbn in Hs. apply orb_false_elim in Hs as [Ha Hs]. rewrite Ha, (IH _ Hs).
    by rewrite rev_cons, app_assoc_s.
Qed.



End StrFacts.

(** ** More of email_reader_attachment_download.py *)

Module EmailMore.
Import Py EmailReader EmailSpec EmailFacts.

(** *** Characters of strings *)

Lemma has_app (c : ascii) (s t : string) :
  Str.has c (s +:+ t) = Str.has c s || Str.has c t.
Proof.
  induction s as [|a s IH]; [done|].
  change (String a s +:+ t) with (String a (s +:+ t)). cbn. rewrite IH.
  by rewrite orb_assoc.
Qed.

Lemma has_rev_app (c : ascii) (s t : string) :
  Str.has c (String.rev_app s t) = Str.has c s || Str.has c t.
Proof.
  revert t. induction s as [|a s IH]; intros t; [done|].
  cbn. rewrite IH. cbn. destruct (Ascii.eqb a c), (Str.has c s); done.
Qed.

Lemma has_rev (c : ascii) (s : string) : Str.has c (String.rev s) = Str.has c s.
Proof. unfold String.rev. rewrite has_rev_app. cbn. by rewrite orb_false_r. Qed.

Lemma has_split_last_go (c : ascii) (cur s : string) :
  Str.has c cur = false -> Str.has c (Str.split_last_go c cur s) = false.
Proof.
  revert cur. induction s as [|a s IH]; intros cur Hcur; cbn.
  - by rewrite has_rev.
  - destruct (Ascii.eqb a c) eqn:Ha; apply IH; [done|]. cbn. by rewrite Ha.
Qed.

Lemma has_split_first_sep (c : ascii) (s : string) :
  Str.has c (Str.split_first c s) = false.
Proof.
  induction s as [|a s IH]; [done|]. cbn.
  destruct (Ascii.eqb a c) eqn:Ha; [done|]. cbn. by rewrite Ha.
Qed.

Lemma has_split_first (c sep : ascii) (s : string) :
  Str.has c s = false -> Str.has c (Str.split_first sep s) = false.
Proof.
  induction s as [|a s IH]; [done|]. cbn. intros [Ha Hs]%orb_false_elim.
  destruct (Ascii.eqb a sep); [done|]. cbn. rewrite Ha. by apply IH.
Qed.

Lemma has_replace (a b : ascii) (s : string) :
  a <> b -> Str.has a (Str.replace a b s) = false.
Proof.
  intros Hab. induction s as [|x s IH]; [done|]. cbn. rewrite IH, orb_false_r.
  destruct (Ascii.eqb x a) eqn:Hx; [by apply Ascii.eqb_neq|done].
Qed.

Lemma has_lstrip (c : ascii) (s : string) :
  Str.has c s = false -> Str.has c (Str.lstrip s) = false.
Proof.
  induction s as [|a s IH]; [done|]. cbn. intros H.
  destruct (Str.isspace a); [|done]. apply IH.
  by apply orb_false_elim in H as [_ ?].
Qed.

Lemma has_strip (c : ascii) (s : string) :
  Str.has c s = false -> Str.has c (Str.strip s) = false.
Proof.
  intros H. unfold Str.strip. rewrite has_rev. apply has_lstrip.
  rewrite has_rev. by apply has_lstrip.
Qed.

(** *** download_file *)

(** X1. The name a download is saved under has no ["/"] in it, whatever the url
    and the text of the date cell: the file is an entry of the folder given. *)
Theorem local_name_has_no_slash (url : string) (date_range : option string) :
  Str.has "/" (local_name url date_range) = false.
Proof.
  assert (Hbase : Str.has "/" (Str.split_first "?" (Str.split_last "/" url)) = false).
  { apply has_split_first. by apply has_split_last_go. }
  unfold local_name. destruct date_range as [[|c r]|]; try done.
  rewrite !has_app, Hbase, has_replace by done. done.
Qed.

(** X2. A download never raises. It calls [requests.get] once, writes nothing
    outside of the folder given and no other file of it than the one of the
    local name, and returns a path only when the whole body was written to
    that file. *)
Theorem download_file_never_raises (E : env) (url folder : string)
    (date_range : option string) (w : world) :
  exists res w',
    download_file E url folder date_range w = (Ok res, w') /\
    requested (journal w') = requested (journal w) ++ [url] /\
    (forall v, v <> folder -> disk w' !! v = disk w !! v) /\
    (forall n, n <> local_name url date_range ->
               folder_of w' folder !! n = folder_of w folder !! n) /\
    (forall p, res = Some p ->
       p = folder +:+ "/" +:+ local_name url date_range /\
       exists f, requests_get E url = Body f /\
                 folder_of w' folder !! local_name url date_range = Some f).
Proof.
  unfold download_file, write_file, folder_of. run.
  destruct (requests_get E url) as [e|f e|f]; cbn;
    destruct (disk w !! folder) as [files|] eqn:Hfolder; cbn;
    eexists _, _; (split; [reflexivity|]); cbn [disk journal];
    rewrite <- ?app_assoc, ?requested_app; cbn; rewrite ?app_nil_r;
    (split; [reflexivity|]); rewrite ?Hfolder, ?lookup_insert_eq; cbn;
    (split; [by intros; rewrite ?lookup_insert_ne|]);
    (split; [by intros; rewrite ?lookup_insert_ne|]);
    intros p Hp; try discriminate.
  injection Hp as <-. split; [done|]. exists f. by rewrite lookup_insert_eq.
Qed.

(** *** process_vehicle *)

(** X3. A run for one vehicle keeps what it found: the folders of the other
    vehicles are as before, and a file of its own folder that no candidate of
    the run is saved as is still there, with the same content. Nothing is
    deleted. *)
Theorem process_vehicle_deletes_nothing (E : env) (vehicle_id : string) (w : world) :
  exists r w',
    process_vehicle E vehicle_id w = (r, w') /\
    (forall v, v <> vehicle_id -> disk w' !! v = disk w !! v) /\
    (forall n f, folder_of w vehicle_id !! n = Some f ->
                 (forall l, l ∈ candidates E vehicle_id -> target l <> n) ->
                 folder_of w' vehicle_id !! n = Some f) /\
    (forall n, is_Some (folder_of w vehicle_id !! n) ->
               is_Some (folder_of w' vehicle_id !! n)).
Proof.
  destruct (process_vehicle_run E vehicle_id w) as (tr & _ & Hrun).
  unfold candidates. destruct (resolve E vehicle_id) as [[msg|]|e].
  - cbv zeta in Hrun. destruct Hrun as [Hrun _]. eexists _, _.
    split; [exact Hrun|]. rewrite folder_of_insert. cbn [disk]. split; [|split].
    + intros v Hv. by rewrite lookup_insert_ne.
    + intros n f Hn Hother. rewrite foldl_store_other; [done|].
      intros l Hl. apply Hother.
      unfold fresh in Hl. by apply list_elem_of_filter in Hl as [_ ?].
    + intros n. generalize (fresh E (folder_of w vehicle_id) (extract_all_links msg)).
      intros new. induction new as [|x xs IH] using rev_ind; [done|].
      intros Hn. rewrite foldl_app. cbn. unfold store at 1.
      destruct (stored _); [|by apply IH].
      destruct (decide (target x = n)) as [->|Hne].
      * rewrite lookup_insert_eq. by eexists.
      * rewrite lookup_insert_ne by done. by apply IH.
  - destruct Hrun as [Hrun _]. eexists _, _. split; [exact Hrun|]. done.
  - destruct Hrun as [Hrun _]. eexists _, _. split; [exact Hrun|]. done.
Qed.

(** *** parse_email_date *)

(** What [digits12] takes is a prefix, of one or two digits, and it takes
    the same again when a ["/"] follows. *)
Lemma digits12_split (s d r : string) :
  digits12 s = Some (d, r) ->
  s = d +:+ r /\ (1 <= String.length d <= 2)%nat /\
  forall t, digits12 (d +:+ String "/" t) = Some (d, String "/" t).
Proof.
  unfold digits12 at 1. destruct s as [|a [|b s]]; [done| |].
  - destruct (Str.is_digit a) eqn:Ha; [|done]. intros [= <- <-].
    split; [done|]. split; [cbn; lia|]. intros t.
    change (String a "" +:+ String "/" t) with (String a (String "/" t)).
    cbn. by rewrite Ha.
  - destruct (Str.is_digit a) eqn:Ha; [|done].
    destruct (Str.is_digit b) eqn:Hb; intros [= <- <-].
    + split; [done|]. split; [cbn; lia|]. intros t.
      change (String a (String b "") +:+ String "/" t)
        with (String a (String b (String "/" t))).
      cbn. by rewrite Ha, Hb.
    + split; [done|]. split; [cbn; lia|]. intros t.
      change (String a "" +:+ String "/" t) with (String a (String "/" t)).
      cbn. by rewrite Ha.
Qed.

Lemma match_dmy_prefix (s m : string) :
  match_dmy s = Some m ->
  (exists rest, s = m +:+ rest) /\ (8 <= String.length m <= 10)%nat /\
  match_dmy m = Some m.
Proof.
  unfold match_dmy at 1. destruct (digits12 s) as [[d r]|] eqn:Hd; [|done].
  destruct r as [|c r1]; [done|].
  destruct (Ascii.eqb_spec c "/") as [->|Hc].
  2:{ by destruct c as [[] [] [] [] [] [] [] []]. }
  destruct (digits12 r1) as [[mo r2]|] eqn:Hm; [|done].
  destruct r2 as [|c r2]; [done|].
  destruct (Ascii.eqb_spec c "/") as [->|Hc].
  2:{ by destruct c as [[] [] [] [] [] [] [] []]. }
  destruct r2 as [|y1 [|y2 [|y3 [|y4 rest]]]]; try done.
  destruct (Str.is_digit y1 && Str.is_digit y2 && Str.is_digit y3 && Str.is_digit y4)
    eqn:Hy; [|done].
  intros [= <-].
  apply digits12_split in Hd as (-> & Hld & Hd2).
  apply digits12_split in Hm as (-> & Hlm & Hm2).
  split; [|split].
  - exists rest. rewrite !StrFacts.app_assoc_s. done.
  - rewrite !StrFacts.length_app_s.
    change (String.length "/") with 1%nat.
    change (String.length (String y1 (String y2 (String y3 (String y4 ""))))) with 4%nat.
    lia.
  - unfold match_dmy.
    change (d +:+ "/" +:+ mo +:+ "/" +:+ String y1 (String y2 (String y3 (String y4 ""))))
      with (d +:+ String "/" (mo +:+ String "/"
              (String y1 (String y2 (String y3 (String y4 "")))))).
    rewrite Hd2, Hm2, Hy. done.
Qed.

(** X4. What the fallback of [parse_email_date] hands to [pd.to_datetime] is a
    piece of the cell text: 8 to 10 characters of it, in a row, of the shape
    [d/m/yyyy]. *)
Theorem re_search_dmy_finds_a_date_in_the_text (s m : string) :
  re_search_dmy s = Some m ->
  (exists before after, s = before +:+ m +:+ after) /\
  (8 <= String.length m <= 10)%nat /\
  match_dmy m = Some m.
Proof.
  induction s as [|a s IH]; cbn [re_search_dmy].
  - by destruct (match_dmy "") eqn:H0.
  - destruct (match_dmy (String a s)) as [m'|] eqn:Hm.
    + intros [= <-]. apply match_dmy_prefix in Hm as ([rest Hrest] & Hlen & Hfix).
      split; [|done]. by exists "", rest.
    + intros ([before [after Heq]] & Hlen & Hfix)%IH. split; [|done].
      exists (String a before), after. by rewrite Heq.
Qed.

(** *** fetch_reports_for_all_vehicles *)

(** X5. The ids read from the list have no white space around them and no comma
    in them, and there is one for each line that is not blank. *)
Theorem read_vehicle_ids_are_clean (lines : list string) :
  Forall (fun id => Str.strip id = id /\ Str.has "," id = false) (read_vehicle_ids lines) /\
  length (read_vehicle_ids lines) = length (filter (fun line => Str.strip line <> "") lines).
Proof.
  unfold read_vehicle_ids. split; [|by rewrite length_fmap].
  apply Forall_fmap, Forall_forall. intros line _. cbn. split.
  - apply StrFacts.strip_idem.
  - apply has_strip, has_split_first_sep.
Qed.

(** X6. When the mailbox cannot be opened the call logs it and raises what the
    connection raised: no vehicle is entered, nothing is written, and there
    is no logout. *)
Theorem connection_failure_is_raised (E : env) (lines : list string) (e : exn)
    (w : world) :
  vehicle_file E = Some lines -> read_vehicle_ids lines <> [] ->
  imap_login E = Raise e ->
  fetch_reports_for_all_vehicles E w
  = (Raise e, {| disk := disk w;
                 journal := journal w ++ [Log INFO StartingPhase2; Login;
                                          Log ERROR (FailedToConnect e)] |}).
Proof.
  intros Hfile Hids Hlogin. unfold fetch_reports_for_all_vehicles, connect_to_mailbox.
  rewrite Hfile, Hlogin. destruct (read_vehicle_ids lines) as [|v vs]; [done|].
  run. by rewrite <- !app_assoc.
Qed.

(** **** The session with the mailbox *)

Lemma tame_ret {A} (a : A) : tame (ret a).
Proof. intros w. exists []. by rewrite app_nil_r. Qed.

Lemma tame_raise {A} (e : exn) : tame (raise (A := A) e).
Proof. intros w. exists []. by rewrite app_nil_r. Qed.

Lemma tame_lift {A} (r : result A) : tame (lift r).
Proof. intros w. exists []. by rewrite app_nil_r. Qed.

Lemma tame_log (lv : level) (m : msg) : tame (log lv m).
Proof. intros w. by exists [Log lv m]. Qed.

Lemma tame_get (url : string) : tame (emit (Get url)).
Proof. intros w. by exists [Get url]. Qed.

Lemma forallb_plain_app (a b : list event) :
  forallb plain a = true -> forallb plain b = true -> forallb plain (a ++ b) = true.
Proof. intros Ha Hb. by rewrite forallb_app, Ha, Hb. Qed.

Lemma tame_bind {A B} (m : M world A) (k : A -> M world B) :
  tame m -> (forall a, tame (k a)) -> tame (bind m k).
Proof.
  intros Hm Hk w. unfold bind. destruct (Hm w) as (tr1 & Hj1 & Htr1).
  destruct (m w) as [[a|e] w1]; cbn [snd] in *.
  - destruct (Hk a w1) as (tr2 & Hj2 & Htr2). exists (tr1 ++ tr2).
    split; [by rewrite Hj2, Hj1, app_assoc|by apply forallb_plain_app].
  - by exists tr1.
Qed.

Lemma tame_try_except {A} (m : M world A) (h : exn -> M world A) :
  tame m -> (forall e, tame (h e)) -> tame (try_except m h).
Proof.
  intros Hm Hh w. unfold try_except. destruct (Hm w) as (tr1 & Hj1 & Htr1).
  destruct (m w) as [[a|e] w1]; cbn [snd] in *.
  - by exists tr1.
  - destruct (Hh e w1) as (tr2 & Hj2 & Htr2). exists (tr1 ++ tr2).
    split; [by rewrite Hj2, Hj1, app_assoc|by apply forallb_plain_app].
Qed.

Lemma tame_for_each {A} (l : list A) (body : A -> M world unit) :
  (forall x, tame (body x)) -> tame (for_each l body).
Proof.
  intros Hbody. induction l as [|x l IH]; [apply tame_ret|].
  cbn [for_each]. apply tame_bind; [apply Hbody|]. by intros _.
Qed.

Lemma tame_for_fold {A B} (l : list A) (acc : B) (body : A -> B -> M world B) :
  (forall x b, tame (body x b)) -> tame (for_fold l acc body).
Proof.
  intros Hbody. revert acc. induction l as [|x l IH]; intros acc; [apply tame_ret|].
  cbn [for_fold]. apply tame_bind; [apply Hbody|]. intros acc'. apply IH.
Qed.

Lemma tame_for_enumerate {A} (start : nat) (l : list A) (body : nat -> A -> M world unit) :
  (forall i x, tame (body i x)) -> tame (for_enumerate start l body).
Proof.
  intros Hbody. revert start. induction l as [|x l IH]; intros start; [apply tame_ret|].
  cbn [for_enumerate]. apply tame_bind; [apply Hbody|]. intros _. apply IH.
Qed.

Lemma tame_os_makedirs (folder : string) : tame (os_makedirs folder).
Proof.
  intros w. exists []. unfold os_makedirs. rewrite app_nil_r.
  by destruct (disk w !! folder).
Qed.

Lemma tame_os_listdir (folder : string) : tame (os_listdir folder).
Proof.
  intros w. exists []. unfold os_listdir. rewrite app_nil_r.
  by destruct (disk w !! folder).
Qed.

Lemma tame_pd_read_excel (folder file : string) : tame (pd_read_excel folder file).
Proof.
  intros w. exists []. unfold pd_read_excel. rewrite app_nil_r.
  destruct (disk w !! folder) as [files|]; [|done].
  by destruct (files !! file) as [[|df]|].
Qed.

Lemma tame_write_file (folder name : string) (f : file) : tame (write_file folder name f).
Proof.
  intros w. exists []. unfold write_file. rewrite app_nil_r.
  by destruct (disk w !! folder).
Qed.

Ltac tame :=
  repeat first
    [ apply tame_ret | apply tame_raise | apply tame_lift | apply tame_log
    | apply tame_get | apply tame_os_makedirs | apply tame_os_listdir
    | apply tame_pd_read_excel | apply tame_write_file
    | apply tame_bind; [|intros ?] | apply tame_try_except; [|intros ?]
    | apply tame_for_each; intros ? | apply tame_for_fold; intros ? ?
    | apply tame_for_enumerate; intros ? ?
    | match goal with
      | |- tame (match ?x with _ => _ end) => destruct x
      | |- tame (let '(_, _) := ?x in _) => destruct x
      end ].

Lemma tame_process_vehicle (E : env) (vehicle_id : string) :
  tame (process_vehicle E vehicle_id).
Proof.
  unfold process_vehicle, search_latest_vehicle_email, clean_or_create_folder,
    get_existing_first_created_dates, scan_entry, read_first_created, process_link,
    download_file.
  tame.
Qed.

Lemma tame_guarded_vehicle (E : env) (vehicle_id : string) :
  tame (guarded_vehicle E vehicle_id).
Proof.
  unfold guarded_vehicle. apply tame_try_except; [|intros e; apply tame_log].
  apply tame_bind; [apply tame_process_vehicle|]. intros _. apply tame_ret.
Qed.

(** X7. Once connected, the call logs out of the mailbox once, after the last
    vehicle and whatever the vehicles raised, and returns; between the login
    and the logout there are only the log records and the requests of the
    vehicles. *)
Theorem mailbox_logged_out_once (E : env) (lines : list string) (w : world) :
  vehicle_file E = Some lines -> read_vehicle_ids lines <> [] ->
  imap_login E = Ok tt ->
  exists w' tr,
    fetch_reports_for_all_vehicles E w = (Ok tt, w') /\
    journal w' = journal w ++ [Log INFO StartingPhase2; Login] ++ tr
                 ++ [Logout; Log INFO AllFetched] /\
    forallb plain tr = true /\
    entered tr = read_vehicle_ids lines.
Proof.
  intros Hfile Hids Hlogin. unfold fetch_reports_for_all_vehicles, connect_to_mailbox.
  rewrite Hfile, Hlogin. destruct (read_vehicle_ids lines) as [|v vs] eqn:Hlist; [done|].
  unfold bind, try_except, try_finally, lift, log, emit. cbv beta iota.
  match goal with |- context [for_each (v :: vs) _ ?w1] =>
    destruct (vehicles_loop_run E (v :: vs) w1) as (w2 & tr & Hloop & Hj & Hent & _);
    destruct (tame_for_each (v :: vs) (guarded_vehicle E) (tame_guarded_vehicle E) w1)
      as (tr' & Hj' & Htame) end.
  rewrite Hloop in Hj' |- *. cbn [snd journal] in Hj, Hj'. rewrite Hj in Hj'.
  apply app_inv_head in Hj'. subst tr'.
  eexists _, tr. split; [reflexivity|]. cbn [journal]. rewrite Hj.
  split; [by rewrite <- !app_assoc|]. by split.
Qed.

End EmailMore.

(** ** More of the thread of [run_executor] *)

Module PoolMore.
Import Py Pool PoolSpec PoolTrace PoolFacts.
Local Open Scope nat_scope.

(** *** A pool that cannot be made *)

(** X8. [generate_all_reports(max_workers=n)] with [n <= 0]: the constructor of
    the pool raises inside the [try] of [run_executor]; the handler prints
    the error, the [finally] marks the run as done. No folder is submitted
    and no report generated. *)
Theorem no_worker_no_report (E : ReportGenerator.env) (vehicle_folders : list string)
    (max_workers : Z) (c : config) :
  (max_workers <= 0)%Z ->
  rtc (step (ReportGenerator.run_executor E vehicle_folders max_workers)) init c ->
  c = init \/
  c = {| tasks := []; ctl := Closing;
         trace := [ExecutorError (Exception "ValueError")] |} \/
  c = {| tasks := []; ctl := Returned;
         trace := [ExecutorError (Exception "ValueError"); AllDone] |}.
Proof.
  intros Hmw Hrun.
  apply (rtc_ind_r (R := step (ReportGenerator.run_executor E vehicle_folders max_workers))
           (fun c => c = init \/
                     c = {| tasks := []; ctl := Closing;
                            trace := [ExecutorError (Exception "ValueError")] |} \/
                     c = {| tasks := []; ctl := Returned;
                            trace := [ExecutorError (Exception "ValueError"); AllDone] |})
           init); [by left| |exact Hrun].
  clear c Hrun. intros c c' _ Hstep Hc.
  destruct Hstep as [c Hctl _|c Hctl Hpos|c k Hctl Hk|c Hctl|c w1 i w2 r Hctl Hi|c Hctl
                    |c Hctl Hall|c Hctl|c i Hi Hfree|c i Hi];
    destruct Hc as [-> | [-> | ->]]; cbn in *; try done; try lia; auto.
Qed.

(** *** At most [max_workers] tasks at a time *)

Lemma busy_app (ts ts' : list status) : busy (ts ++ ts') = busy ts + busy ts'.
Proof. unfold busy. by rewrite filter_app, length_app. Qed.

Lemma busy_insert (ts : list status) (i : nat) (s s' : status) :
  ts !! i = Some s ->
  busy (<[i := s']> ts) + Nat.b2n (is_started s) = busy ts + Nat.b2n (is_started s').
Proof.
  unfold busy. revert i. induction ts as [|t ts IH]; intros [|i] Hi; try done.
  - injection Hi as ->. change (<[0:=s']> (s :: ts)) with (s' :: ts).
    rewrite !filter_cons.
    destruct (decide (is_started s' = true)) as [->|Hy%not_true_is_false];
      destruct (decide (is_started s = true)) as [->|Hx%not_true_is_false];
      rewrite ?Hx, ?Hy; cbn; lia.
  - change (<[S i:=s']> (t :: ts)) with (t :: <[i:=s']> ts).
    rewrite !filter_cons. specialize (IH i Hi).
    destruct (decide (is_started t = true)); cbn [length]; lia.
Qed.

Lemma busy_step (P : program) (c c' : config) :
  (Z.of_nat (busy (tasks c)) <= Z.max 0 (max_workers P))%Z -> step P c c' ->
  (Z.of_nat (busy (tasks c')) <= Z.max 0 (max_workers P))%Z.
Proof.
  intros Hinv Hstep.
  destruct Hstep as [c Hctl _|c Hctl Hpos|c k Hctl Hk|c Hctl|c w1 i w2 r Hctl Hi|c Hctl
                    |c Hctl Hall|c Hctl|c i Hi Hfree|c i Hi]; cbn [tasks]; try done.
  - by destruct (guarded P).
  - rewrite busy_app. change (busy [Queued]) with 0. by rewrite Nat.add_0_r.
  - pose proof (busy_insert _ _ _ Started Hi) as H. cbn in H. lia.
  - pose proof (busy_insert _ _ _ (Finished (run P i)) Hi) as H. cbn in H. lia.
Qed.

(** X9. In both drivers the tasks that run at the same time are never more than
    the workers asked for: at most [max_workers] reports are generated at a
    time, and at most [MAX_CONCURRENT_UPLOADS] uploads. *)
Theorem never_more_tasks_than_workers :
  (forall (E : ReportGenerator.env) (vehicle_folders : list string) (max_workers : Z)
          (c : config),
     rtc (step (ReportGenerator.run_executor E vehicle_folders max_workers)) init c ->
     (Z.of_nat (busy (tasks c)) <= Z.max 0 max_workers)%Z) /\
  (forall (upload : string -> result unit) (vehicle_folders : list string) (c : config),
     rtc (step (Script4.run_executor upload vehicle_folders)) init c ->
     busy (tasks c) <= 2).
Proof.
  assert (Hall : forall P c, rtc (step P) init c ->
                   (Z.of_nat (busy (tasks c)) <= Z.max 0 (Pool.max_workers P))%Z).
  { intros P c Hrun.
    apply (rtc_ind_r (R := step P)
             (fun c => (Z.of_nat (busy (tasks c)) <= Z.max 0 (Pool.max_workers P))%Z)
             init); [cbn; lia| |exact Hrun].
    intros c1 c2 _ Hstep IH. by apply (busy_step P c1). }
  split.
  - intros E vehicle_folders max_workers c Hrun. by apply Hall in Hrun.
  - intros upload vehicle_folders c Hrun. apply Hall in Hrun. cbn in Hrun.
    unfold Script4.MAX_CONCURRENT_UPLOADS in Hrun. lia.
Qed.

(** *** Every task once *)

Lemma submitted_app (a b : list event) : submitted (a ++ b) = submitted a ++ submitted b.
Proof. apply omap_app. Qed.
Lemma started_app (a b : list event) : started (a ++ b) = started a ++ started b.
Proof. apply omap_app. Qed.
Lemma finished_app (a b : list event) : finished (a ++ b) = finished a ++ finished b.
Proof. apply omap_app. Qed.

Lemma once_init : once init.
Proof.
  split; cbn; try done; try apply NoDup_nil_2.
  - intros i. split; [by intros ?%elem_of_nil|]. by intros [?|[r ?]].
  - intros i. split; [by intros ?%elem_of_nil|]. by intros [r ?].
Qed.

(** A step of the thread that leaves the tasks alone and appends events that
    are not about a task. *)
Lemma once_quiet (c : config) (k : control) (tr : list event) :
  submitted tr = [] -> started tr = [] -> finished tr = [] ->
  once c -> once {| tasks := tasks c; ctl := k; trace := trace c ++ tr |}.
Proof.
  intros Hs Hst Hf [H1 H2 H3 H4 H5]. split; cbn [tasks trace];
    rewrite ?submitted_app, ?started_app, ?finished_app, ?Hs, ?Hst, ?Hf, ?app_nil_r;
    done.
Qed.

Lemma once_same (c : config) (k : control) :
  once c -> once {| tasks := tasks c; ctl := k; trace := trace c |}.
Proof. by intros [H1 H2 H3 H4 H5]. Qed.

Lemma once_step (P : program) (c c' : config) :
  inv P c -> once c -> step P c c' -> once c'.
Proof.
  intros [Hctl _ _ _ _] Honce Hstep. unfold ctl_ok in Hctl.
  destruct Hstep as [c Hc _|c Hc Hpos|c k Hc Hk|c Hc|c w1 i w2 r Hc Hi|c Hc
                    |c Hc Hall|c Hc|c i Hi Hfree|c i Hi].
  - destruct (guarded P); [by apply once_quiet|by apply once_same].
  - by apply once_same.
  - rewrite Hc in Hctl. destruct Hctl as (Hlen & _). subst k.
    destruct Honce as [H1 H2 H3 H4 H5]. split; cbn [tasks trace];
      rewrite ?submitted_app, ?started_app, ?finished_app; cbn; rewrite ?app_nil_r;
      try done.
    + by rewrite H1, length_app, Nat.add_1_r, seq_S.
    + intros i. rewrite H4. split.
      * intros [Hi|[r Hi]]; [left|right; exists r];
          by rewrite lookup_app_l by by eapply lookup_lt_Some.
      * intros [Hi|[r Hi]]; [left|right; exists r];
          apply lookup_app_Some in Hi as [Hi|[_ Hi]]; try done;
          by apply list_lookup_singleton_Some in Hi as [_ ?].
    + intros i. rewrite H5. split.
      * intros [r Hi]. exists r. by rewrite lookup_app_l by by eapply lookup_lt_Some.
      * intros [r Hi]. exists r.
        apply lookup_app_Some in Hi as [Hi|[_ Hi]]; try done.
        by apply list_lookup_singleton_Some in Hi as [_ ?].
  - by apply once_same.
  - apply once_quiet; try done; by destruct r.
  - by apply once_same.
  - by apply once_same.
  - by apply once_quiet.
  - destruct Honce as [H1 H2 H3 H4 H5]. split; cbn [tasks trace];
      rewrite ?submitted_app, ?started_app, ?finished_app; cbn; rewrite ?app_nil_r.
    + by rewrite length_insert.
    + apply NoDup_app. split; [done|]. split; [|apply NoDup_singleton].
      intros j Hj Hji%list_elem_of_singleton. subst j.
      apply H4 in Hj as [Hj|[r Hj]]; congruence.
    + done.
    + intros j. rewrite elem_of_app, list_elem_of_singleton, H4.
      destruct (decide (j = i)) as [->|Hne].
      * rewrite list_lookup_insert_eq by by eapply lookup_lt_Some.
        split; [by left|]. by right.
      * rewrite list_lookup_insert_ne by done. split; [|by left]. by intros [?|?].
    + intros j. rewrite H5.
      destruct (decide (j = i)) as [->|Hne].
      * rewrite list_lookup_insert_eq by by eapply lookup_lt_Some.
        split; intros [r Hr]; congruence.
      * by rewrite list_lookup_insert_ne by done.
  - destruct Honce as [H1 H2 H3 H4 H5]. split; cbn [tasks trace];
      rewrite ?submitted_app, ?started_app, ?finished_app; cbn; rewrite ?app_nil_r.
    + by rewrite length_insert.
    + done.
    + apply NoDup_app. split; [done|]. split; [|apply NoDup_singleton].
      intros j Hj Hji%list_elem_of_singleton. subst j.
      apply H5 in Hj as [r Hj]. congruence.
    + intros j. rewrite H4.
      destruct (decide (j = i)) as [->|Hne].
      * rewrite list_lookup_insert_eq by by eapply lookup_lt_Some.
        split; [|by left]. intros _. right. by eexists.
      * by rewrite list_lookup_insert_ne by done.
    + intros j. rewrite elem_of_app, list_elem_of_singleton, H5.
      destruct (decide (j = i)) as [->|Hne].
      * rewrite list_lookup_insert_eq by by eapply lookup_lt_Some.
        split; [|by right]. intros _. by eexists.
      * rewrite list_lookup_insert_ne by done. split; [|by left]. by intros [?|?].
Qed.

Lemma once_reachable (P : program) (c : config) : rtc (step P) init c -> once c.
Proof.
  intros Hrun.
  assert (inv P c /\ once c) as [_ ?]; [|done].
  apply (rtc_ind_r (R := step P) (fun c => inv P c /\ once c) init);
    [split; [apply inv_init|apply once_init]| |exact Hrun].
  intros c1 c2 _ Hstep [Hinv Honce]. split; [by apply (inv_step P c1)|].
  by apply (once_step P c1).
Qed.

(** X10. In both drivers no folder is handled twice: at every point of a run the
    folders have been submitted once each, in their order; no task was taken
    by a worker twice, or before it was submitted, and none ended twice, or
    before it was taken. When the thread of a pool with workers has returned,
    the tasks that ended are those of all the folders. *)
Theorem every_folder_once (P : program) (c : config) :
  rtc (step P) init c ->
  submitted (trace c) = seq 0 (length (tasks c)) /\
  NoDup (started (trace c)) /\ NoDup (finished (trace c)) /\
  finished (trace c) ⊆ started (trace c) /\
  started (trace c) ⊆ submitted (trace c) /\
  (ctl c = Returned -> (0 < max_workers P)%Z ->
   finished (trace c) ≡ₚ seq 0 (size P)).
Proof.
  intros Hrun. pose proof (once_reachable P c Hrun) as [H1 H2 H3 H4 H5].
  pose proof (inv_reachable P c Hrun) as [Hctl _ _ _ _].
  split; [done|]. split; [done|]. split; [done|]. split; [|split].
  - intros i Hi. apply H4. right. by apply H5.
  - intros i Hi. rewrite H1. apply elem_of_seq. split; [lia|]. cbn.
    apply H4 in Hi as [Hi|[r Hi]]; by eapply lookup_lt_Some.
  - intros Hret Hmw. unfold ctl_ok in Hctl. rewrite Hret in Hctl.
    destruct Hctl as [Hall [[Hlen _]|(_ & ? & _)]]; [|lia].
    apply NoDup_Permutation; [done|apply NoDup_seq|].
    intros i. rewrite H5, elem_of_seq. split.
    + intros [r Hi]. apply lookup_lt_Some in Hi. lia.
    + intros [_ Hi]. destruct (lookup_lt_is_Some_2 (tasks c) i) as [s Hs]; [lia|].
      destruct (forallb_finished_lookup _ _ _ Hall Hs) as [r ->]. by exists r.
Qed.

End PoolMore.

(** ** Launcher.py: the rotation of get_sticker_folder *)

Module LauncherMore.
Import Py Launcher StrFacts.
Local Open Scope nat_scope.

(** [os.path.basename(os.path.join(STICKERS_DIR, d))] is [d], for the name
    of a directory entry. *)
Lemma basename_join (d : string) :
  Str.has "/" d = false -> os_path_basename (os_path_join STICKERS_DIR d) = d.
Proof.
  intros Hd.
  change (os_path_join STICKERS_DIR d)
    with (String "s" (String "t" (String "i" (String "c" (String "k" (String "e"
         (String "r" (String "/" d)))))))).
  unfold os_path_basename, Str.split_last. cbn. by rewrite split_last_go_none.
Qed.

Lemma basenames_of_joined (names : list string) :
  (forall d, d ∈ names -> Str.has "/" d = false) ->
  os_path_basename <$> (os_path_join STICKERS_DIR <$> names) = names.
Proof.
  intros Hnames. rewrite <- list_fmap_compose. rewrite <- (list_fmap_id names) at 2.
  apply list_fmap_ext. intros i d Hd. cbn.
  apply basename_join, Hnames. by eapply list_elem_of_lookup_2.
Qed.

Lemma sorted_Permutation (paths : list string) : sorted paths ≡ₚ paths.
Proof. apply merge_sort_Permutation. Qed.

Lemma index_lookup (l : list string) (k : nat) (x : string) :
  NoDup l -> l !! k = Some x -> index x l = k.
Proof.
  revert k. induction l as [|y l IH]; intros k Hnd Hk; [done|].
  apply NoDup_cons in Hnd as [Hy Hnd]. cbn.
  destruct k as [|k]; cbn in Hk.
  - injection Hk as ->. by rewrite String.eqb_refl.
  - destruct (String.eqb_spec y x) as [->|Hne].
    + destruct Hy. by eapply list_elem_of_lookup_2.
    + f_equal. by apply IH.
Qed.

Lemma index_lt (l : list string) (x : string) : x ∈ l -> index x l < length l.
Proof.
  induction l as [|y l IH]; [by intros ?%elem_of_nil|]. cbn.
  destruct (String.eqb_spec y x) as [->|Hne]; [lia|].
  intros [?|Hin]%elem_of_cons; [congruence|]. specialize (IH Hin). lia.
Qed.

Lemma basenames_Permutation (names : list string) :
  (forall d, d ∈ names -> Str.has "/" d = false) ->
  os_path_basename <$> sorted (os_path_join STICKERS_DIR <$> names) ≡ₚ names.
Proof.
  intros Hnames.
  transitivity (os_path_basename <$> (os_path_join STICKERS_DIR <$> names)).
  - apply fmap_Permutation, sorted_Permutation.
  - by rewrite basenames_of_joined.
Qed.

Lemma rotation_step (w : world) (entries : list (string * bool))
    (text : string) (k : nat) (p : string) :
  let names := (filter (fun e => e.2 = true) entries).*1 in
  let all_stickers := sorted (os_path_join STICKERS_DIR <$> names) in
  stickers w = Dir entries -> NoDup names ->
  (forall d, d ∈ names -> d <> "" /\ Str.has "/" d = false) ->
  state w = Content text -> state_writable w = true ->
  all_stickers !! k = Some p -> Str.strip text = os_path_basename p ->
  exists q,
    all_stickers !! ((k + 1) mod length all_stickers) = Some q /\
    get_sticker_folder w
    = (Ok (Some q),
       {| stickers := stickers w; state := Content (os_path_basename q);
          state_writable := true; stdout := stdout w ++ [UsingFolder q] |}).
Proof.
  intros names all_stickers Hdir Hnd Hnames Hstate Hwr Hk Hstrip.
  assert (Hbase : os_path_basename <$> all_stickers ≡ₚ names).
  { transitivity (os_path_basename <$> (os_path_join STICKERS_DIR <$> names)).
    - apply fmap_Permutation, sorted_Permutation.
    - rewrite basenames_of_joined; [done|]. intros d Hd. by apply Hnames. }
  assert (Hndb : NoDup (os_path_basename <$> all_stickers)) by by rewrite Hbase.
  assert (Hkb : (os_path_basename <$> all_stickers) !! k = Some (os_path_basename p))
    by by rewrite list_lookup_fmap, Hk.
  assert (Hin : os_path_basename p ∈ os_path_basename <$> all_stickers)
    by by eapply list_elem_of_lookup_2.
  assert (Hne : os_path_basename p <> "").
  { apply Hnames. by rewrite <- Hbase. }
  assert (Hlen : 0 < length all_stickers).
  { apply lookup_lt_Some in Hk. lia. }
  destruct (lookup_lt_is_Some_2 all_stickers ((k + 1) mod length all_stickers))
    as [q Hq]; [apply Nat.mod_upper_bound; lia|].
  exists q. split; [exact Hq|].
  unfold get_sticker_folder, stickers_exists, listdir_stickers, state_exists,
    read_state, write_state, print, bind, ret, try_except.
  do 3 (rewrite ?Hdir; cbn [negb]; cbv beta iota). fold names. fold all_stickers.
  clearbody all_stickers. clear Hnd Hnames. clearbody names.
  destruct all_stickers as [|p0 rest] eqn:Hall; [cbn in Hlen; lia|]. rewrite <- Hall in *.
  do 3 (rewrite ?Hstate; cbv beta iota). rewrite Hstrip.
  destruct (os_path_basename p) as [|c r] eqn:Hp; [done|].
  rewrite bool_decide_eq_true_2 by done.
  rewrite (index_lookup _ k) by done. rewrite Hq.
  cbn [stickers state state_writable stdout]. by rewrite Hwr, Hdir.
Qed.

(** X11. The rotation. The entries of a directory have distinct names without
    ["/"]; when the state file holds, up to white space around it, the name
    of folder [k] of the sorted list, the call chooses folder [k + 1], the
    first one again after the last, and writes its name to the state file. *)
Theorem get_sticker_folder_rotates (w : world) (entries : list (string * bool))
    (text : string) (k : nat) (p : string) :
  let names := (filter (fun e => e.2 = true) entries).*1 in
  let all_stickers := sorted (os_path_join STICKERS_DIR <$> names) in
  stickers w = Dir entries -> NoDup names ->
  (forall d, d ∈ names -> d <> "" /\ Str.has "/" d = false) ->
  state w = Content text -> state_writable w = true ->
  all_stickers !! k = Some p -> Str.strip text = os_path_basename p ->
  exists q,
    all_stickers !! ((k + 1) mod length all_stickers) = Some q /\
    get_sticker_folder w
    = (Ok (Some q),
       {| stickers := stickers w; state := Content (os_path_basename q);
          state_writable := true; stdout := stdout w ++ [UsingFolder q] |}).
Proof. apply rotation_step. Qed.

(** X12. Call after call the rotation goes round: when the names of the folders
    have no white space around them, [m] calls after the state file named
    folder [k] it names folder [k + m], counted round the sorted list; every
    folder has its turn once in as many calls as there are folders. *)
Theorem get_sticker_folder_goes_round (w : world) (entries : list (string * bool))
    (k : nat) (p : string) (m : nat) :
  let names := (filter (fun e => e.2 = true) entries).*1 in
  let all_stickers := sorted (os_path_join STICKERS_DIR <$> names) in
  stickers w = Dir entries -> NoDup names ->
  (forall d, d ∈ names -> d <> "" /\ Str.has "/" d = false /\ Str.strip d = d) ->
  state w = Content (os_path_basename p) -> state_writable w = true ->
  all_stickers !! k = Some p ->
  exists q,
    all_stickers !! ((k + m) mod length all_stickers) = Some q /\
    let w' := Nat.iter m (fun w => (get_sticker_folder w).2) w in
    stickers w' = Dir entries /\ state w' = Content (os_path_basename q) /\
    state_writable w' = true.
Proof.
  intros names all_stickers Hdir Hnd Hnames Hstate Hwr Hk.
  assert (Hstable : forall q, q ∈ all_stickers ->
            Str.strip (os_path_basename q) = os_path_basename q).
  { intros q Hq. apply Hnames. rewrite <- (basenames_Permutation names).
    - by apply list_elem_of_fmap_2.
    - intros d Hd. by apply Hnames. }
  induction m as [|m (q & Hq & Hdir' & Hstate' & Hwr')].
  - exists p. rewrite Nat.add_0_r, Nat.mod_small by by eapply lookup_lt_Some.
    by repeat split.
  - cbv zeta in *. rewrite Nat.iter_succ.
    set (w_m := Nat.iter m (fun w => (get_sticker_folder w).2) w) in *.
    destruct (rotation_step w_m entries (os_path_basename q)
                ((k + m) mod length all_stickers) q) as (q' & Hq' & Hrun); try done.
    + intros d Hd. split; by apply Hnames.
    + apply Hstable. by eapply list_elem_of_lookup_2.
    + exists q'. split.
      * fold names all_stickers in Hq'.
        rewrite Nat.Div0.add_mod_idemp_l in Hq'.
        by rewrite Nat.add_succ_r, <- Nat.add_1_r.
      * rewrite Hrun. cbn. by rewrite Hdir'.
Qed.

(** X13. The index is always in range: the call never raises [IndexError]. When
    it returns a folder, that is a subfolder of the sticker directory and the
    state file holds its name; when it returns [None] or raises, the state
    file is as before. *)
Theorem get_sticker_folder_in_bounds (w : world) :
  match get_sticker_folder w with
  | (Ok (Some q), w') =>
      exists entries d, stickers w = Dir entries /\ (d, true) ∈ entries /\
                        q = os_path_join STICKERS_DIR d /\
                        state w' = Content (os_path_basename q)
  | (Ok None, w') => state w' = state w
  | (Raise e, w') => state w' = state w /\ e <> Exception "IndexError"
  end.
Proof.
  unfold get_sticker_folder, stickers_exists, listdir_stickers, state_exists,
    read_state, write_state, print, bind, ret, raise, try_except.
  destruct (stickers w) as [| |entries] eqn:Hdir; cbn [negb]; cbv beta iota.
  { done. }
  { rewrite Hdir. by split. }
  rewrite Hdir. cbv beta iota.
  set (all_stickers := sorted _).
  assert (Hsub : forall q, q ∈ all_stickers ->
            exists d, (d, true) ∈ entries /\ q = os_path_join STICKERS_DIR d).
  { intros q Hq. unfold all_stickers in Hq. rewrite sorted_Permutation in Hq.
    apply list_elem_of_fmap in Hq as (d & -> & Hd).
    apply list_elem_of_fmap in Hd as ([d' b] & -> & Hd).
    apply list_elem_of_filter in Hd as [Hb Hd]. cbn in Hb. subst b. by exists d'. }
  clearbody all_stickers.
  destruct all_stickers as [|p0 rest] eqn:Hall; [done|]. rewrite <- Hall in *.
  assert (Hpick : forall last_value : option string,
            exists q,
              all_stickers !! match last_value with
                              | Some (String c r) =>
                                  if bool_decide (String c r ∈ os_path_basename <$> all_stickers)
                                  then (index (String c r) (os_path_basename <$> all_stickers) + 1)
                                       mod length all_stickers
                                  else 0
                              | _ => 0
                              end = Some q /\ q ∈ all_stickers).
  { intros last_value.
    match goal with |- context [all_stickers !! ?i] =>
      destruct (lookup_lt_is_Some_2 all_stickers i) as [q Hq] end.
    - rewrite Hall. cbn [length]. destruct last_value as [[|c r]|]; try lia.
      destruct (bool_decide _); [|lia]. apply Nat.mod_upper_bound. lia.
    - exists q. split; [done|]. by eapply list_elem_of_lookup_2. }
  destruct (state w) as [| |text] eqn:Hstate; cbv beta iota; rewrite ?Hstate;
    cbv beta iota.
  - destruct (Hpick None) as (q & -> & Hq). destruct (Hsub q Hq) as (d & Hd & ->).
    destruct (state_writable w); cbn; [by exists entries, d|by rewrite Hstate].
  - destruct (Hpick None) as (q & -> & Hq). destruct (Hsub q Hq) as (d & Hd & ->).
    destruct (state_writable w); cbn; [by exists entries, d|by rewrite Hstate].
  - destruct (Hpick (Some (Str.strip text))) as (q & -> & Hq).
    destruct (Hsub q Hq) as (d & Hd & ->).
    destruct (state_writable w); cbn; [by exists entries, d|by rewrite Hstate].
Qed.

End LauncherMore.

(** ** Octopus_login.py *)

Module OctopusFacts.
Import Py Octopus.

Ltac run :=
  unfold bind, ret, raise, lift, try_except, try_finally, emit, write_log; cbn.

(** *** The date picker *)

Lemma length_range (a b : Z) : length (range a b) = Z.to_nat (b - a).
Proof. unfold range. by rewrite length_fmap, length_seq. Qed.

Lemma range_nil (a b : Z) : b <= a -> range a b = [].
Proof. intros H. unfold range. by replace (Z.to_nat (b - a)) with 0%nat by lia. Qed.

Lemma range_cons (a b : Z) : a < b -> range a b = a :: range (a + 1) b.
Proof.
  intros H. unfold range.
  replace (Z.to_nat (b - a)) with (S (Z.to_nat (b - (a + 1)))) by lia.
  cbn [seq fmap list_fmap]. f_equal; [lia|].
  rewrite <- seq_shift, <- list_fmap_compose. apply list_fmap_ext.
  intros i k _. cbn. lia.
Qed.

Lemma nexts_run {A} (l : list A) (p : page) :
  for_each l (fun _ => click_next) p
  = (Ok tt, {| shown := Nat.iter (length l) next_month (shown p);
               clicks := clicks p ++ replicate (length l) ClickNext;
               log := log p |}).
Proof.
  revert p. induction l as [|x l IH]; intros p.
  - cbn. unfold ret. rewrite app_nil_r. by destruct p.
  - cbn [for_each]. unfold bind, click_next at 1. rewrite IH. cbn [shown clicks log length].
    rewrite Nat.iter_succ_r, <- app_assoc. done.
Qed.

Lemma previouses_run {A} (l : list A) (p : page) :
  for_each l (fun _ => click_previous) p
  = (Ok tt, {| shown := Nat.iter (length l) previous_month (shown p);
               clicks := clicks p ++ replicate (length l) ClickPrevious;
               log := log p |}).
Proof.
  revert p. induction l as [|x l IH]; intros p.
  - cbn. unfold ret. rewrite app_nil_r. by destruct p.
  - cbn [for_each]. unfold bind, click_previous at 1. rewrite IH.
    cbn [shown clicks log length]. rewrite Nat.iter_succ_r, <- app_assoc. done.
Qed.

(** The months, counted from year 0. *)
Lemma iter_next_month (n : nat) (y m : Z) :
  1 <= m <= 12 ->
  exists y' m', Nat.iter n next_month (y, m) = (y', m') /\ 1 <= m' <= 12 /\
                y' * 12 + m' = y * 12 + m + Z.of_nat n.
Proof.
  intros Hm. induction n as [|n (y' & m' & Hit & Hm' & Hidx)].
  - exists y, m. split; [done|]. split; [done|]. lia.
  - rewrite Nat.iter_succ, Hit. unfold next_month. cbn [fst snd].
    destruct (Z.eqb_spec m' 12); eexists _, _; (split; [reflexivity|]); lia.
Qed.

Lemma iter_previous_month (n : nat) (y m : Z) :
  1 <= m <= 12 ->
  exists y' m', Nat.iter n previous_month (y, m) = (y', m') /\ 1 <= m' <= 12 /\
                y' * 12 + m' = y * 12 + m - Z.of_nat n.
Proof.
  intros Hm. induction n as [|n (y' & m' & Hit & Hm' & Hidx)].
  - exists y, m. split; [done|]. split; [done|]. lia.
  - rewrite Nat.iter_succ, Hit. unfold previous_month. cbn [fst snd].
    destruct (Z.eqb_spec m' 1); eexists _, _; (split; [reflexivity|]); lia.
Qed.

(** The month the calendar shows once the arrows have been clicked, for a
    calendar that showed the month [(y0, m0)]. *)
Lemma arrows_run (today target_date : date) (y0 m0 : Z) (p : page) :
  1 <= today.1.2 <= 12 -> 1 <= target_date.1.2 <= 12 -> 1 <= m0 <= 12 ->
  shown p = (y0, m0) ->
  let month_diff := (target_date.1.1 - today.1.1) * 12 + (target_date.1.2 - today.1.2) in
  let arrows := if 0 <? month_diff then replicate (Z.to_nat month_diff) ClickNext
                else replicate (Z.to_nat (- month_diff)) ClickPrevious in
  exists y' m',
    1 <= m' <= 12 /\ y' * 12 + m' = y0 * 12 + m0 + month_diff /\
    _click_date_in_calendar today target_date p
    = click_day target_date {| shown := (y', m'); clicks := clicks p ++ arrows;
                               log := log p |}.
Proof.
  intros Htoday Htarget Hm0 Hshown month_diff arrows.
  unfold _click_date_in_calendar. fold month_diff. unfold bind at 1. subst arrows.
  destruct (Z.ltb_spec 0 month_diff) as [Hpos|Hle].
  - rewrite nexts_run, length_range, Hshown.
    destruct (iter_next_month (Z.to_nat (month_diff - 0)) y0 m0 Hm0)
      as (y' & m' & -> & Hm' & Hidx).
    exists y', m'. split; [done|]. split; [lia|].
    by replace (month_diff - 0) with month_diff by lia.
  - destruct (Z.ltb_spec month_diff 0) as [Hneg|Hzero].
    + rewrite previouses_run, length_range, Hshown.
      destruct (iter_previous_month (Z.to_nat (- month_diff - 0)) y0 m0 Hm0)
        as (y' & m' & -> & Hm' & Hidx).
      exists y', m'. split; [done|]. split; [lia|].
      by replace (- month_diff - 0) with (- month_diff) by lia.
    + exists y0, m0. split; [done|]. split; [lia|].
      replace (Z.to_nat (- month_diff)) with 0%nat by lia. cbn. unfold ret.
      rewrite app_nil_r. by rewrite <- Hshown; destruct p.
Qed.

(** X14. On a calendar that opens on the month of today, the arrows clicked are
    as many as the months between today and the target, in the right
    direction, and bring the calendar to the month of the target: the day is
    found and clicked. *)
Theorem click_date_in_calendar_reaches_the_day (today target_date : date) (p : page) :
  1 <= today.1.2 <= 12 -> 1 <= target_date.1.2 <= 12 ->
  shown p = (today.1.1, today.1.2) ->
  let month_diff := (target_date.1.1 - today.1.1) * 12 + (target_date.1.2 - today.1.2) in
  _click_date_in_calendar today target_date p
  = (Ok tt,
     {| shown := (target_date.1.1, target_date.1.2);
        clicks := clicks p
                  ++ (if 0 <? month_diff then replicate (Z.to_nat month_diff) ClickNext
                      else replicate (Z.to_nat (- month_diff)) ClickPrevious)
                  ++ [ClickDay target_date];
        log := log p |}).
Proof.
  intros Htoday Htarget Hshown month_diff.
  destruct (arrows_run today target_date _ _ p Htoday Htarget Htoday Hshown)
    as (y' & m' & Hm' & Hidx & ->).
  fold month_diff in Hidx |- *.
  assert (y' = target_date.1.1 /\ m' = target_date.1.2) as [-> ->]
    by (subst month_diff; lia).
  unfold click_day. cbn [shown clicks log]. rewrite decide_True by done.
  by rewrite <- app_assoc.
Qed.

(** X15. The arrows are counted from the month of today, not from the month on
    display: on a calendar that opens on another month the day is not
    found, and the call raises. *)
Theorem click_date_in_calendar_misses_elsewhere (today target_date : date)
    (y0 m0 : Z) (p : page) :
  1 <= today.1.2 <= 12 -> 1 <= target_date.1.2 <= 12 -> 1 <= m0 <= 12 ->
  shown p = (y0, m0) -> (y0, m0) <> (today.1.1, today.1.2) ->
  exists p', _click_date_in_calendar today target_date p
             = (Raise (Exception "TimeoutError"), p') /\
             shown p' <> (target_date.1.1, target_date.1.2).
Proof.
  intros Htoday Htarget Hm0 Hshown Hne.
  destruct (arrows_run today target_date _ _ p Htoday Htarget Hm0 Hshown)
    as (y' & m' & Hm' & Hidx & ->).
  assert (Hmiss : (y', m') <> (target_date.1.1, target_date.1.2)).
  { intros [= -> ->]. apply Hne. f_equal; lia. }
  unfold click_day. cbn [shown clicks log]. rewrite decide_False by done.
  by eexists.
Qed.

(** *** select_end_date *)

Lemma click_keeps_log (today target_date : date) (p : page) :
  log (_click_date_in_calendar today target_date p).2 = log p.
Proof.
  unfold _click_date_in_calendar, bind.
  destruct (0 <? _).
  - rewrite nexts_run. unfold click_day. cbn [shown clicks log].
    by destruct (decide _).
  - destruct (_ <? 0).
    + rewrite previouses_run. unfold click_day. cbn [shown clicks log].
      by destruct (decide _).
    + cbn. unfold click_day. by destruct (decide _).
Qed.

Lemma failed_attempts_app (a b : list logrec) :
  failed_attempts (a ++ b) = failed_attempts a ++ failed_attempts b.
Proof. apply omap_app. Qed.

Section select_end_date.
Variable today : date.
Variable open_end_date : M page unit.
Variable end_date : date.
Variable retries : Z.
Hypothesis open_keeps_log : forall q, log (open_end_date q).2 = log q.

(** One turn of the [try]: it logs its success, or nothing. *)
Lemma attempt_run (p : page) :
  let body := (open_end_date ;;; _click_date_in_calendar today end_date ;;;
               write_log EndDateSelected ;;; ret (Some true)) in
  (exists p', body p = (Ok (Some true), p') /\ log p' = log p ++ [EndDateSelected]) \/
  (exists e p', body p = (Raise e, p') /\ log p' = log p).
Proof.
  cbv zeta. unfold bind, write_log, ret.
  pose proof (open_keeps_log p) as Hopen.
  destruct (open_end_date p) as [[[]|e] p1]; cbn [snd] in Hopen.
  2:{ right. by eexists _, _. }
  pose proof (click_keeps_log today end_date p1) as Hclick.
  destruct (_click_date_in_calendar today end_date p1) as [[[]|e] p2]; cbn [snd] in Hclick.
  - left. eexists. split; [reflexivity|]. cbn. by rewrite Hclick, Hopen.
  - right. eexists _, _. split; [reflexivity|]. by rewrite Hclick.
Qed.

Lemma loop_run (n : nat) (a : Z) (p : page) :
  1 <= a -> a + Z.of_nat (S n) = retries + 1 ->
  exists r p' new,
    select_end_date_loop today open_end_date end_date retries (range a (retries + 1)) p
    = (r, p') /\ log p' = log p ++ new /\
    ((exists k, a <= k <= retries /\ r = Ok (Some true) /\
                failed_attempts new = range a k /\ last new = Some EndDateSelected) \/
     (r = Raise (Exception "Could not select End Date") /\
      failed_attempts new = range a (retries + 1))).
Proof.
  revert a p. induction n as [|n IH]; intros a p Ha Hn.
  - assert (a = retries) as -> by lia.
    rewrite range_cons, range_nil by lia. cbn [select_end_date_loop].
    unfold bind at 1, try_except.
    destruct (attempt_run p) as [(p' & -> & Hlog)|(e & p' & -> & Hlog)].
    + eexists _, _, [_]. split; [reflexivity|]. split; [exact Hlog|]. left.
      exists retries. split; [lia|]. split; [done|]. by rewrite range_nil by lia.
    + unfold bind, write_log. rewrite Z.eqb_refl. unfold raise.
      eexists _, _, [_]. split; [reflexivity|]. cbn [log]. split; [by rewrite Hlog|].
      right. by split.
  - rewrite range_cons by lia. cbn [select_end_date_loop].
    unfold bind at 1, try_except.
    destruct (attempt_run p) as [(p' & -> & Hlog)|(e & p' & -> & Hlog)].
    + eexists _, _, [_]. split; [reflexivity|]. split; [exact Hlog|]. left.
      exists a. split; [lia|]. split; [done|]. by rewrite range_nil by lia.
    + unfold bind at 1, write_log at 1.
      destruct (Z.eqb_spec a retries) as [->|_]; [lia|]. unfold ret at 1.
      destruct (IH (a + 1) {| shown := shown p'; clicks := clicks p';
                              log := log p' ++ [AttemptFailed a e] |})
        as (r & p'' & new & -> & Hlog' & Hcases); [lia|lia|].
      cbn [log] in Hlog'.
      eexists _, _, (AttemptFailed a e :: new). split; [reflexivity|].
      split; [by rewrite Hlog', Hlog, <- app_assoc|].
      destruct Hcases as [(k & Hk & -> & Hfail & Hlast)|[-> Hfail]].
      * left. exists k. split; [lia|]. split; [done|]. split.
        -- change (failed_attempts (AttemptFailed a e :: new))
             with (a :: failed_attempts new).
           rewrite Hfail. by rewrite (range_cons a k) by lia.
        -- destruct new; [done|exact Hlast].
      * right. split; [done|].
        change (failed_attempts (AttemptFailed a e :: new))
          with (a :: failed_attempts new).
        by rewrite Hfail.
Qed.

End select_end_date.

(** X16. [select_end_date] tries at most [retries] times, one after the other,
    and stops at the first attempt that comes through: it returns [True]
    then, after logging a warning for each attempt before. When all
    [retries] attempts fail it raises ["Could not select End Date"], whatever
    the attempts raised. With [retries <= 0] it tries nothing and returns
    [None]. *)
Theorem select_end_date_tries_up_to_retries (today : date) (open_end_date : M page unit)
    (end_date : date) (retries : Z) (p : page) :
  (forall q, log (open_end_date q).2 = log q) ->
  exists r p' new,
    select_end_date today open_end_date end_date retries p = (r, p') /\
    log p' = log p ++ new /\
    ((retries <= 0 /\ r = Ok None /\ p' = p) \/
     (exists k, 1 <= k <= retries /\ r = Ok (Some true) /\
                failed_attempts new = range 1 k /\ last new = Some EndDateSelected) \/
     (1 <= retries /\ r = Raise (Exception "Could not select End Date") /\
      failed_attempts new = range 1 (retries + 1))).
Proof.
  intros Hopen. unfold select_end_date.
  destruct (Z.le_gt_cases retries 0) as [Hle|Hgt].
  - rewrite range_nil by lia. cbn. unfold ret. eexists _, _, [].
    split; [reflexivity|]. rewrite app_nil_r. split; [done|]. by left.
  - destruct (loop_run today open_end_date end_date retries Hopen
                (Z.to_nat (retries - 1)) 1 p) as (r & p' & new & Hrun & Hlog & Hcases);
      [lia|lia|].
    exists r, p', new. split; [exact Hrun|]. split; [exact Hlog|]. right.
    destruct Hcases as [(k & Hk & Hr & Hfail & Hlast)|[Hr Hfail]].
    + left. by exists k.
    + right. split; [lia|done].
Qed.

(** *** read_vehicle_list *)

Lemma parse_line_reg_no (E : env) (line reg_no : string) (d : date) :
  parse_line E (Str.strip line) = Ok (reg_no, d) ->
  reg_no = Str.strip (Str.split_first "," line).
Proof.
  unfold parse_line. destruct (Str.split_after _ _); [|done].
  destruct (strptime E _); [|done]. intros [= <- _].
  by apply StrFacts.strip_split_first_strip.
Qed.

Lemma read_lines_run (E : env) (lines : list string) (acc : list (string * date))
    (w : world) :
  exists vehicles skipped,
    for_fold lines acc (read_vehicle_line E) w
    = (Ok (acc ++ vehicles), {| journal := journal w ++ skipped |}) /\
    vehicles.*1 `sublist_of` EmailReader.read_vehicle_ids lines /\
    forallb is_skipping skipped = true /\
    (length vehicles + length skipped)%nat
    = length (EmailReader.read_vehicle_ids lines).
Proof.
  revert acc w. induction lines as [|line lines IH]; intros acc w.
  - exists [], []. cbn. unfold ret. rewrite !app_nil_r. by destruct w.
  - cbn [for_fold]. unfold EmailReader.read_vehicle_ids. rewrite filter_cons.
    fold (EmailReader.read_vehicle_ids lines). unfold bind at 1.
    unfold read_vehicle_line at 1.
    destruct (decide (Str.strip line = "")) as [Hblank|Hline].
    + rewrite decide_False by auto. unfold ret at 1. apply IH.
    + rewrite decide_True by done. cbn [fmap list_fmap].
      fold (EmailReader.read_vehicle_ids lines).
      unfold try_except, bind, lift, ret, emit.
      destruct (parse_line E (Str.strip line)) as [[reg_no d]|e] eqn:Hparse.
      * destruct (IH (acc ++ [(reg_no, d)]) w) as (vs & sk & -> & Hsub & Hsk & Hlen).
        exists ((reg_no, d) :: vs), sk. rewrite <- app_assoc. split; [done|].
        split; [|split; [done|cbn; lia]].
        cbn. rewrite (parse_line_reg_no E line reg_no d Hparse).
        by apply sublist_skip.
      * destruct (IH acc {| journal := journal w ++ [SkippingInvalidLine (Str.strip line) e] |})
          as (vs & sk & -> & Hsub & Hsk & Hlen).
        exists vs, (SkippingInvalidLine (Str.strip line) e :: sk).
        cbn [journal]. rewrite <- app_assoc. split; [done|].
        split; [by apply sublist_cons|]. split; [done|]. cbn. lia.
Qed.

(** X17. Reading the list never fails on a line: each non-blank line gives a
    vehicle or a warning. The registration numbers read are, in their order,
    among the vehicle ids that script 2 reads from the same lines, so every
    vehicle that phase 1 asks a report for is one that phase 2 looks for. *)
Theorem read_vehicle_list_within_script2_ids (E : env) (lines : list string) (w : world) :
  vehicle_file E = Some lines ->
  exists vehicles skipped,
    read_vehicle_list E w = (Ok vehicles, {| journal := journal w ++ skipped |}) /\
    vehicles.*1 `sublist_of` EmailReader.read_vehicle_ids lines /\
    forallb is_skipping skipped = true /\
    (length vehicles + length skipped)%nat
    = length (EmailReader.read_vehicle_ids lines).
Proof.
  intros Hfile. unfold read_vehicle_list. rewrite Hfile.
  destruct (read_lines_run E lines [] w) as (vs & sk & Hrun & Hrest).
  exists vs, sk. by rewrite Hrun.
Qed.

(** *** run_full_test and main *)

Lemma fetches_app (a b : list event) : fetches (a ++ b) = (fetches a + fetches b)%nat.
Proof. unfold fetches. by rewrite filter_app, length_app. Qed.

Lemma generations_app (a b : list event) :
  generations (a ++ b) = (generations a + generations b)%nat.
Proof. unfold generations. by rewrite filter_app, length_app. Qed.

Lemma fetches_cons (e : event) (l : list event) :
  fetches (e :: l) = ((if is_fetch e then 1 else 0) + fetches l)%nat.
Proof. unfold fetches. rewrite filter_cons. by destruct (is_fetch e). Qed.

Lemma generations_cons (e : event) (l : list event) :
  generations (e :: l) = ((if is_generate e then 1 else 0) + generations l)%nat.
Proof. unfold generations. rewrite filter_cons. by destruct (is_generate e). Qed.

Ltac tally :=
  rewrite ?fetches_app, ?generations_app, ?fetches_cons, ?generations_cons;
  change (fetches []) with 0%nat; change (generations []) with 0%nat;
  cbn [is_fetch is_generate].

Lemma launched_app (a b : list event) : launched (a ++ b) = launched a ++ launched b.
Proof. apply omap_app. Qed.

Lemma browsers_closed_app (o : bool) (a b : list event) :
  browsers_closed o a = true -> browsers_closed false b = true ->
  browsers_closed o (a ++ b) = true.
Proof.
  revert o. induction a as [|e a IH]; intros o Ha Hb.
  - cbn in Ha. by destruct o.
  - destruct e; cbn in *; try (by apply IH).
    + apply andb_true_iff in Ha as [-> Ha]. by apply IH.
    + apply andb_true_iff in Ha as [-> Ha]. by apply IH.
Qed.

Lemma skipping_quiet (tr : list event) :
  forallb is_skipping tr = true ->
  browsers_closed false tr = true /\ fetches tr = 0%nat /\ generations tr = 0%nat /\
  launched tr = [].
Proof.
  induction tr as [|e tr IH]; [done|]. cbn. intros [He Htr]%andb_true_iff.
  destruct e; try done. by apply IH.
Qed.

Lemma run_full_test_run (E : env) (reg_no : string) (start_date end_date : date)
    (w : world) :
  run_full_test E reg_no start_date end_date w
  = match launch E with
    | Raise x => (Raise x, w)
    | Ok _ =>
        match portal E reg_no start_date end_date with
        | Ok _ => (Ok tt, {| journal := journal w ++ [Launch reg_no; Completed reg_no; Close] |})
        | Raise x => (Raise x, {| journal := journal w ++ [Launch reg_no; Close] |})
        end
    end.
Proof.
  unfold run_full_test. run. destruct (launch E); [|done]. cbn.
  destruct (portal E reg_no start_date end_date); cbn; by rewrite <- !app_assoc.
Qed.

(** The loop of phase 1, on every path. *)
Lemma phase1_run (E : env) (end_date : date) (vehicles : list (string * date))
    (w : world) :
  exists r tr,
    for_each vehicles
      (fun v => emit (Processing v.1 v.2 end_date) ;;;
                run_full_test E v.1 v.2 end_date) w
    = (r, {| journal := journal w ++ tr |}) /\
    browsers_closed false tr = true /\ fetches tr = 0%nat /\ generations tr = 0%nat /\
    launched tr `prefix_of` vehicles.*1.
Proof.
  revert w. induction vehicles as [|v vs IH]; intros w.
  - exists (Ok tt), []. cbn. unfold ret. rewrite app_nil_r.
    split; [by destruct w|]. repeat split; try done; try apply prefix_nil.
  - cbn [for_each]. unfold bind at 1 2, emit at 1. rewrite run_full_test_run.
    cbn [journal]. destruct (launch E) as [[]|x].
    2:{ eexists _, [_]. split; [reflexivity|]. repeat split; try done;
        try apply prefix_nil. }
    destruct (portal E v.1 v.2 end_date) as [[]|x].
    + match goal with |- context [for_each vs _ ?w1] =>
        destruct (IH w1) as (r & tr & -> & Hcl & Hf & Hg & Hpre) end.
      cbn [journal]. rewrite <- !app_assoc.
      eexists _, _. split; [reflexivity|]. split; [|split; [|split]].
      * exact Hcl.
      * by rewrite !fetches_app, Hf.
      * by rewrite !generations_app, Hg.
      * rewrite !launched_app. cbn. by apply prefix_cons.
    + rewrite <- !app_assoc. eexists _, _. split; [reflexivity|].
      repeat split; try done. cbn. apply (prefix_cons _ []), prefix_nil.
Qed.

(** The loop of phase 1 up to a vehicle whose run on the portal fails. *)
Lemma phase1_fails (E : env) (end_date : date) (before after : list (string * date))
    (v : string * date) (e : exn) (w : world) :
  launch E = Ok tt ->
  (forall u, u ∈ before -> portal E u.1 u.2 end_date = Ok tt) ->
  portal E v.1 v.2 end_date = Raise e ->
  for_each (before ++ v :: after)
    (fun v => emit (Processing v.1 v.2 end_date) ;;;
              run_full_test E v.1 v.2 end_date) w
  = (Raise e,
     {| journal := journal w ++ (before ≫= portal_events end_date)
                   ++ [Processing v.1 v.2 end_date; Launch v.1; Close] |}).
Proof.
  intros Hlaunch Hbefore Hv. revert w.
  induction before as [|u before IH]; intros w.
  - cbn [app for_each]. unfold bind at 1 2, emit at 1. rewrite run_full_test_run.
    rewrite Hlaunch, Hv. cbn. by rewrite <- !app_assoc.
  - cbn [app for_each]. unfold bind at 1 2, emit at 1. rewrite run_full_test_run.
    rewrite Hlaunch, (Hbefore u) by left. rewrite IH.
    2:{ intros u' Hu'. apply Hbefore. by right. }
    cbn. by rewrite <- !app_assoc.
Qed.

Lemma portal_events_quiet (end_date : date) (before : list (string * date)) :
  launched (before ≫= portal_events end_date) = before.*1 /\
  fetches (before ≫= portal_events end_date) = 0%nat /\
  generations (before ≫= portal_events end_date) = 0%nat.
Proof.
  induction before as [|u before (IHl & IHf & IHg)]; [done|].
  change ((u :: before) ≫= portal_events end_date)
    with (portal_events end_date u ++ (before ≫= portal_events end_date)).
  rewrite launched_app, fetches_app, generations_app, IHl, IHf, IHg. done.
Qed.

(** X18. Phase 1 has no handler around a vehicle: when the run of one vehicle on
    the portal raises, [main] raises the same, with the browser of that
    vehicle closed. The vehicles after it are not processed, and neither
    script 2 nor script 3 is called. *)
Theorem main_stops_at_the_first_failure (E : env) (before after : list (string * date))
    (v : string * date) (e : exn) (w w1 : world) :
  falsy (OCTO_USER E) = false -> falsy (OCTO_PASS E) = false ->
  read_vehicle_list E w = (Ok (before ++ v :: after), w1) ->
  launch E = Ok tt ->
  (forall u, u ∈ before -> portal E u.1 u.2 (yesterday E) = Ok tt) ->
  portal E v.1 v.2 (yesterday E) = Raise e ->
  exists tr,
    main E w = (Raise e, {| journal := journal w1 ++ tr |}) /\
    tr = (before ≫= portal_events (yesterday E))
         ++ [Processing v.1 v.2 (yesterday E); Launch v.1; Close] /\
    launched tr = before.*1 ++ [v.1] /\
    fetches tr = 0%nat /\ generations tr = 0%nat.
Proof.
  intros Huser Hpass Hread Hlaunch Hbefore Hv.
  eexists. split; [|split; [reflexivity|]].
  - unfold main, OctopusReportTester. rewrite Huser, Hpass. cbn [orb].
    unfold bind at 1, ret at 1. unfold bind at 1. rewrite Hread.
    unfold bind at 1. by rewrite (phase1_fails E _ before after v e w1).
  - rewrite launched_app, fetches_app, generations_app.
    destruct (portal_events_quiet (yesterday E) before) as (-> & -> & ->). done.
Qed.

Lemma main_run (E : env) (w : world) :
  exists r tr,
    main E w = (r, {| journal := journal w ++ tr |}) /\
    browsers_closed false tr = true /\
    (generations tr <= fetches tr <= 1)%nat /\
    (r = Ok tt -> fetches tr = 1%nat /\ generations tr = 1%nat).
Proof.
  unfold main, OctopusReportTester.
  destruct (falsy (OCTO_USER E) || falsy (OCTO_PASS E)).
  { exists (Raise (Exception "Missing credentials in environment variables")), [].
    unfold bind, raise. rewrite app_nil_r. split; [by destruct w|]. cbn. split; [done|].
    split; [lia|done]. }
  unfold bind at 1, ret at 1. unfold bind at 1, read_vehicle_list.
  destruct (vehicle_file E) as [lines|].
  2:{ exists (Raise (Exception "FileNotFoundError")), []. unfold raise.
      rewrite app_nil_r. split; [by destruct w|]. cbn. split; [done|].
      split; [lia|done]. }
  destruct (read_lines_run E lines [] w) as (vehicles & skipped & -> & _ & Hsk & _).
  apply skipping_quiet in Hsk as (Hcl0 & Hf0 & Hg0 & _).
  unfold bind at 1.
  match goal with |- context [for_each _ _ ?w1] =>
    destruct (phase1_run E (yesterday E) ([] ++ vehicles) w1)
      as (r1 & tr1 & -> & Hcl1 & Hf1 & Hg1 & _) end.
  cbn [journal]. rewrite <- app_assoc.
  assert (Hcl : browsers_closed false (skipped ++ tr1) = true)
    by by apply browsers_closed_app.
  assert (Hf : fetches (skipped ++ tr1) = 0%nat) by by rewrite fetches_app, Hf0, Hf1.
  assert (Hg : generations (skipped ++ tr1) = 0%nat)
    by by rewrite generations_app, Hg0, Hg1.
  revert Hcl Hf Hg. generalize (skipped ++ tr1). clear. intros tr Hcl Hf Hg.
  destruct r1 as [[]|x].
  2:{ eexists _, _. split; [reflexivity|]. split; [done|]. split; [lia|done]. }
  unfold bind at 1, emit at 1. unfold bind at 1, lift at 1. cbn [journal].
  destruct (countdown E) as [skip|x].
  2:{ rewrite <- app_assoc. eexists _, _. split; [reflexivity|]. split.
      - by apply browsers_closed_app.
      - tally. rewrite Hf, Hg. split; [lia|done]. }
  unfold bind at 1.
  set (tr2 := tr ++ [Waiting] ++ (if skip then [CountdownSkipped] else [])).
  assert (Hcl2 : browsers_closed false tr2 = true).
  { apply browsers_closed_app; [done|]. by destruct skip. }
  assert (Hf2 : fetches tr2 = 0%nat).
  { unfold tr2. destruct skip; tally; lia. }
  assert (Hg2 : generations tr2 = 0%nat).
  { unfold tr2. destruct skip; tally; lia. }
  assert (Hskip : (if skip then emit CountdownSkipped else ret tt)
                    {| journal := (journal w ++ tr) ++ [Waiting] |}
                  = (Ok tt, {| journal := journal w ++ tr2 |})).
  { unfold tr2. destruct skip; unfold emit, ret; cbn;
      by rewrite <- ?app_assoc, ?app_nil_r. }
  rewrite Hskip. clearbody tr2. clear Hskip tr Hcl Hf Hg.
  unfold bind at 1, script2_fetch_reports_for_all_vehicles, emit at 1, bind at 1.
  unfold lift at 1. cbn [journal].
  destruct (fetch_reports_for_all_vehicles E _) as [[]|x].
  2:{ rewrite <- app_assoc. eexists _, _. split; [reflexivity|]. split.
      - by apply browsers_closed_app.
      - tally. rewrite Hf2, Hg2. split; [lia|done]. }
  unfold bind at 1, emit at 1. cbn [journal].
  unfold bind at 1, script3_generate_all_reports, emit at 1, bind at 1.
  unfold lift at 1. cbn [journal].
  destruct (generate_all_reports E _) as [[]|x].
  2:{ rewrite <- !app_assoc. eexists _, _. split; [reflexivity|]. split.
      - by apply browsers_closed_app.
      - tally. rewrite Hf2, Hg2. split; [lia|done]. }
  unfold emit. cbn [journal]. rewrite <- !app_assoc.
  eexists _, _. split; [reflexivity|]. split.
  - by apply browsers_closed_app.
  - tally. rewrite Hf2, Hg2. split; [lia|]. intros _. split; lia.
Qed.

(** X19. On every path of [main] every browser that was launched has been closed
    when [main] ends; script 2 is called at most once, script 3 at most once
    and only after script 2; and a [main] that returns has called both. *)
Theorem main_leaves_no_browser_open (E : env) (w : world) :
  exists r tr,
    main E w = (r, {| journal := journal w ++ tr |}) /\
    browsers_closed false tr = true /\
    (generations tr <= fetches tr <= 1)%nat /\
    (r = Ok tt -> fetches tr = 1%nat /\ generations tr = 1%nat).
Proof. apply main_run. Qed.

End OctopusFacts.

(** ** Launcher.py: the script runner *)

Module LauncherGUIFacts.
Import Py Octopus LauncherGUI OctopusFacts.

(** What a flow leaves behind, whatever its scripts did: the buttons are
    enabled, the status is back to [Ready], and one dialog was shown. *)
Definition flow_ends (script_number : nat) (g g' : gui) (d : dialog) : Prop :=
  buttons_enabled g' = true /\ status_label g' = Ready /\
  dialogs g' = dialogs g ++ [d] /\
  (d = ShowInfo script_number \/ exists e, d = ShowError e).

Lemma flow3_run (E : env) (g : gui) :
  exists g' d,
    run_script3_only E g = (Ok tt, g') /\ flow_ends 3 g g' d /\
    (d = ShowInfo 3 ->
     generations (journal (pipeline g')) = (generations (journal (pipeline g)) + 1)%nat).
Proof.
  unfold run_script3_only, try_finally, try_except, bind, call,
    script3_generate_all_reports, bind, emit, lift, messagebox, enable_buttons,
    status_label_config.
  cbn [journal].
  destruct (generate_all_reports E _) as [[]|x]; cbn -[generations fetches];
    eexists _, _; (split; [reflexivity|]); cbn -[generations fetches].
  - split; [unfold flow_ends; cbn; eauto|]. intros _. tally. lia.
  - split; [unfold flow_ends; cbn; eauto 6|]. done.
Qed.

Lemma flow2_run (E : env) (g : gui) :
  exists g' d,
    run_script2_flow E g = (Ok tt, g') /\ flow_ends 2 g g' d /\
    (d = ShowInfo 2 ->
     fetches (journal (pipeline g')) = (fetches (journal (pipeline g)) + 1)%nat /\
     generations (journal (pipeline g')) = (generations (journal (pipeline g)) + 1)%nat).
Proof.
  unfold run_script2_flow, try_finally, try_except, bind, call,
    script2_fetch_reports_for_all_vehicles, script3_generate_all_reports, bind, emit,
    lift, messagebox, enable_buttons, status_label_config.
  cbn [journal].
  destruct (fetch_reports_for_all_vehicles E _) as [[]|x]; cbn -[generations fetches].
  2:{ eexists _, _. split; [reflexivity|]. cbn -[generations fetches].
      split; [unfold flow_ends; cbn; eauto 6|]. done. }
  destruct (generate_all_reports E _) as [[]|x]; cbn -[generations fetches];
    eexists _, _; (split; [reflexivity|]); cbn -[generations fetches].
  - split; [unfold flow_ends; cbn; eauto|]. intros _. tally. lia.
  - split; [unfold flow_ends; cbn; eauto 6|]. done.
Qed.

Lemma flow1_run (E : env) (g : gui) :
  exists g' d,
    run_script1_flow E g = (Ok tt, g') /\ flow_ends 1 g g' d /\
    (d = ShowInfo 1 ->
     fetches (journal (pipeline g')) = (fetches (journal (pipeline g)) + 2)%nat /\
     generations (journal (pipeline g')) = (generations (journal (pipeline g)) + 2)%nat).
Proof.
  destruct (main_run E (pipeline g)) as (r & tr & Hmain & _ & _ & Hok).
  unfold run_script1_flow, try_finally, try_except, bind, call. rewrite Hmain.
  unfold script2_fetch_reports_for_all_vehicles, script3_generate_all_reports, bind,
    emit, lift, messagebox, enable_buttons, status_label_config.
  cbn [journal pipeline].
  destruct r as [[]|x]; cbn -[generations fetches].
  2:{ eexists _, _. split; [reflexivity|]. cbn -[generations fetches].
      split; [unfold flow_ends; cbn; eauto 6|]. done. }
  destruct (Hok eq_refl) as [Hf Hg].
  destruct (fetch_reports_for_all_vehicles E _) as [[]|x]; cbn -[generations fetches].
  2:{ eexists _, _. split; [reflexivity|]. cbn -[generations fetches].
      split; [unfold flow_ends; cbn; eauto 6|]. done. }
  destruct (generate_all_reports E _) as [[]|x]; cbn -[generations fetches];
    eexists _, _; (split; [reflexivity|]); cbn -[generations fetches].
  - split; [unfold flow_ends; cbn; eauto|]. intros _. tally. lia.
  - split; [unfold flow_ends; cbn; eauto 6|]. done.
Qed.

(** X20. Whatever the scripts of a flow do, the flow shows one dialog, the
    success text of the flow or the error, and then gives the buttons
    back and sets the status to [Ready]; the exception of a script never
    leaves the flow. *)
Theorem run_script_gives_the_buttons_back (E : env) (script_number : nat) (g : gui) :
  (1 <= script_number <= 3)%nat ->
  exists g' d,
    run_script E script_number g = (Ok tt, g') /\
    buttons_enabled g' = true /\ status_label g' = Ready /\
    dialogs g' = dialogs g ++ [d] /\
    (d = ShowInfo script_number \/ exists e, d = ShowError e).
Proof.
  intros Hn. unfold run_script, bind, disable_buttons, status_label_config.
  destruct script_number as [|[|[|[|n]]]]; try lia.
  - match goal with |- context [run_script1_flow E ?g1] =>
      destruct (flow1_run E g1) as (g' & d & -> & Hends & _) end.
    by exists g', d.
  - match goal with |- context [run_script2_flow E ?g1] =>
      destruct (flow2_run E g1) as (g' & d & -> & Hends & _) end.
    by exists g', d.
  - match goal with |- context [run_script3_only E ?g1] =>
      destruct (flow3_run E g1) as (g' & d & -> & Hends & _) end.
    by exists g', d.
Qed.

(** X21. The first flow calls [script1.main], which runs all three phases, and
    then script 2 and script 3 again: when it ends with its success text,
    script 2 and script 3 have each been called twice. *)
Theorem run_script1_flow_calls_the_later_scripts_twice (E : env) (g g' : gui)
    (r : result unit) :
  run_script1_flow E g = (r, g') ->
  last (dialogs g') = Some (ShowInfo 1) ->
  fetches (journal (pipeline g')) = (fetches (journal (pipeline g)) + 2)%nat /\
  generations (journal (pipeline g')) = (generations (journal (pipeline g)) + 2)%nat.
Proof.
  intros Hrun Hlast.
  destruct (flow1_run E g) as (g1 & d & Hrun1 & (_ & _ & Hd & _) & Htwice).
  rewrite Hrun in Hrun1. injection Hrun1 as -> ->.
  rewrite Hd, last_snoc in Hlast. injection Hlast as ->. by apply Htwice.
Qed.

End LauncherGUIFacts.

(** ** report_generator.py: the report of one vehicle *)

Module VehicleReportFacts.
Import Py VehicleReport StrFacts.

(** The report that is saved is a file that the loop of line 182 deletes at
    the next run, and that [script4.py] takes for the report to upload. *)
Lemma report_name_is_report (vehicle_folder : string) :
  is_report (report_name vehicle_folder) = true.
Proof.
  unfold is_report, report_name. apply andb_true_iff. split.
  - rewrite <- app_assoc_s, lower_app. apply endswith_app.
  - unfold Str.startswith.
    change ("temp_report_" +:+ os_path_basename vehicle_folder +:+ ".docx")
      with (String "t" (String "e" (String "m" (String "p" (String "_" (String "r"
           (String "e" (String "p" (String "o" (String "r" (String "t" (String "_"
           (os_path_basename vehicle_folder +:+ ".docx"))))))))))))).
    apply String.prefix_correct. cbn. by destruct (_ +:+ _).
Qed.

(** *** The loop that deletes the old reports *)

Definition remove_report (E : env) (m : gmap string content) (f : string)
  : gmap string content :=
  if is_report f && os_remove_ok E f then delete f m else m.

Lemma set_folder_id (folder : string) (files : gmap string content) (w : world) :
  disk w !! folder = Some files -> set_folder folder files w = w.
Proof. intros H. unfold set_folder. rewrite insert_id by done. by destruct w. Qed.

Lemma set_folder_twice (folder : string) (a b : gmap string content) (w : world) :
  set_folder folder b (set_folder folder a w) = set_folder folder b w.
Proof. unfold set_folder. cbn. by rewrite insert_insert_eq. Qed.

Lemma removal_run (E : env) (folder : string) (l : list string)
    (files : gmap string content) (w : world) :
  disk w !! folder = Some files ->
  for_each l (fun f => if is_report f
                       then try_except (os_remove E folder f) (fun _ => ret tt)
                       else ret tt) w
  = (Ok tt, set_folder folder (foldl (remove_report E) files l) w).
Proof.
  revert files w. induction l as [|f l IH]; intros files w Hfolder.
  - cbn. unfold ret. by rewrite set_folder_id.
  - cbn [for_each foldl]. unfold bind at 1. unfold remove_report at 2.
    destruct (is_report f) eqn:Hrep; cbn [andb].
    + unfold try_except, os_remove. rewrite Hfolder.
      destruct (os_remove_ok E f) eqn:Hok; cbn [andb].
      * destruct (bool_decide (is_Some (files !! f))) eqn:Hin.
        -- rewrite (IH (delete f files)); [by rewrite set_folder_twice|].
           apply lookup_insert_eq.
        -- unfold ret. apply bool_decide_eq_false in Hin.
           rewrite delete_id by by apply eq_None_not_Some. by apply IH.
      * unfold ret. by apply IH.
    + unfold ret at 1. by apply IH.
Qed.

Lemma removed_lookup (E : env) (l : list string) (files : gmap string content)
    (n : string) :
  foldl (remove_report E) files l !! n
  = if is_report n && os_remove_ok E n && bool_decide (n ∈ l) then None else files !! n.
Proof.
  revert files. induction l as [|f l IH]; intros files.
  - cbn. by rewrite andb_false_r.
  - cbn [foldl]. rewrite IH. unfold remove_report.
    destruct (decide (n = f)) as [->|Hne].
    + rewrite (bool_decide_eq_true_2 (f ∈ f :: l)) by left. rewrite andb_true_r.
      destruct (is_report f && os_remove_ok E f) eqn:Hdel.
      * rewrite lookup_delete_eq. by destruct (bool_decide _).
      * done.
    + assert (Hin : bool_decide (n ∈ f :: l) = bool_decide (n ∈ l)).
      { apply bool_decide_ext. rewrite elem_of_cons. split; [by intros [?|?]|by right]. }
      rewrite Hin. destruct (is_report f && os_remove_ok E f).
      * by rewrite lookup_delete_ne.
      * done.
Qed.

(** The folder once the old reports are deleted. *)
Lemma cleared_lookup (E : env) (files : gmap string content) (n : string) :
  foldl (remove_report E) files (map_to_list files).*1 !! n
  = if is_report n && os_remove_ok E n then None else files !! n.
Proof.
  rewrite removed_lookup. destruct (is_report n && os_remove_ok E n); [|done].
  cbn [andb]. destruct (files !! n) as [c|] eqn:Hn.
  - rewrite bool_decide_eq_true_2; [done|].
    apply list_elem_of_fmap. exists (n, c). split; [done|]. by apply elem_of_map_to_list.
  - by destruct (bool_decide _).
Qed.

(** *** The frames *)

Lemma read_frames_run (folder : string) (l : list string) (w : world) :
  exists r, read_frames folder l w = (Ok r, w).
Proof.
  unfold read_frames. generalize (@nil (string * nat), 0%nat).
  induction l as [|f l IH]; intros acc.
  - by exists acc.
  - cbn [for_fold]. unfold bind at 1 2, try_except, pd_read_excel, ret.
    destruct (disk w !! folder) as [files|]; [|apply IH].
    destruct (files !! f) as [[rows| |]|]; try apply IH.
    destruct (rows =? 0)%nat; apply IH.
Qed.

(** The rows of the window stay the rows of the window. *)
Definition same_rows (w w' : world) : Prop :=
  forall k, is_Some (vehicle_widgets w' !! k) <-> is_Some (vehicle_widgets w !! k).

Lemma same_rows_refl (w : world) : same_rows w w.
Proof. by intros k. Qed.

Lemma same_rows_trans (w1 w2 w3 : world) :
  same_rows w1 w2 -> same_rows w2 w3 -> same_rows w1 w3.
Proof. intros H12 H23 k. rewrite (H23 k). apply (H12 k). Qed.

Lemma progress_wrapper_run (gui : bool) (v_name : string) (pct : Z) (msg : status)
    (w : world) :
  exists w', progress_wrapper gui v_name pct msg w = (Ok tt, w') /\ disk w' = disk w /\
             same_rows w w'.
Proof.
  unfold progress_wrapper, update_progress, print. destruct gui.
  - destruct (vehicle_widgets w !! v_name) as [x|] eqn:Hx.
    + eexists. split; [done|]. split; [done|]. intros k. cbn.
      destruct (decide (k = v_name)) as [->|Hne].
      * rewrite lookup_insert_eq, Hx. split; by eexists.
      * by rewrite lookup_insert_ne.
    + eexists. split; [done|]. split; [done|]. apply same_rows_refl.
  - eexists. split; [done|]. split; [done|]. by intros k.
Qed.

(** What a run leaves in the folder: the folder without the old reports,
    with the new report when one was saved. *)
Lemma generate_run (E : env) (gui : bool) (vehicle_folder : string)
    (files : gmap string content) (w : world) :
  disk w !! vehicle_folder = Some files ->
  let cleared := foldl (remove_report E) files (map_to_list files).*1 in
  exists w' files',
    generate_report_for_vehicle E vehicle_folder (progress_wrapper gui) w = (Ok tt, w') /\
    disk w' = <[vehicle_folder := files']> (disk w) /\
    same_rows w w' /\
    (files' = cleared \/
     files' = <[report_name vehicle_folder := Document]> cleared /\
     filter (fun f => is_xlsx f = true) (map_to_list cleared).*1 <> []).
Proof.
  intros Hfolder cleared. unfold generate_report_for_vehicle.
  unfold bind at 1, os_listdir at 1. rewrite Hfolder.
  unfold bind at 1. rewrite (removal_run E vehicle_folder _ files w Hfolder).
  fold cleared. unfold bind at 1, os_listdir at 1, set_folder at 1. cbn [disk].
  rewrite lookup_insert_eq.
  set (w1 := set_folder vehicle_folder cleared w).
  assert (Hd1 : disk w1 = <[vehicle_folder := cleared]> (disk w)) by done.
  assert (Hr1 : same_rows w w1) by by intros k.
  destruct (filter (fun f => is_xlsx f = true) (map_to_list cleared).*1)
    as [|x xs] eqn:Hxlsx.
  { destruct (progress_wrapper_run gui (os_path_basename vehicle_folder) 0
                (NoExcelFiles vehicle_folder) w1) as (w' & -> & Hd & Hr).
    exists w', cleared. split; [done|]. split; [by rewrite Hd|]. split; [|by left].
    by apply (same_rows_trans w w1). }
  unfold try_except, bind at 1.
  destruct (read_frames_run vehicle_folder (x :: xs) w1) as ([all_dfs total_rows] & ->).
  destruct (total_rows =? 0)%nat.
  { destruct (progress_wrapper_run gui (os_path_basename vehicle_folder) 0 AllEmpty w1)
      as (w' & -> & Hd & Hr).
    exists w', cleared. split; [done|]. split; [by rewrite Hd|]. split; [|by left].
    by apply (same_rows_trans w w1). }
  unfold bind at 1.
  destruct (progress_wrapper_run gui (os_path_basename vehicle_folder) 1
              (Found (length all_dfs) total_rows) w1) as (w2 & -> & Hd2 & Hr2).
  unfold bind at 1, lift.
  destruct (build_and_save E all_dfs) as [[]|e].
  2:{ destruct (progress_wrapper_run gui (os_path_basename vehicle_folder) 0 (Error e) w2)
        as (w' & -> & Hd & Hr).
      exists w', cleared. split; [done|]. split; [by rewrite Hd, Hd2|].
      split; [|by left].
      apply (same_rows_trans w w2); [|done]. by apply (same_rows_trans w w1). }
  unfold bind at 1, saved. rewrite Hd2, Hd1, lookup_insert_eq.
  match goal with |- context [progress_wrapper gui ?a ?b ?c ?w3] =>
    destruct (progress_wrapper_run gui a b c w3) as (w' & -> & Hd & Hr) end.
  exists w', (<[report_name vehicle_folder := Document]> cleared).
  split; [done|]. split; [|split].
  - rewrite Hd. unfold set_folder. cbn [disk]. by rewrite Hd2, Hd1, insert_insert_eq.
  - intros k. rewrite (Hr k). unfold set_folder. cbn [vehicle_widgets].
    rewrite (Hr2 k). apply (Hr1 k).
  - right. by split.
Qed.

(** X22. On a folder that is there the run never raises, and it leaves alone the
    other folders and every file that is no report: no sheet is changed or
    deleted. *)
Theorem generate_report_keeps_the_sheets (E : env) (gui : bool)
    (vehicle_folder : string) (files : gmap string content) (w : world) :
  disk w !! vehicle_folder = Some files ->
  exists w' files',
    generate_report_for_vehicle E vehicle_folder (progress_wrapper gui) w = (Ok tt, w') /\
    disk w' = <[vehicle_folder := files']> (disk w) /\
    forall n, is_report n = false -> files' !! n = files !! n.
Proof.
  intros Hfolder.
  destruct (generate_run E gui vehicle_folder files w Hfolder)
    as (w' & files' & Hrun & Hdisk & _ & Hfiles).
  exists w', files'. split; [done|]. split; [done|]. intros n Hn.
  destruct Hfiles as [->|[-> _]].
  - by rewrite cleared_lookup, Hn.
  - rewrite lookup_insert_ne.
    + by rewrite cleared_lookup, Hn.
    + intros <-. by rewrite report_name_is_report in Hn.
Qed.

(** X23. The old reports are deleted before the sheets are looked at: when the
    removals go through, the only report in the folder after a run is the
    one the run saved, if any; a folder without a sheet is left without a
    report. *)
Theorem generate_report_deletes_the_old_reports (E : env) (gui : bool)
    (vehicle_folder : string) (files : gmap string content) (w : world) :
  disk w !! vehicle_folder = Some files ->
  (forall n, os_remove_ok E n = true) ->
  exists w' files',
    generate_report_for_vehicle E vehicle_folder (progress_wrapper gui) w = (Ok tt, w') /\
    disk w' = <[vehicle_folder := files']> (disk w) /\
    (forall n c, is_report n = true -> files' !! n = Some c ->
                 n = report_name vehicle_folder /\ c = Document) /\
    ((forall n c, files !! n = Some c -> is_xlsx n = false) ->
     forall n, is_report n = true -> files' !! n = None).
Proof.
  intros Hfolder Hok.
  destruct (generate_run E gui vehicle_folder files w Hfolder)
    as (w' & files' & Hrun & Hdisk & _ & Hfiles).
  exists w', files'. split; [done|]. split; [done|]. split.
  - intros n c Hn Hc. destruct Hfiles as [->|[-> _]].
    + by rewrite cleared_lookup, Hn, Hok in Hc.
    + destruct (decide (n = report_name vehicle_folder)) as [->|Hne].
      * rewrite lookup_insert_eq in Hc. by injection Hc as <-.
      * rewrite lookup_insert_ne in Hc by done.
        by rewrite cleared_lookup, Hn, Hok in Hc.
  - intros Hnone n Hn. destruct Hfiles as [->|[-> Hxlsx]].
    + by rewrite cleared_lookup, Hn, Hok.
    + destruct Hxlsx. apply (EmailFacts.filter_none (fun f => is_xlsx f = true)).
      intros f Hf%list_elem_of_fmap. destruct Hf as ([f' c] & -> & Hin). cbn.
      apply elem_of_map_to_list in Hin. rewrite cleared_lookup in Hin.
      destruct (is_report f' && os_remove_ok E f'); [done|].
      rewrite (Hnone f' c Hin). done.
Qed.

Lemma filter_only {A} (P : A -> Prop) `{forall x, Decision (P x)} (l : list A) (a : A) :
  NoDup l -> a ∈ l -> P a -> (forall x, x ∈ l -> P x -> x = a) -> filter P l = [a].
Proof.
  induction l as [|x l IH]; intros Hnd Ha HP Hall; [by apply elem_of_nil in Ha|].
  apply NoDup_cons in Hnd as [Hx Hnd]. rewrite filter_cons.
  destruct (decide (P x)) as [HPx|HPx].
  - assert (x = a) as -> by (apply Hall; [left|done]). f_equal.
    apply EmailFacts.filter_none. intros y Hy HPy.
    assert (y = a) as -> by (apply Hall; [by right|done]). done.
  - apply IH; try done.
    + apply elem_of_cons in Ha as [->|Ha]; done.
    + intros y Hy. apply Hall. by right.
Qed.

Lemma reports_after_run (E : env) (gui : bool)
    (vehicle_folder : string) (files : gmap string content) (w : world) :
  disk w !! vehicle_folder = Some files ->
  (forall n, os_remove_ok E n = true) ->
  exists w' files',
    generate_report_for_vehicle E vehicle_folder (progress_wrapper gui) w = (Ok tt, w') /\
    disk w' !! vehicle_folder = Some files' /\
    (filter (fun f => is_report f = true) (map_to_list files').*1 = [] \/
     filter (fun f => is_report f = true) (map_to_list files').*1
     = [report_name vehicle_folder] /\
     files' !! report_name vehicle_folder = Some Document).
Proof.
  intros Hfolder Hok.
  destruct (generate_run E gui vehicle_folder files w Hfolder)
    as (w' & files' & Hrun & Hdisk & _ & Hfiles).
  exists w', files'. split; [done|]. split; [by rewrite Hdisk, lookup_insert_eq|].
  assert (Hgone : forall n c,
            foldl (remove_report E) files (map_to_list files).*1 !! n = Some c ->
            is_report n = false).
  { intros n c Hn. rewrite cleared_lookup, Hok, andb_true_r in Hn.
    by destruct (is_report n). }
  destruct Hfiles as [->|[-> _]].
  - left. apply EmailFacts.filter_none. intros n Hn%list_elem_of_fmap.
    destruct Hn as ([n' c] & -> & Hin). apply elem_of_map_to_list in Hin. cbn.
    by rewrite (Hgone n' c Hin).
  - right. split; [|apply lookup_insert_eq]. apply filter_only.
    + apply NoDup_fst_map_to_list.
    + apply list_elem_of_fmap. exists (report_name vehicle_folder, Document).
      split; [done|]. apply elem_of_map_to_list, lookup_insert_eq.
    + apply report_name_is_report.
    + intros n Hn%list_elem_of_fmap Hrep. destruct Hn as ([n' c] & -> & Hin).
      apply elem_of_map_to_list in Hin. cbn in *.
      destruct (decide (n' = report_name vehicle_folder)) as [->|Hne]; [done|].
      rewrite lookup_insert_ne in Hin by done. by rewrite (Hgone n' c Hin) in Hrep.
Qed.

(** X24. After a run whose removals went through, the listing of the folder has
    at most one report file, and then it is the report of this run: what
    [script4.py] takes as [report_files[0]] is never a report of an earlier
    run. *)
Theorem generate_report_leaves_one_report_at_most (E : env) (gui : bool)
    (vehicle_folder : string) (files : gmap string content) (w : world) :
  disk w !! vehicle_folder = Some files ->
  (forall n, os_remove_ok E n = true) ->
  exists w' files',
    generate_report_for_vehicle E vehicle_folder (progress_wrapper gui) w = (Ok tt, w') /\
    disk w' !! vehicle_folder = Some files' /\
    (filter (fun f => is_report f = true) (map_to_list files').*1 = [] \/
     filter (fun f => is_report f = true) (map_to_list files').*1
     = [report_name vehicle_folder] /\
     files' !! report_name vehicle_folder = Some Document).
Proof. apply reports_after_run. Qed.

(** X25. With a window, the last word on a vehicle is [Done] at 100: the task
    marks the row of the vehicle as done whenever the generator returns,
    and the generator returns whether it saved a report, found no sheet or
    caught an error. *)
Theorem task_marks_done_whatever_happened (E : env) (folder : string)
    (files : gmap string content) (x : Z * status) (w : world) :
  disk w !! folder = Some files ->
  vehicle_widgets w !! os_path_basename folder = Some x ->
  exists w',
    task E true folder w = (Ok (PyStr (os_path_basename folder)), w') /\
    vehicle_widgets w' !! os_path_basename folder = Some (100, Done).
Proof.
  intros Hfolder Hrow. unfold task. unfold bind at 1.
  destruct (progress_wrapper_run true (os_path_basename folder) 0
              (Starting (os_path_basename folder)) w) as (w1 & -> & Hd1 & Hr1).
  unfold bind at 1.
  destruct (generate_run E true folder files w1) as (w2 & files' & -> & _ & Hr2 & _).
  { by rewrite Hd1. }
  unfold bind, mark_vehicle_done, ret.
  assert (Hrow2 : is_Some (vehicle_widgets w2 !! os_path_basename folder)).
  { apply Hr2, Hr1. by eexists. }
  destruct Hrow2 as [y ->]. eexists. split; [reflexivity|]. cbn.
  apply lookup_insert_eq.
Qed.

(** X26. The column chosen is the first candidate that the frame has, whatever
    comes later in the list; there is none only when the frame has none of
    the candidates. *)
Theorem get_closest_column_takes_the_first (df_cols candidates : list string) :
  match get_closest_column df_cols candidates with
  | Some name =>
      exists before after,
        candidates = before ++ name :: after /\ name ∈ df_cols /\
        forall c, c ∈ before -> c ∉ df_cols
  | None => forall c, c ∈ candidates -> c ∉ df_cols
  end.
Proof.
  induction candidates as [|name rest IH]; cbn.
  - by intros c ?%elem_of_nil.
  - destruct (bool_decide (name ∈ df_cols)) eqn:Hin.
    + apply bool_decide_eq_true in Hin. exists [], rest. split; [done|]. split; [done|].
      by intros c ?%elem_of_nil.
    + apply bool_decide_eq_false in Hin.
      destruct (get_closest_column df_cols rest) as [found|].
      * destruct IH as (before & after & -> & Hfound & Hbefore).
        exists (name :: before), after. split; [done|]. split; [done|].
        intros c [->|Hc]%elem_of_cons; [done|by apply Hbefore].
      * intros c [->|Hc]%elem_of_cons; [done|by apply IH].
Qed.

End VehicleReportFacts.

(** ** script4.py: the upload of one vehicle *)

Module UploadFacts.
Import Py Upload.
Local Open Scope nat_scope.

Lemma filter_ext_in {A} (P Q : A -> Prop) `{forall x, Decision (P x)}
    `{forall x, Decision (Q x)} (l : list A) :
  (forall x, x ∈ l -> P x <-> Q x) -> filter P l = filter Q l.
Proof.
  induction l as [|x l IH]; intros Hl; [done|]. rewrite !filter_cons.
  rewrite IH by (intros y Hy; apply Hl; by right).
  destruct (decide (P x)) as [HP|HP], (decide (Q x)) as [HQ|HQ]; try done.
  - destruct HQ. by apply (Hl x); [left|].
  - destruct HP. by apply (Hl x); [left|].
Qed.

Lemma filter_all {A} (P : A -> Prop) `{forall x, Decision (P x)} (l : list A) :
  (forall x, x ∈ l -> P x) -> filter P l = l.
Proof.
  induction l as [|x l IH]; intros Hl; [done|].
  rewrite filter_cons_True by (apply Hl; left). f_equal. apply IH.
  intros y Hy. apply Hl. by right.
Qed.

Lemma filter_nothing {A} (P : A -> Prop) `{forall x, Decision (P x)} (l : list A) :
  (forall x, x ∈ l -> ~ P x) -> filter P l = [].
Proof.
  induction l as [|x l IH]; intros Hl; [done|].
  rewrite filter_cons_False by (apply Hl; left). apply IH.
  intros y Hy. apply Hl. by right.
Qed.

Lemma ids_inj (l : list item) (x y : item) :
  NoDup (item_id <$> l) -> x ∈ l -> y ∈ l -> item_id x = item_id y -> x = y.
Proof.
  induction l as [|z l IH]; intros Hnd Hx Hy Hxy; [by apply elem_of_nil in Hx|].
  rewrite fmap_cons in Hnd. apply NoDup_cons in Hnd as [Hz Hnd].
  apply elem_of_cons in Hx as [->|Hx], Hy as [->|Hy]; try done.
  - destruct Hz. rewrite Hxy. by apply list_elem_of_fmap_2.
  - destruct Hz. rewrite <- Hxy. by apply list_elem_of_fmap_2.
  - by apply IH.
Qed.

Lemma ids_filter (P : item -> Prop) `{forall x, Decision (P x)} (l : list item) :
  NoDup (item_id <$> l) -> NoDup (item_id <$> filter P l).
Proof.
  intros Hnd. apply (sublist_NoDup _ (item_id <$> l)); [done|].
  apply fmap_sublist, sublist_filter.
Qed.

(** *** delete_existing_docs *)

Lemma delete_loop (l : list item) (w : world) :
  NoDup (item_id <$> l) -> (forall g, g ∈ l -> g ∈ items w) ->
  for_each l (fun f => delete (item_id f)) w
  = (Ok tt, {| items := filter (fun it => item_id it ∉ item_id <$> l) (items w);
               next_id := next_id w; progress := progress w |}).
Proof.
  revert w. induction l as [|f l IH]; intros w Hnd Hin.
  - cbn. unfold ret. rewrite filter_all; [by destruct w|].
    intros x _. apply not_elem_of_nil.
  - rewrite fmap_cons in Hnd. apply NoDup_cons in Hnd as [Hf Hnd].
    cbn [for_each]. unfold bind, delete at 1.
    rewrite bool_decide_eq_true_2 by (apply list_elem_of_fmap_2, Hin; left).
    rewrite IH; [|done|].
    + cbn [items next_id progress]. do 2 f_equal.
      rewrite list_filter_filter. apply list_filter_iff. intros x.
      rewrite fmap_cons, not_elem_of_cons. tauto.
    + intros g Hg. cbn [items]. apply list_elem_of_filter. split; [|apply Hin; by right].
      intros Heq. apply Hf. rewrite <- Heq. by apply list_elem_of_fmap_2.
Qed.

Lemma delete_existing_docs_run (folder_id : nat) (w : world) :
  NoDup (item_id <$> items w) ->
  delete_existing_docs folder_id w
  = (Ok tt, {| items := filter (fun it => is_doc_in folder_id it = false) (items w);
               next_id := next_id w; progress := progress w |}).
Proof.
  intros Hnd. unfold delete_existing_docs. rewrite delete_loop.
  - do 2 f_equal. apply filter_ext_in. intros x Hx. split.
    + intros Hnot. apply not_true_is_false. intros Hdoc. apply Hnot.
      apply list_elem_of_fmap_2, list_elem_of_filter. by split.
    + intros Hdoc Hid. apply list_elem_of_fmap in Hid as (g & Hid & Hg).
      apply list_elem_of_filter in Hg as [Hg Hgin].
      assert (x = g) as -> by by apply (ids_inj (items w)). congruence.
  - by apply ids_filter.
  - intros g Hg. by apply list_elem_of_filter in Hg as [_ ?].
Qed.

(** *** upload_vehicle_report *)

(** The Drive once [get_or_create_folder] has run. *)
Definition with_folder (root_folder_id : nat) (vehicle_name : string) (w : world)
  : nat * list item * nat :=
  match folder_id_of root_folder_id vehicle_name (items w) with
  | Some i => (i, items w, next_id w)
  | None =>
      (next_id w,
       items w ++ [{| item_id := next_id w; item_name := vehicle_name;
                      item_kind := Folder; item_parent := Some root_folder_id |}],
       S (next_id w))
  end.

Lemma get_or_create_folder_run (root_folder_id : nat) (vehicle_name : string) (w : world) :
  let '(i, l, n) := with_folder root_folder_id vehicle_name w in
  get_or_create_folder (Some root_folder_id) vehicle_name w
  = (Ok i, {| items := l; next_id := n; progress := progress w |}).
Proof.
  unfold with_folder, folder_id_of, get_or_create_folder, create.
  destruct (filter _ (items w)) as [|f fs]; cbn; [done|]. by destruct w.
Qed.

Lemma with_folder_wf (root_folder_id : nat) (vehicle_name : string) (w : world) :
  wf w ->
  let '(i, l, n) := with_folder root_folder_id vehicle_name w in
  NoDup (item_id <$> l) /\ (forall it, it ∈ l -> item_id it < n) /\
  folder_id_of root_folder_id vehicle_name l = Some i /\
  (forall it, it ∈ items w -> it ∈ l) /\
  docs_in i l = docs_in i (items w).
Proof.
  intros [Hnd Hlt]. unfold with_folder.
  destruct (folder_id_of root_folder_id vehicle_name (items w)) as [i|] eqn:Hi.
  - done.
  - split; [|split; [|split; [|split]]].
    + rewrite fmap_app. apply NoDup_app. split; [done|]. split; [|apply NoDup_singleton].
      intros x Hx Hx'. cbn in Hx'. apply list_elem_of_singleton in Hx'. subst x.
      apply list_elem_of_fmap in Hx as (it & Hid & Hit). apply Hlt in Hit. lia.
    + intros it [Hit|Hit]%elem_of_app; [apply Hlt in Hit; lia|].
      apply list_elem_of_singleton in Hit. subst it. cbn. lia.
    + unfold folder_id_of in *. rewrite filter_app.
      apply fmap_None, head_None in Hi. rewrite Hi, app_nil_l.
      rewrite filter_cons_True; [done|]. unfold is_folder_named. cbn.
      rewrite String.eqb_refl. by rewrite !bool_decide_eq_true_2.
    + intros it Hit. apply elem_of_app. by left.
    + unfold docs_in. rewrite filter_app, filter_cons_False, filter_nil, app_nil_r; [done|].
      unfold is_doc_in. cbn [item_kind item_parent].
      rewrite (bool_decide_eq_false_2 (Folder = Docx)) by done.
      by rewrite andb_false_r.
Qed.

Lemma upload_run (E : env) (vehicle_folder : string) (root_folder_id : nat)
    (names : list string) (w : world) :
  wf w -> os_listdir E vehicle_folder = Ok names ->
  let vehicle_name := os_path_basename vehicle_folder in
  let '(i, l, n) := with_folder root_folder_id vehicle_name w in
  upload_vehicle_report E vehicle_folder root_folder_id w
  = (Ok tt,
     match filter (fun f => VehicleReport.is_report f = true) names with
     | [] => {| items := l; next_id := n;
                progress := progress w ++ [(vehicle_name, 0%Z, NoReport)] |}
     | f :: _ =>
         let fname := os_path_basename (os_path_join vehicle_folder f) in
         {| items := filter (fun it => is_doc_in i it = false) l
                     ++ [{| item_id := n; item_name := fname; item_kind := Docx;
                            item_parent := Some i |}];
            next_id := S n;
            progress := progress w ++ [(vehicle_name, 5%Z, Preparing);
                                       (vehicle_name, 50%Z, OldFilesDeleted);
                                       (vehicle_name, 100%Z, Uploaded fname)] |}
     end).
Proof.
  intros Hwf Hnames vehicle_name.
  pose proof (get_or_create_folder_run root_folder_id vehicle_name w) as Hget.
  pose proof (with_folder_wf root_folder_id vehicle_name w Hwf) as Hwith.
  destruct (with_folder root_folder_id vehicle_name w) as [[i l] n].
  destruct Hwith as (Hnd & _).
  unfold upload_vehicle_report. fold vehicle_name. rewrite Hnames.
  unfold bind at 1, lift. unfold bind at 1. rewrite Hget.
  destruct (filter _ names) as [|f fs]; [done|].
  unfold bind at 1, progress_cb at 1. unfold bind at 1.
  rewrite delete_existing_docs_run by done. cbn [items next_id progress].
  unfold bind, progress_cb, upload_docx, bind, create, ret. cbn [items next_id progress].
  by rewrite <- !app_assoc.
Qed.

Lemma upload_replaces (E : env) (vehicle_folder : string)
    (root_folder_id : nat) (names : list string) (f : string) (rest : list string)
    (w : world) :
  wf w -> os_listdir E vehicle_folder = Ok names ->
  filter (fun f => VehicleReport.is_report f = true) names = f :: rest ->
  exists w' folder_id doc,
    upload_vehicle_report E vehicle_folder root_folder_id w = (Ok tt, w') /\
    wf w' /\
    folder_id_of root_folder_id (os_path_basename vehicle_folder) (items w')
    = Some folder_id /\
    docs_in folder_id (items w') = [doc] /\
    item_name doc = os_path_basename (os_path_join vehicle_folder f) /\
    (forall it, it ∈ items w -> is_doc_in folder_id it = false -> it ∈ items w').
Proof.
  intros Hwf Hnames Hreports.
  pose proof (upload_run E vehicle_folder root_folder_id names w Hwf Hnames) as Hrun.
  pose proof (with_folder_wf root_folder_id (os_path_basename vehicle_folder) w Hwf)
    as Hwith.
  cbv zeta in Hrun.
  destruct (with_folder root_folder_id (os_path_basename vehicle_folder) w) as [[i l] n].
  destruct Hwith as (Hnd & Hlt & Hfolder & Hkeep & _).
  rewrite Hreports in Hrun. cbv zeta in Hrun.
  eexists _, i, _. split; [exact Hrun|]. cbn [items next_id].
  split; [|split; [|split; [|split]]].
  - split; cbn [items next_id].
    + rewrite fmap_app. apply NoDup_app. split; [by apply ids_filter|].
      split; [|apply NoDup_singleton].
      intros x Hx Hx'. cbn in Hx'. apply list_elem_of_singleton in Hx'. subst x.
      apply list_elem_of_fmap in Hx as (it & Hid & Hit).
      apply list_elem_of_filter in Hit as [_ Hit]. apply Hlt in Hit. lia.
    + intros it [Hit|Hit]%elem_of_app.
      * apply list_elem_of_filter in Hit as [_ Hit]. apply Hlt in Hit. lia.
      * apply list_elem_of_singleton in Hit. subst it. cbn. lia.
  - unfold folder_id_of in *. rewrite filter_app, list_filter_filter.
    rewrite filter_cons_False, filter_nil, app_nil_r.
    2:{ unfold is_folder_named. cbn. by rewrite bool_decide_eq_false_2. }
    rewrite <- Hfolder. do 2 f_equal. apply list_filter_iff. intros it.
    split; [by intros [? _]|]. intros Hit. split; [done|].
    unfold is_folder_named, is_doc_in in *.
    apply andb_true_iff in Hit as [[Hk _]%andb_true_iff _].
    apply bool_decide_eq_true in Hk. rewrite Hk.
    by rewrite (bool_decide_eq_false_2 (Folder = Docx)), andb_false_r.
  - unfold docs_in. rewrite filter_app, list_filter_filter.
    rewrite filter_nothing by (intros it _ [H1 H2]; congruence).
    rewrite filter_cons_True; [done|]. unfold is_doc_in. cbn.
    by rewrite !bool_decide_eq_true_2.
  - done.
  - intros it Hit Hdoc. apply elem_of_app. left. apply list_elem_of_filter.
    split; [done|]. by apply Hkeep.
Qed.

(** X27. With a report in the vehicle folder, the Word documents of the folder of
    the vehicle on the Drive are replaced by the report: afterwards that
    folder holds one Word document, named as the first report file of the
    listing; every other item of the Drive is kept. *)
Theorem upload_replaces_the_documents (E : env) (vehicle_folder : string)
    (root_folder_id : nat) (names : list string) (f : string) (rest : list string)
    (w : world) :
  wf w -> os_listdir E vehicle_folder = Ok names ->
  filter (fun f => VehicleReport.is_report f = true) names = f :: rest ->
  exists w' folder_id doc,
    upload_vehicle_report E vehicle_folder root_folder_id w = (Ok tt, w') /\
    wf w' /\
    folder_id_of root_folder_id (os_path_basename vehicle_folder) (items w')
    = Some folder_id /\
    docs_in folder_id (items w') = [doc] /\
    item_name doc = os_path_basename (os_path_join vehicle_folder f) /\
    (forall it, it ∈ items w -> is_doc_in folder_id it = false -> it ∈ items w').
Proof. apply upload_replaces. Qed.

(** X28. Without a report in the vehicle folder nothing is deleted and nothing
    uploaded: the Drive is as before, but for the folder of the vehicle,
    which is made when there was none; one progress call says that there
    is no report. *)
Theorem upload_without_report_deletes_nothing (E : env) (vehicle_folder : string)
    (root_folder_id : nat) (names : list string) (w : world) :
  wf w -> os_listdir E vehicle_folder = Ok names ->
  filter (fun f => VehicleReport.is_report f = true) names = [] ->
  exists w' folder_id,
    upload_vehicle_report E vehicle_folder root_folder_id w = (Ok tt, w') /\
    folder_id_of root_folder_id (os_path_basename vehicle_folder) (items w')
    = Some folder_id /\
    (items w' = items w \/
     items w' = items w ++ [{| item_id := folder_id;
                               item_name := os_path_basename vehicle_folder;
                               item_kind := Folder;
                               item_parent := Some root_folder_id |}]) /\
    docs_in folder_id (items w') = docs_in folder_id (items w) /\
    progress w' = progress w ++ [(os_path_basename vehicle_folder, 0%Z, NoReport)].
Proof.
  intros Hwf Hnames Hreports.
  pose proof (upload_run E vehicle_folder root_folder_id names w Hwf Hnames) as Hrun.
  pose proof (with_folder_wf root_folder_id (os_path_basename vehicle_folder) w Hwf)
    as Hwith.
  cbv zeta in Hrun. unfold with_folder in *.
  destruct (folder_id_of root_folder_id (os_path_basename vehicle_folder) (items w))
    as [i|] eqn:Hi; rewrite Hreports in Hrun; destruct Hwith as (_ & _ & Hfolder & _ & Hdocs);
    eexists _, _; (split; [exact Hrun|]); cbn [items progress];
    (split; [exact Hfolder|]); (split; [auto|]); by split.
Qed.

(** X29. Uploading a second time replaces the document of the first upload, it
    does not add one: after the two uploads the folder of the vehicle on the
    Drive still holds one Word document. *)
Theorem upload_twice_leaves_one_document (E : env) (vehicle_folder : string)
    (root_folder_id : nat) (names : list string) (f : string) (rest : list string)
    (w : world) :
  wf w -> os_listdir E vehicle_folder = Ok names ->
  filter (fun f => VehicleReport.is_report f = true) names = f :: rest ->
  exists w1 w2 folder_id doc,
    upload_vehicle_report E vehicle_folder root_folder_id w = (Ok tt, w1) /\
    upload_vehicle_report E vehicle_folder root_folder_id w1 = (Ok tt, w2) /\
    folder_id_of root_folder_id (os_path_basename vehicle_folder) (items w1)
    = Some folder_id /\
    folder_id_of root_folder_id (os_path_basename vehicle_folder) (items w2)
    = Some folder_id /\
    docs_in folder_id (items w2) = [doc] /\
    item_name doc = os_path_basename (os_path_join vehicle_folder f).
Proof.
  intros Hwf Hnames Hreports.
  pose proof (upload_run E vehicle_folder root_folder_id names w Hwf Hnames) as Hrun1.
  pose proof (with_folder_wf root_folder_id (os_path_basename vehicle_folder) w Hwf)
    as Hwith1.
  cbv zeta in Hrun1.
  destruct (with_folder root_folder_id (os_path_basename vehicle_folder) w) as [[i l] n].
  destruct Hwith1 as (Hnd & Hlt & Hfolder & Hkeep & _).
  rewrite Hreports in Hrun1. cbv zeta in Hrun1.
  match type of Hrun1 with _ = (_, ?w') => set (w1 := w') in * end.
  assert (Hwf1 : wf w1).
  { split; cbn [w1 items next_id].
    + rewrite fmap_app. apply NoDup_app. split; [by apply ids_filter|].
      split; [|apply NoDup_singleton].
      intros x Hx Hx'. cbn in Hx'. apply list_elem_of_singleton in Hx'. subst x.
      apply list_elem_of_fmap in Hx as (it & Hid & Hit).
      apply list_elem_of_filter in Hit as [_ Hit]. apply Hlt in Hit. lia.
    + intros it [Hit|Hit]%elem_of_app.
      * apply list_elem_of_filter in Hit as [_ Hit]. apply Hlt in Hit. lia.
      * apply list_elem_of_singleton in Hit. subst it. cbn. lia. }
  assert (Hfolder1 : folder_id_of root_folder_id (os_path_basename vehicle_folder)
                       (items w1) = Some i).
  { cbn [w1 items]. unfold folder_id_of in *. rewrite filter_app, list_filter_filter.
    rewrite filter_cons_False, filter_nil, app_nil_r.
    2:{ unfold is_folder_named. cbn. by rewrite bool_decide_eq_false_2. }
    rewrite <- Hfolder. do 2 f_equal. apply list_filter_iff. intros it.
    split; [by intros [? _]|]. intros Hit. split; [done|].
    unfold is_folder_named, is_doc_in in *.
    apply andb_true_iff in Hit as [[Hk _]%andb_true_iff _].
    apply bool_decide_eq_true in Hk. rewrite Hk.
    by rewrite (bool_decide_eq_false_2 (Folder = Docx)), andb_false_r. }
  pose proof (upload_run E vehicle_folder root_folder_id names w1 Hwf1 Hnames) as Hrun2.
  cbv zeta in Hrun2. unfold with_folder in Hrun2. rewrite Hfolder1, Hreports in Hrun2.
  cbv zeta in Hrun2.
  eexists w1, _, i, _. split; [exact Hrun1|]. split; [exact Hrun2|].
  split; [exact Hfolder1|]. cbn [items]. split; [|split].
  - unfold folder_id_of in *. rewrite filter_app, list_filter_filter.
    rewrite filter_cons_False, filter_nil, app_nil_r.
    2:{ unfold is_folder_named. cbn. by rewrite bool_decide_eq_false_2. }
    rewrite <- Hfolder1. do 2 f_equal. apply list_filter_iff. intros it.
    split; [by intros [? _]|]. intros Hit. split; [done|].
    unfold is_folder_named, is_doc_in in *.
    apply andb_true_iff in Hit as [[Hk _]%andb_true_iff _].
    apply bool_decide_eq_true in Hk. rewrite Hk.
    by rewrite (bool_decide_eq_false_2 (Folder = Docx)), andb_false_r.
  - unfold docs_in. rewrite filter_app, list_filter_filter.
    rewrite filter_nothing by (intros it _ [H1 H2]; congruence).
    rewrite filter_cons_True; [done|]. unfold is_doc_in. cbn.
    by rewrite !bool_decide_eq_true_2.
  - done.
Qed.

End UploadFacts.

(** ** From script 3 to script 4 *)

Module PipelineFacts.
Import Py StrFacts.



End PipelineFacts.

(** ** The theorems on the samples *)

Module MoreSamples.
Import Py MoreDemo.

Ltac in_list H :=
  repeat (apply elem_of_cons in H as [->|H]; [|]); [..|by apply elem_of_nil in H].

(** *** email_reader_attachment_download.py *)

Lemma re_search_dmy_finds_a_date_in_the_text_witness :
  (exists before after, "Report of 5/11/2025, CAN" = before +:+ "5/11/2025" +:+ after) /\
  (8 <= String.length "5/11/2025" <= 10)%nat /\
  EmailReader.match_dmy "5/11/2025" = Some "5/11/2025".
Proof.
  apply (EmailMore.re_search_dmy_finds_a_date_in_the_text "Report of 5/11/2025, CAN").
  vm_compute. reflexivity.
Defined.

Lemma connection_failure_is_raised_witness :
  EmailReader.fetch_reports_for_all_vehicles E_offline EmailDemo.w0
  = (Raise (Exception "gaierror"),
     {| EmailReader.disk := ∅;
        EmailReader.journal :=
          [EmailReader.Log EmailReader.INFO EmailReader.StartingPhase2;
           EmailReader.Login;
           EmailReader.Log EmailReader.ERROR
             (EmailReader.FailedToConnect (Exception "gaierror"))] |}).
Proof.
  apply (EmailMore.connection_failure_is_raised E_offline
           ["V1,truck"; ""; " V2 "; "V3,van"; "V4"] (Exception "gaierror") EmailDemo.w0).
  - reflexivity.
  - vm_compute. discriminate.
  - reflexivity.
Defined.

Lemma mailbox_logged_out_once_witness :
  exists w' tr,
    EmailReader.fetch_reports_for_all_vehicles EmailDemo.E EmailDemo.w0 = (Ok tt, w') /\
    EmailReader.journal w'
    = EmailReader.journal EmailDemo.w0
      ++ [EmailReader.Log EmailReader.INFO EmailReader.StartingPhase2; EmailReader.Login]
      ++ tr
      ++ [EmailReader.Logout; EmailReader.Log EmailReader.INFO EmailReader.AllFetched] /\
    forallb EmailSpec.plain tr = true /\
    EmailReader.entered tr
    = EmailReader.read_vehicle_ids ["V1,truck"; ""; " V2 "; "V3,van"; "V4"].
Proof.
  apply (EmailMore.mailbox_logged_out_once EmailDemo.E
           ["V1,truck"; ""; " V2 "; "V3,van"; "V4"] EmailDemo.w0).
  - reflexivity.
  - vm_compute. discriminate.
  - reflexivity.
Defined.

(** *** The pools *)

Lemma no_worker_no_report_witness :
  let c := {| Pool.tasks := []; Pool.ctl := Pool.Returned;
              Pool.trace := [Pool.ExecutorError (Exception "ValueError"); Pool.AllDone] |} in
  rtc (Pool.step (ReportGenerator.run_executor ReportGenerator.E_two
                    ["download/V1"; "download/V2"] 0)) Pool.init c /\
  (c = Pool.init \/
   c = {| Pool.tasks := []; Pool.ctl := Pool.Closing;
          Pool.trace := [Pool.ExecutorError (Exception "ValueError")] |} \/
   c = {| Pool.tasks := []; Pool.ctl := Pool.Returned;
          Pool.trace := [Pool.ExecutorError (Exception "ValueError"); Pool.AllDone] |}).
Proof.
  cbv zeta.
  assert (Hrun : rtc (Pool.step (ReportGenerator.run_executor ReportGenerator.E_two
                                   ["download/V1"; "download/V2"] 0)) Pool.init
                   {| Pool.tasks := []; Pool.ctl := Pool.Returned;
                      Pool.trace := [Pool.ExecutorError (Exception "ValueError");
                                     Pool.AllDone] |}).
  { apply (rtc_l _ _ {| Pool.tasks := []; Pool.ctl := Pool.Closing;
                        Pool.trace := [Pool.ExecutorError (Exception "ValueError")] |}).
    - exact (Pool.step_refused
               (ReportGenerator.run_executor ReportGenerator.E_two
                  ["download/V1"; "download/V2"] 0) Pool.init eq_refl
               (Z.le_refl 0)).
    - apply rtc_once.
      exact (Pool.step_close
               (ReportGenerator.run_executor ReportGenerator.E_two
                  ["download/V1"; "download/V2"] 0)
               {| Pool.tasks := []; Pool.ctl := Pool.Closing;
                  Pool.trace := [Pool.ExecutorError (Exception "ValueError")] |} eq_refl). }
  split; [exact Hrun|].
  apply (PoolMore.no_worker_no_report ReportGenerator.E_two
           ["download/V1"; "download/V2"] 0 _ (Z.le_refl 0) Hrun).
Defined.

Lemma every_folder_once_witness :
  exists c,
    rtc (Pool.step (ReportGenerator.run_executor ReportGenerator.E_two ["download/V1"] 1))
        Pool.init c /\
    Pool.ctl c = Pool.Returned /\
    PoolTrace.submitted (Pool.trace c) = seq 0 (length (Pool.tasks c)) /\
    PoolTrace.finished (Pool.trace c) ≡ₚ [0%nat].
Proof.
  destruct (PoolFacts.one_task_run
              (ReportGenerator.run_executor ReportGenerator.E_two ["download/V1"] 1))
    as (c & Hrun & Hret); try reflexivity.
  exists c. split; [exact Hrun|]. split; [exact Hret|].
  destruct (PoolMore.every_folder_once
              (ReportGenerator.run_executor ReportGenerator.E_two ["download/V1"] 1) c Hrun)
    as (Hsub & _ & _ & _ & _ & Hall).
  split; [exact Hsub|]. apply Hall; [exact Hret|reflexivity].
Defined.

(** *** Launcher.py *)

Lemma sticker_names_ok (d : string) :
  d ∈ (filter (fun e : string * bool => e.2 = true) sticker_entries).*1 ->
  d <> "" /\ Str.has "/" d = false /\ Str.strip d = d.
Proof.
  change ((filter (fun e : string * bool => e.2 = true) sticker_entries).*1)
    with ["cats"; "birds"; "dogs"].
  intros H. in_list H; by vm_compute.
Qed.

Lemma sticker_names_NoDup :
  NoDup (filter (fun e : string * bool => e.2 = true) sticker_entries).*1.
Proof.
  change ((filter (fun e : string * bool => e.2 = true) sticker_entries).*1)
    with ["cats"; "birds"; "dogs"].
  apply (bool_decide_unpack _). by vm_compute.
Qed.

Lemma get_sticker_folder_rotates_witness :
  exists q,
    Launcher.sorted
      (Launcher.os_path_join Launcher.STICKERS_DIR
       <$> (filter (fun e : string * bool => e.2 = true) sticker_entries).*1)
    !! ((0 + 1) mod
        length (Launcher.sorted
                  (Launcher.os_path_join Launcher.STICKERS_DIR
                   <$> (filter (fun e : string * bool => e.2 = true) sticker_entries).*1)))%nat
    = Some q /\
    Launcher.get_sticker_folder (stickers3 "birds ")
    = (Ok (Some q),
       {| Launcher.stickers := Launcher.stickers (stickers3 "birds ");
          Launcher.state := Launcher.Content (Launcher.os_path_basename q);
          Launcher.state_writable := true;
          Launcher.stdout := Launcher.stdout (stickers3 "birds ")
                             ++ [Launcher.UsingFolder q] |}).
Proof.
  apply (LauncherMore.get_sticker_folder_rotates (stickers3 "birds ") sticker_entries
           "birds " 0 "sticker/birds").
  - reflexivity.
  - exact sticker_names_NoDup.
  - intros d Hd. destruct (sticker_names_ok d Hd) as (? & ? & _). by split.
  - reflexivity.
  - reflexivity.
  - by vm_compute.
  - by vm_compute.
Defined.

Lemma get_sticker_folder_goes_round_witness :
  exists q,
    Launcher.sorted
      (Launcher.os_path_join Launcher.STICKERS_DIR
       <$> (filter (fun e : string * bool => e.2 = true) sticker_entries).*1)
    !! ((0 + 3) mod
        length (Launcher.sorted
                  (Launcher.os_path_join Launcher.STICKERS_DIR
                   <$> (filter (fun e : string * bool => e.2 = true) sticker_entries).*1)))%nat
    = Some q /\
    let w' := Nat.iter 3 (fun w => (Launcher.get_sticker_folder w).2) (stickers3 "birds") in
    Launcher.stickers w' = Launcher.Dir sticker_entries /\
    Launcher.state w' = Launcher.Content (Launcher.os_path_basename q) /\
    Launcher.state_writable w' = true.
Proof.
  apply (LauncherMore.get_sticker_folder_goes_round (stickers3 "birds") sticker_entries
           0 "sticker/birds" 3).
  - reflexivity.
  - exact sticker_names_NoDup.
  - exact sticker_names_ok.
  - by vm_compute.
  - reflexivity.
  - by vm_compute.
Defined.

(** *** Octopus_login.py *)

Lemma click_date_in_calendar_reaches_the_day_witness :
  Octopus._click_date_in_calendar (2026, 11, 4) (2026, 8, 20) page0
  = (Ok tt,
     {| Octopus.shown := (2026, 8);
        Octopus.clicks := [] ++ replicate 3 Octopus.ClickPrevious
                          ++ [Octopus.ClickDay (2026, 8, 20)];
        Octopus.log := [] |}).
Proof.
  apply (OctopusFacts.click_date_in_calendar_reaches_the_day (2026, 11, 4) (2026, 8, 20)
           page0); cbn; [lia|lia|reflexivity].
Defined.

Lemma click_date_in_calendar_misses_elsewhere_witness :
  exists p',
    Octopus._click_date_in_calendar (2026, 12, 2) (2026, 12, 1) page0
    = (Raise (Exception "TimeoutError"), p') /\
    Octopus.shown p' <> (2026, 12).
Proof.
  apply (OctopusFacts.click_date_in_calendar_misses_elsewhere (2026, 12, 2) (2026, 12, 1)
           2026 11 page0); cbn; [lia|lia|lia|reflexivity|discriminate].
Defined.

Lemma select_end_date_tries_up_to_retries_witness :
  exists r p' new,
    Octopus.select_end_date (2026, 12, 2) (ret tt) (2026, 12, 1) 3 page0 = (r, p') /\
    Octopus.log p' = Octopus.log page0 ++ new /\
    ((3 <= 0 /\ r = Ok None /\ p' = page0) \/
     (exists k, 1 <= k <= 3 /\ r = Ok (Some true) /\
                Octopus.failed_attempts new = Octopus.range 1 k /\
                last new = Some Octopus.EndDateSelected) \/
     (1 <= 3 /\ r = Raise (Exception "Could not select End Date") /\
      Octopus.failed_attempts new = Octopus.range 1 (3 + 1))).
Proof.
  apply (OctopusFacts.select_end_date_tries_up_to_retries (2026, 12, 2) (ret tt)
           (2026, 12, 1) 3 page0).
  intros q. reflexivity.
Defined.

Lemma read_vehicle_list_within_script2_ids_witness :
  exists vehicles skipped,
    Octopus.read_vehicle_list O o0
    = (Ok vehicles, {| Octopus.journal := Octopus.journal o0 ++ skipped |}) /\
    vehicles.*1 `sublist_of` EmailReader.read_vehicle_ids vehicle_lines /\
    forallb Octopus.is_skipping skipped = true /\
    (length vehicles + length skipped)%nat
    = length (EmailReader.read_vehicle_ids vehicle_lines).
Proof.
  apply (OctopusFacts.read_vehicle_list_within_script2_ids O vehicle_lines o0).
  reflexivity.
Defined.

Lemma main_stops_at_the_first_failure_witness :
  exists tr,
    Octopus.main O o0
    = (Raise (Exception "TimeoutError"),
       {| Octopus.journal := Octopus.journal (Octopus.read_vehicle_list O o0).2 ++ tr |}) /\
    tr = ([("V1", (2026, 11, 1))] ≫= Octopus.portal_events (Octopus.yesterday O))
         ++ [Octopus.Processing "V2" (2026, 10, 15) (Octopus.yesterday O);
             Octopus.Launch "V2"; Octopus.Close] /\
    Octopus.launched tr = [("V1", (2026, 11, 1))].*1 ++ ["V2"] /\
    Octopus.fetches tr = 0%nat /\ Octopus.generations tr = 0%nat.
Proof.
  apply (OctopusFacts.main_stops_at_the_first_failure O [("V1", (2026, 11, 1))] []
           ("V2", (2026, 10, 15)) (Exception "TimeoutError") o0
           (Octopus.read_vehicle_list O o0).2).
  - reflexivity.
  - reflexivity.
  - by vm_compute.
  - reflexivity.
  - intros u Hu. in_list Hu. reflexivity.
  - reflexivity.
Defined.

(** *** Launcher.py: the flows *)

Lemma run_script_gives_the_buttons_back_witness :
  exists g' d,
    LauncherGUI.run_script O 1 gui0 = (Ok tt, g') /\
    LauncherGUI.buttons_enabled g' = true /\
    LauncherGUI.status_label g' = LauncherGUI.Ready /\
    LauncherGUI.dialogs g' = LauncherGUI.dialogs gui0 ++ [d] /\
    (d = LauncherGUI.ShowInfo 1 \/ exists e, d = LauncherGUI.ShowError e).
Proof.
  apply (LauncherGUIFacts.run_script_gives_the_buttons_back O 1 gui0). lia.
Defined.

Lemma run_script1_flow_calls_the_later_scripts_twice_witness :
  let g' := (LauncherGUI.run_script1_flow O_smooth gui0).2 in
  Octopus.fetches (Octopus.journal (LauncherGUI.pipeline g'))
  = (Octopus.fetches (Octopus.journal (LauncherGUI.pipeline gui0)) + 2)%nat /\
  Octopus.generations (Octopus.journal (LauncherGUI.pipeline g'))
  = (Octopus.generations (Octopus.journal (LauncherGUI.pipeline gui0)) + 2)%nat.
Proof.
  cbv zeta.
  apply (LauncherGUIFacts.run_script1_flow_calls_the_later_scripts_twice O_smooth gui0
           (LauncherGUI.run_script1_flow O_smooth gui0).2
           (LauncherGUI.run_script1_flow O_smooth gui0).1).
  - apply surjective_pairing.
  - by vm_compute.
Defined.

(** *** report_generator.py and script4.py *)

Lemma generate_report_keeps_the_sheets_witness :
  exists w' files',
    VehicleReport.generate_report_for_vehicle V "download/V1"
      (VehicleReport.progress_wrapper true) v0 = (Ok tt, w') /\
    VehicleReport.disk w' = <["download/V1" := files']> (VehicleReport.disk v0) /\
    forall n, VehicleReport.is_report n = false -> files' !! n = files_V1 !! n.
Proof.
  apply (VehicleReportFacts.generate_report_keeps_the_sheets V true "download/V1"
           files_V1 v0).
  apply lookup_singleton_eq.
Defined.

Lemma generate_report_deletes_the_old_reports_witness :
  exists w' files',
    VehicleReport.generate_report_for_vehicle V "download/V1"
      (VehicleReport.progress_wrapper false) v0 = (Ok tt, w') /\
    VehicleReport.disk w' = <["download/V1" := files']> (VehicleReport.disk v0) /\
    (forall n c, VehicleReport.is_report n = true -> files' !! n = Some c ->
                 n = VehicleReport.report_name "download/V1" /\
                 c = VehicleReport.Document) /\
    ((forall n c, files_V1 !! n = Some c -> VehicleReport.is_xlsx n = false) ->
     forall n, VehicleReport.is_report n = true -> files' !! n = None).
Proof.
  apply (VehicleReportFacts.generate_report_deletes_the_old_reports V false "download/V1"
           files_V1 v0).
  - apply lookup_singleton_eq.
  - intros n. reflexivity.
Defined.

Lemma generate_report_leaves_one_report_at_most_witness :
  exists w' files',
    VehicleReport.generate_report_for_vehicle V "download/V1"
      (VehicleReport.progress_wrapper true) v0 = (Ok tt, w') /\
    VehicleReport.disk w' !! "download/V1" = Some files' /\
    (filter (fun f => VehicleReport.is_report f = true) (map_to_list files').*1 = [] \/
     filter (fun f => VehicleReport.is_report f = true) (map_to_list files').*1
     = [VehicleReport.report_name "download/V1"] /\
     files' !! VehicleReport.report_name "download/V1" = Some VehicleReport.Document).
Proof.
  apply (VehicleReportFacts.generate_report_leaves_one_report_at_most V true
           "download/V1" files_V1 v0).
  - apply lookup_singleton_eq.
  - intros n. reflexivity.
Defined.

Lemma task_marks_done_whatever_happened_witness :
  exists w',
    VehicleReport.task V true "download/V1" v0
    = (Ok (PyStr (VehicleReport.os_path_basename "download/V1")), w') /\
    VehicleReport.vehicle_widgets w' !! VehicleReport.os_path_basename "download/V1"
    = Some (100, VehicleReport.Done).
Proof.
  apply (VehicleReportFacts.task_marks_done_whatever_happened V "download/V1" files_V1
           (0, VehicleReport.Waiting) v0).
  - apply lookup_singleton_eq.
  - apply (lookup_singleton_eq (M := gmap string)).
Defined.

Lemma d0_wf : Upload.wf d0.
Proof.
  split.
  - apply (bool_decide_unpack _). by vm_compute.
  - intros it Hit. cbn in Hit. in_list Hit; cbn; lia.
Qed.

Lemma upload_replaces_the_documents_witness :
  exists w' folder_id doc,
    Upload.upload_vehicle_report U "download/V1" 0 d0 = (Ok tt, w') /\
    Upload.wf w' /\
    Upload.folder_id_of 0 (Upload.os_path_basename "download/V1") (Upload.items w')
    = Some folder_id /\
    Upload.docs_in folder_id (Upload.items w') = [doc] /\
    Upload.item_name doc
    = Upload.os_path_basename (Upload.os_path_join "download/V1" "temp_report_V1.docx") /\
    (forall it, it ∈ Upload.items d0 -> Upload.is_doc_in folder_id it = false ->
                it ∈ Upload.items w').
Proof.
  apply (UploadFacts.upload_replaces_the_documents U "download/V1" 0
           (map_to_list files_V1').*1 "temp_report_V1.docx" [] d0).
  - exact d0_wf.
  - reflexivity.
  - by vm_compute.
Defined.

Lemma upload_without_report_deletes_nothing_witness :
  exists w' folder_id,
    Upload.upload_vehicle_report U "download/V2" 0 d0 = (Ok tt, w') /\
    Upload.folder_id_of 0 (Upload.os_path_basename "download/V2") (Upload.items w')
    = Some folder_id /\
    (Upload.items w' = Upload.items d0 \/
     Upload.items w'
     = Upload.items d0
       ++ [{| Upload.item_id := folder_id;
              Upload.item_name := Upload.os_path_basename "download/V2";
              Upload.item_kind := Upload.Folder;
              Upload.item_parent := Some 0%nat |}]) /\
    Upload.docs_in folder_id (Upload.items w') = Upload.docs_in folder_id (Upload.items d0) /\
    Upload.progress w'
    = Upload.progress d0 ++ [(Upload.os_path_basename "download/V2", 0, Upload.NoReport)].
Proof.
  apply (UploadFacts.upload_without_report_deletes_nothing U "download/V2" 0 ["b.xlsx"] d0).
  - exact d0_wf.
  - reflexivity.
  - by vm_compute.
Defined.

Lemma upload_twice_leaves_one_document_witness :
  exists w1 w2 folder_id doc,
    Upload.upload_vehicle_report U "download/V1" 0 d0 = (Ok tt, w1) /\
    Upload.upload_vehicle_report U "download/V1" 0 w1 = (Ok tt, w2) /\
    Upload.folder_id_of 0 (Upload.os_path_basename "download/V1") (Upload.items w1)
    = Some folder_id /\
    Upload.folder_id_of 0 (Upload.os_path_basename "download/V1") (Upload.items w2)
    = Some folder_id /\
    Upload.docs_in folder_id (Upload.items w2) = [doc] /\
    Upload.item_name doc
    = Upload.os_path_basename (Upload.os_path_join "download/V1" "temp_report_V1.docx").
Proof.
  apply (UploadFacts.upload_twice_leaves_one_document U "download/V1" 0
           (map_to_list files_V1').*1 "temp_report_V1.docx" [] d0).
  - exact d0_wf.
  - reflexivity.
  - by vm_compute.
Defined.


End MoreSamples.

